(** * IoTHubClient_LL: the message-lifecycle core of the device client

    A shallow embedding of [firmware/iothub_client_ll.c].  The C program
    works on a heap of records linked by intrusive doubly-linked lists
    ([DLIST_ENTRY]), calls into a transport through function pointers and
    into the application through callbacks.  Here

    - memory is a finite map from addresses to typed objects;
    - a C function is a computation in a state-and-failure monad over a
      [World]: the heap, the trace of the calls that leave the module, and
      the answers the environment gives (clock, allocator, transport);
    - a computation yields [None] when the C program would touch memory
      that is not allocated or not of the expected type, and when a loop
      runs out of the fuel it was given.

    A call through a function pointer of the transport, a call of an
    application callback and the release of a message copy or of the tick
    counter are events of the trace.  What the callee does to memory is not
    part of the model: where a function goes on after such a call, its
    theorem takes the callee to leave the records of this module alone; the
    transport's do-work, the last thing a drive call does, may take entries
    off the queue, which is a change of the world between two calls.  Reads
    of the clocks, [malloc] and the results the transport returns are
    answers of the environment.

    [IoTHubClient_LL_CreateFromConnectionString] (string parsing in front of
    [IoTHubClient_LL_Create]) and [IoTHubClient_LL_GetSendStatus] (a
    pass-through to the transport) are left out, and so is logging
    ([LogError], [LogInfo], [LOG_ERROR]). *)

From stdpp Require Import gmap strings list sorting.
From Stdlib Require Import ZArith Lia.

Local Open Scope Z_scope.

(** ** Addresses and C types *)

(** Data pointers, function pointers and opaque handles are addresses. *)
Abbreviation ptr := Z.

Definition NULL : ptr := 0.

Definition is_null (p : ptr) : bool := bool_decide (p = NULL).

(** [uint64_t] arithmetic wraps around. *)
Definition UINT64_MOD : Z := 2 ^ 64.

Definition uint64_add (a b : Z) : Z := (a + b) mod UINT64_MOD.

(** [#define INDEFINITE_TIME ((time_t)(-1))] *)
Definition INDEFINITE_TIME : Z := -1.

(** Modelled from the spec: the enumerations of [iothub_client_ll.h] and
    [iothub_message.h], which the source uses and does not declare.  The
    public status codes are ok, invalid-argument, error and indefinite-time;
    a completion status is one of confirmed, destroyed, timeout and error; a
    batch result is success or failed; a disposition is accepted, rejected or
    abandoned.  The names are those the source writes. *)
Inductive IOTHUB_CLIENT_RESULT :=
| IOTHUB_CLIENT_OK
| IOTHUB_CLIENT_INVALID_ARG
| IOTHUB_CLIENT_ERROR
| IOTHUB_CLIENT_INDEFINITE_TIME.

(** Modelled from the spec: see [IOTHUB_CLIENT_RESULT]. *)
Inductive IOTHUB_CLIENT_CONFIRMATION_RESULT :=
| IOTHUB_CLIENT_CONFIRMATION_OK
| IOTHUB_CLIENT_CONFIRMATION_BECAUSE_DESTROY
| IOTHUB_CLIENT_CONFIRMATION_MESSAGE_TIMEOUT
| IOTHUB_CLIENT_CONFIRMATION_ERROR.

(** Modelled from the spec: see [IOTHUB_CLIENT_RESULT]. *)
Inductive IOTHUB_BATCHSTATE_RESULT :=
| IOTHUB_BATCHSTATE_SUCCESS
| IOTHUB_BATCHSTATE_FAILED.

(** Modelled from the spec: see [IOTHUB_CLIENT_RESULT]. *)
Inductive IOTHUBMESSAGE_DISPOSITION_RESULT :=
| IOTHUBMESSAGE_ACCEPTED
| IOTHUBMESSAGE_REJECTED
| IOTHUBMESSAGE_ABANDONED.

#[global] Instance IOTHUB_CLIENT_RESULT_eq_dec :
  EqDecision IOTHUB_CLIENT_RESULT.
Proof. solve_decision. Defined.

#[global] Instance IOTHUB_BATCHSTATE_RESULT_eq_dec :
  EqDecision IOTHUB_BATCHSTATE_RESULT.
Proof. solve_decision. Defined.

(** Modelled from the spec: [DLIST_ENTRY] of [doublylinkedlist.h], the two
    links of a node of an intrusive doubly-linked list; the source reads
    [Flink]. *)
Record DLIST_ENTRY := mkDLIST_ENTRY {
  Flink : ptr;
  Blink : ptr
}.

(** Modelled from the spec: [IOTHUB_MESSAGE_LIST] of
    [iothub_client_private.h], the record the core and the transport
    exchange (message copy, callback, context, expiry), with the fields the
    source reads and writes. *)
Record IOTHUB_MESSAGE_LIST := mkIOTHUB_MESSAGE_LIST {
  messageHandle : ptr;
  callback : ptr;
  context : ptr;
  entry : DLIST_ENTRY;
  ms_timesOutAfter : Z
}.

(** [IOTHUB_CLIENT_LL_HANDLE_DATA].  The function pointers of
    [TRANSPORT_PROVIDER_FIELDS] are bound once by [setTransportProtocol];
    a call through one of them is an event of the trace below. *)
Record IOTHUB_CLIENT_LL_HANDLE_DATA := mkHANDLE_DATA {
  waitingToSend : DLIST_ENTRY;
  transportHandle : ptr;
  isSharedTransport : bool;
  deviceHandle : ptr;
  messageCallback : ptr;
  messageUserContextCallback : ptr;
  lastMessageReceiveTime : Z;
  tickCounter : ptr;
  currentMessageTimeout : Z
}.

(** ** Memory *)

(** What lives at an address.  A pointer to the [DLIST_ENTRY] embedded in a
    record and the pointer to the record are the same address here:
    [containingRecord] and [&(handleData->waitingToSend)] only change the
    type at which the address is read. *)
Inductive object :=
| ObjHandle (h : IOTHUB_CLIENT_LL_HANDLE_DATA)
| ObjMessage (m : IOTHUB_MESSAGE_LIST)
| ObjListHead (e : DLIST_ENTRY)
| ObjTime (t : Z)
| ObjUInt64 (v : Z).

Abbreviation memory := (gmap Z object).

Definition links_of (o : object) : option DLIST_ENTRY :=
  match o with
  | ObjHandle h => Some (waitingToSend h)
  | ObjMessage m => Some (entry m)
  | ObjListHead e => Some e
  | ObjTime _ | ObjUInt64 _ => None
  end.

Definition set_entry (e : DLIST_ENTRY) (m : IOTHUB_MESSAGE_LIST) :
  IOTHUB_MESSAGE_LIST :=
  mkIOTHUB_MESSAGE_LIST (messageHandle m) (callback m) (context m) e
                        (ms_timesOutAfter m).

Definition set_waitingToSend (e : DLIST_ENTRY)
  (h : IOTHUB_CLIENT_LL_HANDLE_DATA) : IOTHUB_CLIENT_LL_HANDLE_DATA :=
  mkHANDLE_DATA e (transportHandle h) (isSharedTransport h) (deviceHandle h)
                (messageCallback h) (messageUserContextCallback h)
                (lastMessageReceiveTime h) (tickCounter h)
                (currentMessageTimeout h).

Definition set_links (e : DLIST_ENTRY) (o : object) : object :=
  match o with
  | ObjHandle h => ObjHandle (set_waitingToSend e h)
  | ObjMessage m => ObjMessage (set_entry e m)
  | ObjListHead _ => ObjListHead e
  | ObjTime _ | ObjUInt64 _ => o
  end.

(** The part of an object the list operations never write. *)
Definition payload (o : object) : object := set_links (mkDLIST_ENTRY 0 0) o.

Definition hload_Flink (p : ptr) (m : memory) : option ptr :=
  o ← m !! p; e ← links_of o; Some (Flink e).

Definition hload_Blink (p : ptr) (m : memory) : option ptr :=
  o ← m !! p; e ← links_of o; Some (Blink e).

Definition hstore_Flink (p v : ptr) (m : memory) : option memory :=
  o ← m !! p; e ← links_of o;
  Some (<[p := set_links (mkDLIST_ENTRY v (Blink e)) o]> m).

Definition hstore_Blink (p v : ptr) (m : memory) : option memory :=
  o ← m !! p; e ← links_of o;
  Some (<[p := set_links (mkDLIST_ENTRY (Flink e) v) o]> m).

Definition hload_message (p : ptr) (m : memory) : option IOTHUB_MESSAGE_LIST :=
  match m !! p with
  | Some (ObjMessage r) => Some r
  | _ => None
  end.

Definition hload_handle (p : ptr) (m : memory) :
  option IOTHUB_CLIENT_LL_HANDLE_DATA :=
  match m !! p with
  | Some (ObjHandle r) => Some r
  | _ => None
  end.

(** ** The world *)

(** The calls to the transport and to the application, and the releases of
    message copies and of the tick counter, in the order they are made. *)
Inductive event :=
| EvEventConfirmation (cb : ptr) (r : IOTHUB_CLIENT_CONFIRMATION_RESULT)
                      (ctx : ptr)
| EvMessageCallback (cb msg ctx : ptr)
| EvMessageDestroy (msg : ptr)
| EvTransportCreate
| EvTransportRegister (transport : ptr) (client : ptr)
| EvTransportUnregister (device : ptr)
| EvTransportDestroy (transport : ptr)
| EvTransportSubscribe (device : ptr)
| EvTransportUnsubscribe (device : ptr)
| EvTransportDoWork (transport : ptr) (client : ptr)
| EvTransportSetOption (transport : ptr) (name : string) (value : ptr)
| EvTickCounterDestroy (tc : ptr).

(** What the environment answers during one call of the API. *)
Record Environment := mkEnvironment {
  (** [tickcounter_get_current_ms]: the reading, [None] for a non-zero
      return *)
  env_tick_ms : option Z;
  (** [get_time(NULL)] *)
  env_time : Z;
  (** [malloc] returns [NULL] *)
  env_malloc_fails : bool;
  (** [tickcounter_create()] *)
  env_tickcounter_create : ptr;
  (** [IoTHubMessage_Clone] *)
  env_message_clone : ptr;
  (** the application's message callback *)
  env_message_disposition : IOTHUBMESSAGE_DISPOSITION_RESULT;
  (** the transport's [_Create], [_Register], [_Subscribe], [_SetOption] *)
  env_transport_create : ptr;
  env_transport_register : ptr;
  env_transport_subscribe : Z;
  env_transport_setoption : IOTHUB_CLIENT_RESULT
}.

Record World := mkWorld {
  heap : gmap Z object;
  trace : list event;
  env : Environment
}.

Definition set_heap (m : memory) (w : World) : World :=
  mkWorld m (trace w) (env w).

Definition set_env (e : Environment) (w : World) : World :=
  mkWorld (heap w) (trace w) e.

(** ** The monad of C computations *)

Definition M (A : Type) : Type := World → option (A * World).

#[global] Instance M_ret : MRet M := λ A (a : A) w, Some (a, w).

#[global] Instance M_bind : MBind M := λ A B (f : A → M B) (c : M A) w,
  match c w with
  | Some (a, w') => f a w'
  | None => None
  end.

Definition fault {A} : M A := λ _, None.

Definition lift_heap {A} (f : memory → option A) : M A :=
  λ w, match f (heap w) with Some a => Some (a, w) | None => None end.

Definition update_heap (f : memory → option memory) : M unit :=
  λ w, match f (heap w) with
       | Some m => Some (tt, set_heap m w)
       | None => None
       end.

Definition emit (e : event) : M unit :=
  λ w, Some (tt, mkWorld (heap w) (trace w ++ [e]) (env w)).

Definition ask {A} (f : Environment → A) : M A := λ w, Some (f (env w), w).

Definition load_Flink (p : ptr) : M ptr := lift_heap (hload_Flink p).
Definition load_Blink (p : ptr) : M ptr := lift_heap (hload_Blink p).
Definition store_Flink (p v : ptr) : M unit := update_heap (hstore_Flink p v).
Definition store_Blink (p v : ptr) : M unit := update_heap (hstore_Blink p v).

(** [containingRecord(p, IOTHUB_MESSAGE_LIST, entry)->field] *)
Definition load_message (p : ptr) : M IOTHUB_MESSAGE_LIST :=
  lift_heap (hload_message p).

Definition store_message (p : ptr)
  (f : IOTHUB_MESSAGE_LIST → IOTHUB_MESSAGE_LIST) : M unit :=
  update_heap
    (λ m, r ← hload_message p m; Some (<[p := ObjMessage (f r)]> m)).

Definition load_handle (p : ptr) : M IOTHUB_CLIENT_LL_HANDLE_DATA :=
  lift_heap (hload_handle p).

Definition store_handle (p : ptr)
  (f : IOTHUB_CLIENT_LL_HANDLE_DATA → IOTHUB_CLIENT_LL_HANDLE_DATA) :
  M unit :=
  update_heap
    (λ m, r ← hload_handle p m; Some (<[p := ObjHandle (f r)]> m)).

(** [malloc]: [NULL], or an address that is neither [NULL] nor in use; the
    new object holds [init] until the program writes its fields. *)
Definition malloc (init : object) : M ptr :=
  λ w, if env_malloc_fails (env w) then Some (NULL, w)
       else let p := fresh ({[NULL]} ∪ dom (heap w)) in
            Some (p, set_heap (<[p := init]> (heap w)) w).

(** [free]: the address must hold an object. *)
Definition free (p : ptr) : M unit :=
  update_heap (λ m, _ ← m !! p; Some (delete p m)).

(** ** doublylinkedlist.h *)

(** Modelled from the spec: the functions of [doublylinkedlist.h], which the
    source calls and does not define.  The spec describes the outbound
    queue as an intrusive doubly-linked list with manual unlink, FIFO, a
    new entry appended at the tail; the source's loops end when the cursor
    or the removed head is the list head itself, so the list is circular
    through its head. *)
Definition DList_InitializeListHead (ListHead : ptr) : M unit :=
  store_Flink ListHead ListHead;; store_Blink ListHead ListHead.

(** Modelled from the spec: see [DList_InitializeListHead]; appends [Entry]
    before the head, at the tail of the queue. *)
Definition DList_InsertTailList (ListHead Entry : ptr) : M unit :=
  b ← load_Blink ListHead;
  store_Flink Entry ListHead;;
  store_Blink Entry b;;
  store_Flink b Entry;;
  store_Blink ListHead Entry.

(** Modelled from the spec: see [DList_InitializeListHead]; unlinks the
    first entry and returns it, or returns the head when the list is
    empty. *)
Definition DList_RemoveHeadList (ListHead : ptr) : M ptr :=
  e ← load_Flink ListHead;
  f ← load_Flink e;
  store_Flink ListHead f;;
  store_Blink f ListHead;;
  mret e.

(** Modelled from the spec: see [DList_InitializeListHead]; unlinks [Entry]
    from between its neighbours and tells whether the list became empty. *)
Definition DList_RemoveEntryList (Entry : ptr) : M bool :=
  f ← load_Flink Entry;
  b ← load_Blink Entry;
  store_Flink b f;;
  store_Blink f b;;
  mret (bool_decide (f = b)).

(** ** Field updates *)

Definition set_ms_timesOutAfter (v : Z) (m : IOTHUB_MESSAGE_LIST) :
  IOTHUB_MESSAGE_LIST :=
  mkIOTHUB_MESSAGE_LIST (messageHandle m) (callback m) (context m) (entry m) v.

Definition set_messageHandle (v : ptr) (m : IOTHUB_MESSAGE_LIST) :
  IOTHUB_MESSAGE_LIST :=
  mkIOTHUB_MESSAGE_LIST v (callback m) (context m) (entry m)
                        (ms_timesOutAfter m).

Definition set_callback (v : ptr) (m : IOTHUB_MESSAGE_LIST) :
  IOTHUB_MESSAGE_LIST :=
  mkIOTHUB_MESSAGE_LIST (messageHandle m) v (context m) (entry m)
                        (ms_timesOutAfter m).

Definition set_context (v : ptr) (m : IOTHUB_MESSAGE_LIST) :
  IOTHUB_MESSAGE_LIST :=
  mkIOTHUB_MESSAGE_LIST (messageHandle m) (callback m) v (entry m)
                        (ms_timesOutAfter m).

Definition set_transportHandle (v : ptr) (h : IOTHUB_CLIENT_LL_HANDLE_DATA) :=
  mkHANDLE_DATA (waitingToSend h) v (isSharedTransport h) (deviceHandle h)
                (messageCallback h) (messageUserContextCallback h)
                (lastMessageReceiveTime h) (tickCounter h)
                (currentMessageTimeout h).

Definition set_isSharedTransport (v : bool)
  (h : IOTHUB_CLIENT_LL_HANDLE_DATA) :=
  mkHANDLE_DATA (waitingToSend h) (transportHandle h) v (deviceHandle h)
                (messageCallback h) (messageUserContextCallback h)
                (lastMessageReceiveTime h) (tickCounter h)
                (currentMessageTimeout h).

Definition set_deviceHandle (v : ptr) (h : IOTHUB_CLIENT_LL_HANDLE_DATA) :=
  mkHANDLE_DATA (waitingToSend h) (transportHandle h) (isSharedTransport h) v
                (messageCallback h) (messageUserContextCallback h)
                (lastMessageReceiveTime h) (tickCounter h)
                (currentMessageTimeout h).

Definition set_messageCallback (v : ptr) (h : IOTHUB_CLIENT_LL_HANDLE_DATA) :=
  mkHANDLE_DATA (waitingToSend h) (transportHandle h) (isSharedTransport h)
                (deviceHandle h) v (messageUserContextCallback h)
                (lastMessageReceiveTime h) (tickCounter h)
                (currentMessageTimeout h).

Definition set_messageUserContextCallback (v : ptr)
  (h : IOTHUB_CLIENT_LL_HANDLE_DATA) :=
  mkHANDLE_DATA (waitingToSend h) (transportHandle h) (isSharedTransport h)
                (deviceHandle h) (messageCallback h) v
                (lastMessageReceiveTime h) (tickCounter h)
                (currentMessageTimeout h).

Definition set_lastMessageReceiveTime (v : Z)
  (h : IOTHUB_CLIENT_LL_HANDLE_DATA) :=
  mkHANDLE_DATA (waitingToSend h) (transportHandle h) (isSharedTransport h)
                (deviceHandle h) (messageCallback h)
                (messageUserContextCallback h) v (tickCounter h)
                (currentMessageTimeout h).

Definition set_tickCounter (v : ptr) (h : IOTHUB_CLIENT_LL_HANDLE_DATA) :=
  mkHANDLE_DATA (waitingToSend h) (transportHandle h) (isSharedTransport h)
                (deviceHandle h) (messageCallback h)
                (messageUserContextCallback h) (lastMessageReceiveTime h) v
                (currentMessageTimeout h).

Definition set_currentMessageTimeout (v : Z)
  (h : IOTHUB_CLIENT_LL_HANDLE_DATA) :=
  mkHANDLE_DATA (waitingToSend h) (transportHandle h) (isSharedTransport h)
                (deviceHandle h) (messageCallback h)
                (messageUserContextCallback h) (lastMessageReceiveTime h)
                (tickCounter h) v.

(** Freshly allocated records: [malloc] gives no initial values, and the
    program writes every field before it reads it. *)
Definition uninit_message : IOTHUB_MESSAGE_LIST :=
  mkIOTHUB_MESSAGE_LIST 0 0 0 (mkDLIST_ENTRY 0 0) 0.

Definition uninit_handle : IOTHUB_CLIENT_LL_HANDLE_DATA :=
  mkHANDLE_DATA (mkDLIST_ENTRY 0 0) 0 false 0 0 0 0 0 0.

(** ** Calls that leave the module *)

Definition IoTHubMessage_Clone (msg : ptr) : M ptr :=
  ask env_message_clone.

Definition IoTHubMessage_Destroy (msg : ptr) : M unit :=
  emit (EvMessageDestroy msg).

(** [tickcounter_get_current_ms(tc, &out)]: [Some] reading for a return of
    0; the caller stores the reading where [out] points. *)
Definition tickcounter_get_current_ms (tc : ptr) : M (option Z) :=
  ask env_tick_ms.

Definition tickcounter_create : M ptr := ask env_tickcounter_create.

Definition tickcounter_destroy (tc : ptr) : M unit :=
  emit (EvTickCounterDestroy tc).

Definition get_time : M Z := ask env_time.

Definition IoTHubTransport_Create : M ptr :=
  emit EvTransportCreate;; ask env_transport_create.

Definition IoTHubTransport_Register (transport client : ptr) : M ptr :=
  emit (EvTransportRegister transport client);; ask env_transport_register.

Definition IoTHubTransport_Unregister (device : ptr) : M unit :=
  emit (EvTransportUnregister device).

Definition IoTHubTransport_Destroy (transport : ptr) : M unit :=
  emit (EvTransportDestroy transport).

Definition IoTHubTransport_Subscribe (device : ptr) : M Z :=
  emit (EvTransportSubscribe device);; ask env_transport_subscribe.

Definition IoTHubTransport_Unsubscribe (device : ptr) : M unit :=
  emit (EvTransportUnsubscribe device).

Definition IoTHubTransport_DoWork (transport client : ptr) : M unit :=
  emit (EvTransportDoWork transport client).

Definition IoTHubTransport_SetOption (transport : ptr) (name : string)
  (value : ptr) : M IOTHUB_CLIENT_RESULT :=
  emit (EvTransportSetOption transport name value);;
  ask env_transport_setoption.

(** [callback(status, context)] when [callback != NULL] *)
Definition call_confirmation (cb : ptr)
  (r : IOTHUB_CLIENT_CONFIRMATION_RESULT) (ctx : ptr) : M unit :=
  emit (EvEventConfirmation cb r ctx).

(** ** iothub_client_ll.c *)

(** The fields of [IOTHUB_CLIENT_CONFIG] and [IOTHUB_CLIENT_DEVICE_CONFIG]
    the functions below read; a [NULL] configuration is [None]. *)
Record IOTHUB_CLIENT_CONFIG := mkCONFIG {
  protocol : ptr;
  deviceId : ptr;
  deviceKey : ptr
}.

Record IOTHUB_CLIENT_DEVICE_CONFIG := mkDEVICE_CONFIG {
  dc_protocol : ptr;
  dc_transportHandle : ptr;
  dc_deviceId : ptr;
  dc_deviceKey : ptr
}.

Definition IoTHubClient_LL_Create (config : option IOTHUB_CLIENT_CONFIG) :
  M ptr :=
  match config with
  | None => mret NULL
  | Some c =>
    if is_null (protocol c) then mret NULL
    else
      handleData ← malloc (ObjHandle uninit_handle);
      if is_null handleData then mret NULL
      else
        tc ← tickcounter_create;
        store_handle handleData (set_tickCounter tc);;
        if is_null tc then free handleData;; mret NULL
        else
          DList_InitializeListHead handleData;;
          store_handle handleData (set_messageCallback NULL);;
          store_handle handleData (set_messageUserContextCallback NULL);;
          store_handle handleData (set_lastMessageReceiveTime INDEFINITE_TIME);;
          th ← IoTHubTransport_Create;
          store_handle handleData (set_transportHandle th);;
          if is_null th then
            tickcounter_destroy tc;; free handleData;; mret NULL
          else
            dh ← IoTHubTransport_Register th handleData;
            store_handle handleData (set_deviceHandle dh);;
            if is_null dh then
              IoTHubTransport_Destroy th;;
              tickcounter_destroy tc;; free handleData;; mret NULL
            else
              store_handle handleData (set_isSharedTransport false);;
              store_handle handleData (set_currentMessageTimeout 0);;
              mret handleData
  end.

Definition IoTHubClient_LL_CreateWithTransport
  (config : option IOTHUB_CLIENT_DEVICE_CONFIG) : M ptr :=
  match config with
  | None => mret NULL
  | Some c =>
    if is_null (dc_protocol c) || is_null (dc_transportHandle c) then mret NULL
    else
      handleData ← malloc (ObjHandle uninit_handle);
      if is_null handleData then mret NULL
      else
        tc ← tickcounter_create;
        store_handle handleData (set_tickCounter tc);;
        if is_null tc then free handleData;; mret NULL
        else
          DList_InitializeListHead handleData;;
          store_handle handleData (set_messageCallback NULL);;
          store_handle handleData (set_messageUserContextCallback NULL);;
          store_handle handleData (set_lastMessageReceiveTime INDEFINITE_TIME);;
          store_handle handleData (set_transportHandle (dc_transportHandle c));;
          dh ← IoTHubTransport_Register (dc_transportHandle c) handleData;
          store_handle handleData (set_deviceHandle dh);;
          if is_null dh then
            tickcounter_destroy tc;; free handleData;; mret NULL
          else
            store_handle handleData (set_isSharedTransport true);;
            store_handle handleData (set_currentMessageTimeout 0);;
            mret handleData
  end.

(** The [while] loop of [IoTHubClient_LL_Destroy], which runs until
    [DList_RemoveHeadList(&waitingToSend)] returns [&waitingToSend]. *)
Fixpoint Destroy_loop (fuel : nat) (handleData : ptr) : M unit :=
  match fuel with
  | O => fault
  | S fuel' =>
    unsend ← DList_RemoveHeadList handleData;
    if bool_decide (unsend = handleData) then mret tt
    else
      temp ← load_message unsend;
      (if is_null (callback temp) then mret tt
       else call_confirmation (callback temp)
              IOTHUB_CLIENT_CONFIRMATION_BECAUSE_DESTROY (context temp));;
      temp ← load_message unsend;
      IoTHubMessage_Destroy (messageHandle temp);;
      free unsend;;
      Destroy_loop fuel' handleData
  end.

Definition IoTHubClient_LL_Destroy (fuel : nat) (iotHubClientHandle : ptr) :
  M unit :=
  if is_null iotHubClientHandle then mret tt
  else
    handleData ← load_handle iotHubClientHandle;
    IoTHubTransport_Unregister (deviceHandle handleData);;
    handleData ← load_handle iotHubClientHandle;
    (if isSharedTransport handleData then mret tt
     else IoTHubTransport_Destroy (transportHandle handleData));;
    Destroy_loop fuel iotHubClientHandle;;
    handleData ← load_handle iotHubClientHandle;
    tickcounter_destroy (tickCounter handleData);;
    free iotHubClientHandle.

(** Returns 0 on success, [__LINE__] otherwise. *)
Definition attach_ms_timesOutAfter (handleData newEntry : ptr) : M Z :=
  h ← load_handle handleData;
  if bool_decide (currentMessageTimeout h = 0) then
    store_message newEntry (set_ms_timesOutAfter 0);;
    mret 0
  else
    r ← tickcounter_get_current_ms (tickCounter h);
    match r with
    | None => mret 451
    | Some ms =>
      store_message newEntry (set_ms_timesOutAfter ms);;
      h ← load_handle handleData;
      e ← load_message newEntry;
      store_message newEntry
        (set_ms_timesOutAfter
           (uint64_add (ms_timesOutAfter e) (currentMessageTimeout h)));;
      mret 0
    end.

Definition IoTHubClient_LL_SendEventAsync
  (iotHubClientHandle eventMessageHandle eventConfirmationCallback
     userContextCallback : ptr) : M IOTHUB_CLIENT_RESULT :=
  if is_null iotHubClientHandle || is_null eventMessageHandle
     || (is_null eventConfirmationCallback
         && negb (is_null userContextCallback))
  then mret IOTHUB_CLIENT_INVALID_ARG
  else
    newEntry ← malloc (ObjMessage uninit_message);
    if is_null newEntry then mret IOTHUB_CLIENT_ERROR
    else
      r ← attach_ms_timesOutAfter iotHubClientHandle newEntry;
      if negb (bool_decide (r = 0)) then
        free newEntry;; mret IOTHUB_CLIENT_ERROR
      else
        clone ← IoTHubMessage_Clone eventMessageHandle;
        store_message newEntry (set_messageHandle clone);;
        if is_null clone then
          free newEntry;; mret IOTHUB_CLIENT_ERROR
        else
          store_message newEntry (set_callback eventConfirmationCallback);;
          store_message newEntry (set_context userContextCallback);;
          DList_InsertTailList iotHubClientHandle newEntry;;
          mret IOTHUB_CLIENT_OK.

Definition IoTHubClient_LL_SetMessageCallback
  (iotHubClientHandle messageCallback' userContextCallback : ptr) :
  M IOTHUB_CLIENT_RESULT :=
  if is_null iotHubClientHandle then mret IOTHUB_CLIENT_INVALID_ARG
  else if is_null messageCallback' then
    h ← load_handle iotHubClientHandle;
    IoTHubTransport_Unsubscribe (deviceHandle h);;
    store_handle iotHubClientHandle (set_messageCallback NULL);;
    store_handle iotHubClientHandle (set_messageUserContextCallback NULL);;
    mret IOTHUB_CLIENT_OK
  else
    h ← load_handle iotHubClientHandle;
    r ← IoTHubTransport_Subscribe (deviceHandle h);
    if bool_decide (r = 0) then
      store_handle iotHubClientHandle (set_messageCallback messageCallback');;
      store_handle iotHubClientHandle
        (set_messageUserContextCallback userContextCallback);;
      mret IOTHUB_CLIENT_OK
    else
      store_handle iotHubClientHandle (set_messageCallback NULL);;
      store_handle iotHubClientHandle (set_messageUserContextCallback NULL);;
      mret IOTHUB_CLIENT_ERROR.

(** The [while] loop of [DoTimeouts], from the cursor
    [currentItemInWaitingToSend]. *)
Fixpoint DoTimeouts_loop (fuel : nat) (handleData : ptr) (nowTick : Z)
  (currentItemInWaitingToSend : ptr) : M unit :=
  match fuel with
  | O => fault
  | S fuel' =>
    if bool_decide (currentItemInWaitingToSend = handleData) then mret tt
    else
      fullEntry ← load_message currentItemInWaitingToSend;
      if negb (bool_decide (ms_timesOutAfter fullEntry = 0))
         && bool_decide (ms_timesOutAfter fullEntry < nowTick)
      then
        theNext ← load_Flink currentItemInWaitingToSend;
        DList_RemoveEntryList currentItemInWaitingToSend;;
        fullEntry ← load_message currentItemInWaitingToSend;
        (if is_null (callback fullEntry) then mret tt
         else call_confirmation (callback fullEntry)
                IOTHUB_CLIENT_CONFIRMATION_MESSAGE_TIMEOUT
                (context fullEntry));;
        fullEntry ← load_message currentItemInWaitingToSend;
        IoTHubMessage_Destroy (messageHandle fullEntry);;
        free currentItemInWaitingToSend;;
        DoTimeouts_loop fuel' handleData nowTick theNext
      else
        next ← load_Flink currentItemInWaitingToSend;
        DoTimeouts_loop fuel' handleData nowTick next
  end.

Definition DoTimeouts (fuel : nat) (handleData : ptr) : M unit :=
  h ← load_handle handleData;
  r ← tickcounter_get_current_ms (tickCounter h);
  match r with
  | None => mret tt
  | Some nowTick =>
    first ← load_Flink handleData;
    DoTimeouts_loop fuel handleData nowTick first
  end.

Definition IoTHubClient_LL_DoWork (fuel : nat) (iotHubClientHandle : ptr) :
  M unit :=
  if is_null iotHubClientHandle then mret tt
  else
    DoTimeouts fuel iotHubClientHandle;;
    h ← load_handle iotHubClientHandle;
    IoTHubTransport_DoWork (transportHandle h) iotHubClientHandle.

(** The [while] loop of [IoTHubClient_LL_SendComplete]:
    [while ((oldest = DList_RemoveHeadList(completed)) != completed)]. *)
Fixpoint SendComplete_loop (fuel : nat) (completed : ptr)
  (resultToBeCalled : IOTHUB_CLIENT_CONFIRMATION_RESULT) : M unit :=
  match fuel with
  | O => fault
  | S fuel' =>
    oldest ← DList_RemoveHeadList completed;
    if bool_decide (oldest = completed) then mret tt
    else
      messageList ← load_message oldest;
      (if is_null (callback messageList) then mret tt
       else call_confirmation (callback messageList) resultToBeCalled
              (context messageList));;
      messageList ← load_message oldest;
      IoTHubMessage_Destroy (messageHandle messageList);;
      free oldest;;
      SendComplete_loop fuel' completed resultToBeCalled
  end.

Definition IoTHubClient_LL_SendComplete (fuel : nat) (handle completed : ptr)
  (result : IOTHUB_BATCHSTATE_RESULT) : M unit :=
  if is_null handle || is_null completed then mret tt
  else
    let resultToBeCalled :=
      if bool_decide (result = IOTHUB_BATCHSTATE_SUCCESS)
      then IOTHUB_CLIENT_CONFIRMATION_OK
      else IOTHUB_CLIENT_CONFIRMATION_ERROR in
    SendComplete_loop fuel completed resultToBeCalled.

Definition IoTHubClient_LL_MessageCallback (handle message : ptr) :
  M IOTHUBMESSAGE_DISPOSITION_RESULT :=
  if is_null handle then mret IOTHUBMESSAGE_ABANDONED
  else
    t ← get_time;
    store_handle handle (set_lastMessageReceiveTime t);;
    h ← load_handle handle;
    if negb (is_null (messageCallback h)) then
      emit (EvMessageCallback (messageCallback h) message
              (messageUserContextCallback h));;
      ask env_message_disposition
    else mret IOTHUBMESSAGE_ABANDONED.

(** [*lastMessageReceiveTime = v] *)
Definition store_time (p : ptr) (v : Z) : M unit :=
  update_heap (λ m, match m !! p with
                    | Some (ObjTime _) => Some (<[p := ObjTime v]> m)
                    | _ => None
                    end).

Definition IoTHubClient_LL_GetLastMessageReceiveTime
  (iotHubClientHandle lastMessageReceiveTime' : ptr) : M IOTHUB_CLIENT_RESULT :=
  if is_null iotHubClientHandle || is_null lastMessageReceiveTime' then
    mret IOTHUB_CLIENT_INVALID_ARG
  else
    h ← load_handle iotHubClientHandle;
    if bool_decide (lastMessageReceiveTime h = INDEFINITE_TIME) then
      mret IOTHUB_CLIENT_INDEFINITE_TIME
    else
      h ← load_handle iotHubClientHandle;
      store_time lastMessageReceiveTime' (lastMessageReceiveTime h);;
      mret IOTHUB_CLIENT_OK.

(** [*(const uint64_t* )value] *)
Definition load_uint64 (p : ptr) : M Z :=
  lift_heap (λ m, match m !! p with
                  | Some (ObjUInt64 v) => Some v
                  | _ => None
                  end).

(** [optionName] is [None] for a [NULL] string. *)
Definition IoTHubClient_LL_SetOption (iotHubClientHandle : ptr)
  (optionName : option string) (value : ptr) : M IOTHUB_CLIENT_RESULT :=
  match optionName with
  | None => mret IOTHUB_CLIENT_INVALID_ARG
  | Some name =>
    if is_null iotHubClientHandle || is_null value then
      mret IOTHUB_CLIENT_INVALID_ARG
    else if bool_decide (name = "messageTimeout"%string) then
      v ← load_uint64 value;
      store_handle iotHubClientHandle (set_currentMessageTimeout v);;
      mret IOTHUB_CLIENT_OK
    else
      h ← load_handle iotHubClientHandle;
      IoTHubTransport_SetOption (transportHandle h) name value
  end.

(** ** The queue a list head represents *)

(** [a] is followed by [b]: the forward link of [a] and the backward link of
    [b] agree. *)
Definition linked (m : memory) (a b : ptr) : Prop :=
  hload_Flink a m = Some b ∧ hload_Blink b m = Some a.

(** The nodes [l] lie, in this order, between [p] and [q]. *)
Fixpoint dseg (m : memory) (p : ptr) (l : list ptr) (q : ptr) : Prop :=
  match l with
  | [] => linked m p q
  | x :: l' => linked m p x ∧ dseg m x l' q
  end.

(** The last node of [p :: l]. *)
Fixpoint last_node (p : ptr) (l : list ptr) : ptr :=
  match l with
  | [] => p
  | x :: l' => last_node x l'
  end.

(** A well-formed list: the circle that starts and ends at the head [hd] goes
    through the distinct nodes [l]. *)
Definition dlist (m : memory) (hd : ptr) (l : list ptr) : Prop :=
  NoDup (hd :: l) ∧ dseg m hd l hd.

(** One entry of the outbound queue, as the application sees it: where it
    lives, the message copy, the completion callback and its context, and the
    expiry. *)
Record QueueEntry := mkQueueEntry {
  qe_addr : ptr;
  qe_message : ptr;
  qe_callback : ptr;
  qe_context : ptr;
  qe_expiry : Z
}.

#[global] Instance QueueEntry_eq_dec : EqDecision QueueEntry.
Proof. solve_decision. Defined.

Definition entry_at (m : memory) (p : ptr) : option QueueEntry :=
  r ← hload_message p m;
  Some (mkQueueEntry p (messageHandle r) (callback r) (context r)
                     (ms_timesOutAfter r)).

Definition holds (m : memory) (e : QueueEntry) : Prop :=
  entry_at m (qe_addr e) = Some e.

(** The list headed at [hd] holds exactly the entries [q], head to tail. *)
Definition queue (m : memory) (hd : ptr) (q : list QueueEntry) : Prop :=
  dlist m hd (qe_addr <$> q) ∧ Forall (holds m) q.

(** Two memories that differ at most in the links of their objects. *)
Definition links_equiv (m m' : memory) : Prop :=
  payload <$> m = payload <$> m'.

(** Two memories that agree outside the addresses [s]. *)
Definition unchanged_outside (s : list ptr) (m m' : memory) : Prop :=
  ∀ p, p ∉ s → m' !! p = m !! p.

(** [free] of each address of [s]. *)
Definition free_all (s : list ptr) (m : memory) : memory :=
  foldr delete m s.

(** The entry has a timeout and it lies strictly before [nowTick]. *)
Definition expired (nowTick : Z) (e : QueueEntry) : bool :=
  negb (bool_decide (qe_expiry e = 0)) && bool_decide (qe_expiry e < nowTick).

(** What the application and the message layer see when an entry is completed
    with status [r]: the callback, if there is one, then the release of the
    message copy. *)
Definition completion (r : IOTHUB_CLIENT_CONFIRMATION_RESULT)
  (e : QueueEntry) : list event :=
  (if is_null (qe_callback e) then []
   else [EvEventConfirmation (qe_callback e) r (qe_context e)])
  ++ [EvMessageDestroy (qe_message e)].

Definition completions (r : IOTHUB_CLIENT_CONFIRMATION_RESULT)
  (q : list QueueEntry) : list event :=
  concat (completion r <$> q).

(** The confirmation calls among the events, in order. *)
Definition confirmations (t : list event) :
  list (ptr * IOTHUB_CLIENT_CONFIRMATION_RESULT * ptr) :=
  omap (λ e, match e with
             | EvEventConfirmation cb r ctx => Some (cb, r, ctx)
             | _ => None
             end) t.

(** The status one batch result gives to each of its entries. *)
Definition batch_status (result : IOTHUB_BATCHSTATE_RESULT) :
  IOTHUB_CLIENT_CONFIRMATION_RESULT :=
  match result with
  | IOTHUB_BATCHSTATE_SUCCESS => IOTHUB_CLIENT_CONFIRMATION_OK
  | IOTHUB_BATCHSTATE_FAILED => IOTHUB_CLIENT_CONFIRMATION_ERROR
  end.

(** ** Calls on the inbound path, one after the other *)

Definition set_env_time (t : Z) (e : Environment) : Environment :=
  mkEnvironment (env_tick_ms e) t (env_malloc_fails e)
                (env_tickcounter_create e) (env_message_clone e)
                (env_message_disposition e) (env_transport_create e)
                (env_transport_register e) (env_transport_subscribe e)
                (env_transport_setoption e).

(** The transport delivers [message] when the wall clock reads [t], or the
    application asks for the last receive time, to be written at [out]. *)
Inductive inbound_call :=
| Deliver (t : Z) (message : ptr)
| Query (out : ptr).

(** Time passes: the wall clock now reads [t]. *)
Definition wall_clock (t : Z) : M unit :=
  λ w, Some (tt, set_env (set_env_time t (env w)) w).

(** [*out], read by the application after a query. *)
Definition load_time (p : ptr) : M Z :=
  lift_heap (λ m, match m !! p with
                  | Some (ObjTime t) => Some t
                  | _ => None
                  end).

(** Runs the calls on the client [h]; for every query, the status returned
    and what [out] then points to. *)
Fixpoint run_inbound (h : ptr) (cs : list inbound_call) :
  M (list (IOTHUB_CLIENT_RESULT * Z)) :=
  match cs with
  | [] => mret []
  | Deliver t message :: cs' =>
    wall_clock t;;
    IoTHubClient_LL_MessageCallback h message;;
    run_inbound h cs'
  | Query out :: cs' =>
    r ← IoTHubClient_LL_GetLastMessageReceiveTime h out;
    v ← load_time out;
    rs ← run_inbound h cs';
    mret ((r, v) :: rs)
  end.

(** What a delivery at the wall-clock reading [t] leaves for the queries to
    answer: the reading, unless it is [(time_t)(-1)], which [get_time] gives
    when it has no time and which is also the "indefinite" value. *)
Definition recorded (t : Z) : option Z :=
  if bool_decide (t = INDEFINITE_TIME) then None else Some t.

(** In the words of the spec, read with the value [(time_t)(-1)] in mind: a
    query answers "indefinite" ([None]) before any delivery, and after one
    the time of the most recent delivery, or "indefinite" when that time is
    [(time_t)(-1)]. *)
Fixpoint spec_receive_times (last : option Z) (cs : list inbound_call) :
  list (option Z) :=
  match cs with
  | [] => []
  | Deliver t _ :: cs' => spec_receive_times (recorded t) cs'
  | Query _ :: cs' => last :: spec_receive_times last cs'
  end.

(** The value the client record holds for the last receive time. *)
Definition stored (last : option Z) : Z := default INDEFINITE_TIME last.

(** The timestamps among the answers of the spec. *)
Definition spec_times (last : option Z) (cs : list inbound_call) : list Z :=
  omap id (spec_receive_times last cs).

(** The answer of the code to a query agrees with the answer of the spec. *)
Definition answer_matches (a : IOTHUB_CLIENT_RESULT * Z) (s : option Z) :
  Prop :=
  match s with
  | None => a.1 = IOTHUB_CLIENT_INDEFINITE_TIME
  | Some t => a.1 = IOTHUB_CLIENT_OK ∧ a.2 = t
  end.

Definition delivery_times (cs : list inbound_call) : list Z :=
  omap (λ c, match c with Deliver t _ => Some t | Query _ => None end) cs.

(** The timestamps the queries returned with the status "ok". *)
Definition ok_times (rs : list (IOTHUB_CLIENT_RESULT * Z)) : list Z :=
  omap (λ a, if bool_decide (a.1 = IOTHUB_CLIENT_OK) then Some a.2 else None)
       rs.

(** What a call needs of memory: a query writes to a [time_t].  A delivery
    needs nothing, whatever the wall clock reads. *)
Definition inbound_ok (m : memory) (c : inbound_call) : Prop :=
  match c with
  | Deliver _ _ => True
  | Query out => out ≠ NULL ∧ ∃ t, m !! out = Some (ObjTime t)
  end.

(** ** A small world

    One client at address 100 with three queued messages: at 200 (expiry 5),
    at 300 (no expiry, no callback) and at 400 (expiry 2000); a [time_t] cell
    at 500 and a [uint64_t] cell at 600 holding 500. *)

Definition example_handle : IOTHUB_CLIENT_LL_HANDLE_DATA :=
  mkHANDLE_DATA (mkDLIST_ENTRY 200 400) 50 false 60 0 0 INDEFINITE_TIME 70 0.

Definition example_heap : gmap Z object :=
  <[100 := ObjHandle example_handle]>
  (<[200 := ObjMessage
             (mkIOTHUB_MESSAGE_LIST 21 31 41 (mkDLIST_ENTRY 300 100) 5)]>
  (<[300 := ObjMessage
             (mkIOTHUB_MESSAGE_LIST 22 0 0 (mkDLIST_ENTRY 400 200) 0)]>
  (<[400 := ObjMessage
             (mkIOTHUB_MESSAGE_LIST 23 33 43 (mkDLIST_ENTRY 100 300) 2000)]>
  (<[500 := ObjTime 0]>
  (<[600 := ObjUInt64 500]> ∅))))).

Definition example_env : Environment :=
  mkEnvironment (Some 1000) 1234 false 70 900 IOTHUBMESSAGE_ACCEPTED 50 60 0
                IOTHUB_CLIENT_OK.

Definition example_world : World := mkWorld example_heap [] example_env.

Definition example_queue : list QueueEntry :=
  [mkQueueEntry 200 21 31 41 5; mkQueueEntry 300 22 0 0 0;
   mkQueueEntry 400 23 33 43 2000].

(** A client with an empty queue whose default timeout is the largest
    [uint64_t], as "messageTimeout" may set it; the clock reads 1000. *)

Definition UINT64_MAX : Z := UINT64_MOD - 1.

Definition overflow_handle : IOTHUB_CLIENT_LL_HANDLE_DATA :=
  mkHANDLE_DATA (mkDLIST_ENTRY 100 100) 50 false 60 0 0 INDEFINITE_TIME 70
                UINT64_MAX.

Definition overflow_world : World :=
  mkWorld (<[100 := ObjHandle overflow_handle]> ∅) [] example_env.

(** ** The address of the next allocation, and the record create leaves *)

(** The address [malloc] returns when it does not fail. *)
Definition next_address (m : memory) : ptr := fresh ({[NULL]} ∪ dom m).

(** The client record at [h] when [IoTHubClient_LL_Create] has succeeded. *)
Definition created_handle (h : ptr) (e : Environment) :
  IOTHUB_CLIENT_LL_HANDLE_DATA :=
  mkHANDLE_DATA (mkDLIST_ENTRY h h) (env_transport_create e) false
                (env_transport_register e) NULL NULL INDEFINITE_TIME
                (env_tickcounter_create e) 0.

(** The client record at [h] when [IoTHubClient_LL_CreateWithTransport] has
    succeeded on the transport [th]. *)
Definition shared_handle (h th : ptr) (e : Environment) :
  IOTHUB_CLIENT_LL_HANDLE_DATA :=
  mkHANDLE_DATA (mkDLIST_ENTRY h h) th true (env_transport_register e) NULL
                NULL INDEFINITE_TIME (env_tickcounter_create e) 0.

(** An empty memory, and an environment in which the transport refuses to
    register the device. *)
Definition empty_world : World := mkWorld ∅ [] example_env.

Definition register_fails_env : Environment :=
  mkEnvironment (Some 1000) 1234 false 70 900 IOTHUBMESSAGE_ACCEPTED 50 0 0
                IOTHUB_CLIENT_OK.

(** An environment in which the message cannot be cloned, and the small world
    in it. *)
Definition clone_fails_env : Environment :=
  mkEnvironment (Some 1000) 1234 false 70 NULL IOTHUBMESSAGE_ACCEPTED 50 60 0
                IOTHUB_CLIENT_OK.

Definition clone_fails_world : World :=
  mkWorld example_heap [] clone_fails_env.

(** A client with an empty queue and the default timeout 500, while the
    clock reads 1000; and a later environment, in which it reads 1501. *)
Definition timeout_handle : IOTHUB_CLIENT_LL_HANDLE_DATA :=
  mkHANDLE_DATA (mkDLIST_ENTRY 100 100) 50 false 60 0 0 INDEFINITE_TIME 70
                500.

Definition timeout_world : World :=
  mkWorld (<[100 := ObjHandle timeout_handle]> ∅) [] example_env.

Definition later_env : Environment :=
  mkEnvironment (Some 1501) 1234 false 70 900 IOTHUBMESSAGE_ACCEPTED 50 60 0
                IOTHUB_CLIENT_OK.

(** The message copies released among the events, in order. *)
Definition releases (t : list event) : list ptr :=
  omap (λ e, match e with
             | EvMessageDestroy m => Some m
             | _ => None
             end) t.

(** A client with an empty queue that has the receive callback 80 with the
    context 81; and an environment in which the transport refuses to
    subscribe. *)
Definition subscribed_handle : IOTHUB_CLIENT_LL_HANDLE_DATA :=
  mkHANDLE_DATA (mkDLIST_ENTRY 100 100) 50 false 60 80 81 INDEFINITE_TIME 70
                0.

Definition subscribed_world : World :=
  mkWorld (<[100 := ObjHandle subscribed_handle]> ∅) [] example_env.

Definition subscribe_fails_env : Environment :=
  mkEnvironment (Some 1000) 1234 false 70 900 IOTHUBMESSAGE_ACCEPTED 50 60 1
                IOTHUB_CLIENT_OK.

(** A client with an empty queue next to a batch of two entries that a
    transport holds in a list of its own, headed at 700. *)
Definition batch_queue : list QueueEntry :=
  [mkQueueEntry 710 21 31 41 0; mkQueueEntry 720 22 0 0 0].

Definition batch_world : World :=
  mkWorld
    (<[100 := ObjHandle timeout_handle]>
     (<[700 := ObjListHead (mkDLIST_ENTRY 710 720)]>
     (<[710 := ObjMessage
                 (mkIOTHUB_MESSAGE_LIST 21 31 41 (mkDLIST_ENTRY 720 700) 0)]>
     (<[720 := ObjMessage
                 (mkIOTHUB_MESSAGE_LIST 22 0 0 (mkDLIST_ENTRY 700 710) 0)]>
        ∅))))
    [] example_env.

(** * Properties *)

(** ** Running computations *)

Lemma run_bind {A B} (c : M A) (f : A → M B) (w : World) :
  (c ≫= f) w = match c w with Some (a, w') => f a w' | None => None end.
Proof. reflexivity. Qed.

(** ** Loads and stores of links *)

Section links.
Implicit Types (m : gmap Z object) (p q v : Z).

Lemma links_of_set_links e o :
  is_Some (links_of o) → links_of (set_links e o) = Some e.
Proof. destruct o; simpl; intros [? ?]; congruence. Qed.

Lemma payload_set_links e o : payload (set_links e o) = payload o.
Proof. by destruct o. Qed.

Lemma set_links_id o e : links_of o = Some e → set_links e o = o.
Proof.
  destruct o as [[]|[]| | |]; simpl; intros; simplify_eq; done.
Qed.

Lemma hstore_Flink_Some p v m :
  is_Some (hload_Flink p m) → is_Some (hstore_Flink p v m).
Proof.
  unfold hload_Flink, hstore_Flink. destruct (m !! p) as [o|]; simpl;
    [|by intros [? ?]].
  destruct (links_of o); simpl; [by eauto|by intros [? ?]].
Qed.

Lemma hstore_Blink_Some p v m :
  is_Some (hload_Blink p m) → is_Some (hstore_Blink p v m).
Proof.
  unfold hload_Blink, hstore_Blink. destruct (m !! p) as [o|]; simpl;
    [|by intros [? ?]].
  destruct (links_of o); simpl; [by eauto|by intros [? ?]].
Qed.

Lemma hload_Flink_Blink p m :
  is_Some (hload_Flink p m) ↔ is_Some (hload_Blink p m).
Proof.
  unfold hload_Flink, hload_Blink. destruct (m !! p) as [o|]; simpl;
    [|done].
  destruct (links_of o); simpl; split; intros [? ?]; by eauto.
Qed.

Lemma hstore_Flink_inv p v m m' :
  hstore_Flink p v m = Some m' →
  ∃ o e, m !! p = Some o ∧ links_of o = Some e ∧
         m' = <[p := set_links (mkDLIST_ENTRY v (Blink e)) o]> m.
Proof.
  unfold hstore_Flink. destruct (m !! p) as [o|]; simpl; [|done].
  destruct (links_of o) as [e|] eqn:He; simpl; [|done].
  intros; simplify_eq; eauto.
Qed.

Lemma hstore_Blink_inv p v m m' :
  hstore_Blink p v m = Some m' →
  ∃ o e, m !! p = Some o ∧ links_of o = Some e ∧
         m' = <[p := set_links (mkDLIST_ENTRY (Flink e) v) o]> m.
Proof.
  unfold hstore_Blink. destruct (m !! p) as [o|]; simpl; [|done].
  destruct (links_of o) as [e|] eqn:He; simpl; [|done].
  intros; simplify_eq; eauto.
Qed.

Lemma hload_Flink_store_Flink p v m m' q :
  hstore_Flink p v m = Some m' →
  hload_Flink q m' = if decide (q = p) then Some v else hload_Flink q m.
Proof.
  intros (o & e & Ho & He & ->)%hstore_Flink_inv. unfold hload_Flink.
  case_decide; subst.
  - rewrite lookup_insert_eq. simpl. rewrite links_of_set_links; eauto.
  - by rewrite lookup_insert_ne.
Qed.

Lemma hload_Blink_store_Flink p v m m' q :
  hstore_Flink p v m = Some m' → hload_Blink q m' = hload_Blink q m.
Proof.
  intros (o & e & Ho & He & ->)%hstore_Flink_inv. unfold hload_Blink.
  destruct (decide (q = p)); subst.
  - rewrite lookup_insert_eq, Ho. simpl.
    rewrite links_of_set_links, He; eauto.
  - by rewrite lookup_insert_ne.
Qed.

Lemma hload_Blink_store_Blink p v m m' q :
  hstore_Blink p v m = Some m' →
  hload_Blink q m' = if decide (q = p) then Some v else hload_Blink q m.
Proof.
  intros (o & e & Ho & He & ->)%hstore_Blink_inv. unfold hload_Blink.
  case_decide; subst.
  - rewrite lookup_insert_eq. simpl. rewrite links_of_set_links; eauto.
  - by rewrite lookup_insert_ne.
Qed.

Lemma hload_Flink_store_Blink p v m m' q :
  hstore_Blink p v m = Some m' → hload_Flink q m' = hload_Flink q m.
Proof.
  intros (o & e & Ho & He & ->)%hstore_Blink_inv. unfold hload_Flink.
  destruct (decide (q = p)); subst.
  - rewrite lookup_insert_eq, Ho. simpl.
    rewrite links_of_set_links, He; eauto.
  - by rewrite lookup_insert_ne.
Qed.

End links.

(** ** List segments *)

Section dseg.
Implicit Types (m : gmap Z object) (p q x : Z) (l : list Z).

Lemma dseg_app m p l1 x l2 q :
  dseg m p (l1 ++ x :: l2) q ↔ dseg m p l1 x ∧ dseg m x l2 q.
Proof.
  revert p. induction l1 as [|y l1 IH]; intros p; simpl; [done|].
  rewrite IH. tauto.
Qed.

(** A segment only depends on the forward links of its nodes but the last
    target, and on the backward links of its nodes but the first source. *)
Lemma dseg_ext m m' p l q :
  (∀ a, a ∈ p :: l → hload_Flink a m' = hload_Flink a m) →
  (∀ c, c ∈ l ++ [q] → hload_Blink c m' = hload_Blink c m) →
  dseg m p l q → dseg m' p l q.
Proof.
  revert p. induction l as [|y l IH]; intros p HF HB; simpl.
  - intros [H1 H2]. split.
    + rewrite HF; [done|set_solver].
    + rewrite HB; [done|set_solver].
  - intros [[H1 H2] H3]. split; [split|].
    + rewrite HF; [done|set_solver].
    + rewrite HB; [done|set_solver].
    + apply IH; [| |done].
      * intros a Ha. apply HF. by right.
      * intros c Hc. apply HB. by right.
Qed.

Lemma dseg_first m p l q :
  dseg m p l q → hload_Flink p m = Some (List.hd q l).
Proof. destruct l; simpl; unfold linked; tauto. Qed.

Lemma dseg_last m p l q :
  dseg m p l q → hload_Blink q m = Some (last_node p l).
Proof.
  revert p. induction l as [|y l IH]; intros p; simpl.
  - unfold linked; tauto.
  - intros [_ H]. by apply IH in H.
Qed.

Lemma last_elem_of p l : last_node p l ∈ p :: l.
Proof.
  revert p. induction l as [|y l IH]; intros p; simpl; [set_solver|].
  right. apply IH.
Qed.

Lemma dseg_has_Flink m p l q a :
  dseg m p l q → a ∈ p :: l → is_Some (hload_Flink a m).
Proof.
  revert p. induction l as [|y l IH]; intros p; simpl.
  - intros [H _] ->%list_elem_of_singleton. eauto.
  - intros [[H _] H'] [->|Ha]%elem_of_cons; eauto.
Qed.

Lemma dseg_has_Blink m p l q a :
  dseg m p l q → a ∈ l ++ [q] → is_Some (hload_Blink a m).
Proof.
  revert p. induction l as [|y l IH]; intros p; simpl.
  - intros [_ H] ->%list_elem_of_singleton. eauto.
  - intros [[_ H] H'] [->|Ha]%elem_of_cons; eauto.
Qed.

(** Redirecting the end of a segment: when the forward link of its last
    node is set to [n] and the backward link of [n] to that node. *)
Lemma dseg_retarget m m' p l q n :
  NoDup (p :: l) → n ∉ l →
  dseg m p l q →
  hload_Flink (last_node p l) m' = Some n →
  hload_Blink n m' = Some (last_node p l) →
  (∀ a, a ∈ p :: l → a ≠ last_node p l →
        hload_Flink a m' = hload_Flink a m) →
  (∀ c, c ∈ l → hload_Blink c m' = hload_Blink c m) →
  dseg m' p l n.
Proof.
  revert p. induction l as [|y l IH]; intros p Hnd Hn; simpl.
  - intros _ H1 H2 _ _. by split.
  - intros [[H1 H2] H3] HF HB HFo HBo.
    apply NoDup_cons in Hnd as [Hp Hnd].
    apply not_elem_of_cons in Hn as [Hny Hn].
    split; [split|].
    + rewrite HFo; [done|by left|]. intros ->. apply Hp, last_elem_of.
    + rewrite HBo; [done|by left].
    + apply IH; try done.
      * intros a Ha Hne. apply HFo; [by right|done].
      * intros c Hc. apply HBo. by right.
Qed.

End dseg.

(** ** What changes in memory *)

Section frames.
Implicit Types (m : gmap Z object) (p q x v : Z) (l s : list Z).

Lemma hstore_Flink_other p v m m' q :
  hstore_Flink p v m = Some m' → q ≠ p → m' !! q = m !! q.
Proof.
  intros (o & e & _ & _ & ->)%hstore_Flink_inv ?. by rewrite lookup_insert_ne.
Qed.

Lemma hstore_Blink_other p v m m' q :
  hstore_Blink p v m = Some m' → q ≠ p → m' !! q = m !! q.
Proof.
  intros (o & e & _ & _ & ->)%hstore_Blink_inv ?. by rewrite lookup_insert_ne.
Qed.

Lemma links_equiv_trans m1 m2 m3 :
  links_equiv m1 m2 → links_equiv m2 m3 → links_equiv m1 m3.
Proof. unfold links_equiv. congruence. Qed.

Lemma links_equiv_lookup m m' p :
  links_equiv m m' → payload <$> m' !! p = payload <$> m !! p.
Proof. intros H. by rewrite <-!lookup_fmap, H. Qed.

Lemma links_equiv_insert m p o o' :
  m !! p = Some o → payload o' = payload o → links_equiv m (<[p := o']> m).
Proof.
  intros Ho Hp. unfold links_equiv. rewrite fmap_insert, Hp.
  symmetry. apply insert_id. by rewrite lookup_fmap, Ho.
Qed.

Lemma links_equiv_delete m m' p :
  links_equiv m m' → links_equiv (delete p m) (delete p m').
Proof. unfold links_equiv. rewrite !fmap_delete. congruence. Qed.

Lemma hstore_Flink_links_equiv p v m m' :
  hstore_Flink p v m = Some m' → links_equiv m m'.
Proof.
  intros (o & e & Ho & _ & ->)%hstore_Flink_inv.
  eapply links_equiv_insert; [done|apply payload_set_links].
Qed.

Lemma hstore_Blink_links_equiv p v m m' :
  hstore_Blink p v m = Some m' → links_equiv m m'.
Proof.
  intros (o & e & Ho & _ & ->)%hstore_Blink_inv.
  eapply links_equiv_insert; [done|apply payload_set_links].
Qed.

Lemma entry_at_payload m m' p :
  payload <$> m' !! p = payload <$> m !! p → entry_at m' p = entry_at m p.
Proof.
  unfold entry_at, hload_message.
  destruct (m !! p) as [o|], (m' !! p) as [o'|]; simpl; try done.
  intros [= H]. destruct o as [?|r| | |], o' as [?|r'| | |]; simpl in *;
    try done.
  unfold payload in H; simpl in H. injection H as -> -> -> ->. done.
Qed.

Lemma entry_at_links_equiv m m' p :
  links_equiv m m' → entry_at m' p = entry_at m p.
Proof. intros. by apply entry_at_payload, links_equiv_lookup. Qed.

Lemma holds_message m e :
  holds m e →
  ∃ r, hload_message (qe_addr e) m = Some r ∧
       messageHandle r = qe_message e ∧ callback r = qe_callback e ∧
       context r = qe_context e ∧ ms_timesOutAfter r = qe_expiry e.
Proof.
  unfold holds, entry_at.
  destruct (hload_message (qe_addr e) m) as [r|]; simpl; [|done].
  intros [= <-]. by exists r.
Qed.

Lemma hload_message_lookup m p r :
  hload_message p m = Some r ↔ m !! p = Some (ObjMessage r).
Proof.
  unfold hload_message. destruct (m !! p) as [[]|]; naive_solver.
Qed.

Lemma hload_handle_lookup m p r :
  hload_handle p m = Some r ↔ m !! p = Some (ObjHandle r).
Proof.
  unfold hload_handle. destruct (m !! p) as [[]|]; naive_solver.
Qed.

Lemma hload_Flink_agree m m' p :
  m' !! p = m !! p → hload_Flink p m' = hload_Flink p m.
Proof. unfold hload_Flink. by intros ->. Qed.

Lemma hload_Blink_agree m m' p :
  m' !! p = m !! p → hload_Blink p m' = hload_Blink p m.
Proof. unfold hload_Blink. by intros ->. Qed.

(** Writing other fields of a record leaves its links alone. *)
Lemma hload_Flink_insert_same_links m p o o' q :
  m !! p = Some o → links_of o' = links_of o →
  hload_Flink q (<[p := o']> m) = hload_Flink q m.
Proof.
  intros Ho Hl. unfold hload_Flink. destruct (decide (q = p)); subst.
  - by rewrite lookup_insert_eq, Ho; simpl; rewrite Hl.
  - by rewrite lookup_insert_ne.
Qed.

Lemma hload_Blink_insert_same_links m p o o' q :
  m !! p = Some o → links_of o' = links_of o →
  hload_Blink q (<[p := o']> m) = hload_Blink q m.
Proof.
  intros Ho Hl. unfold hload_Blink. destruct (decide (q = p)); subst.
  - by rewrite lookup_insert_eq, Ho; simpl; rewrite Hl.
  - by rewrite lookup_insert_ne.
Qed.

Lemma dlist_agree m m' hd l :
  (∀ a, a ∈ hd :: l → m' !! a = m !! a) →
  dlist m hd l → dlist m' hd l.
Proof.
  intros H [Hnd Hs]. split; [done|]. eapply dseg_ext; [| |done].
  - intros a Ha. by apply hload_Flink_agree, H.
  - intros c [Hc| ->%list_elem_of_singleton]%elem_of_app;
      apply hload_Blink_agree, H; [by right|by left].
Qed.

Lemma dlist_insert_same_links m hd l p o o' :
  m !! p = Some o → links_of o' = links_of o →
  dlist m hd l → dlist (<[p := o']> m) hd l.
Proof.
  intros Ho Hl [Hnd Hs]. split; [done|]. eapply dseg_ext; [| |done].
  - intros. by eapply hload_Flink_insert_same_links.
  - intros. by eapply hload_Blink_insert_same_links.
Qed.

Lemma dlist_delete m hd l x :
  x ∉ hd :: l → dlist m hd l → dlist (delete x m) hd l.
Proof.
  intros Hx. apply dlist_agree. intros a Ha.
  apply lookup_delete_ne. intros ->. done.
Qed.

Lemma dlist_has_links m hd l a :
  dlist m hd l → a ∈ hd :: l → is_Some (hload_Flink a m).
Proof. intros [_ Hs] Ha. by eapply dseg_has_Flink. Qed.

Lemma dlist_allocated m hd l a :
  dlist m hd l → a ∈ hd :: l → is_Some (m !! a).
Proof.
  intros H Ha. destruct (dlist_has_links _ _ _ _ H Ha) as [v Hv].
  unfold hload_Flink in Hv. destruct (m !! a); [eauto|done].
Qed.

Lemma Forall_holds_links_equiv m m' (q : list QueueEntry) :
  links_equiv m m' → Forall (holds m) q → Forall (holds m') q.
Proof.
  intros H Hq. eapply Forall_impl; [done|]. intros e He. unfold holds.
  by rewrite (entry_at_links_equiv m m').
Qed.

Lemma Forall_holds_agree m m' (q : list QueueEntry) :
  (∀ e, e ∈ q → m' !! qe_addr e = m !! qe_addr e) →
  Forall (holds m) q → Forall (holds m') q.
Proof.
  rewrite !Forall_forall. intros H Hq e He. unfold holds.
  rewrite (entry_at_payload m m'); [by apply Hq|]. by rewrite H.
Qed.

End frames.

(** ** The list operations on well-formed lists *)

Section dlist_ops.
Implicit Types (m : gmap Z object) (p q x v hd : Z) (l : list Z).

Lemma hd_elem_of hd l : List.hd hd l ∈ l ++ [hd].
Proof. destruct l; simpl; [by left|by left]. Qed.

(** Unlinking the node [x]: its predecessor and its successor are linked
    to each other; [x] itself is not written. *)
Lemma dlist_unlink m hd l1 x l2 :
  dlist m hd (l1 ++ x :: l2) →
  ∃ m1 m2,
    hload_Flink x m = Some (List.hd hd l2) ∧
    hload_Blink x m = Some (last_node hd l1) ∧
    hstore_Flink (last_node hd l1) (List.hd hd l2) m = Some m1 ∧
    hstore_Blink (List.hd hd l2) (last_node hd l1) m1 = Some m2 ∧
    dlist m2 hd (l1 ++ l2) ∧ links_equiv m m2 ∧
    unchanged_outside (hd :: l1 ++ l2) m m2.
Proof.
  intros [Hnd Hs]. apply dseg_app in Hs as [Hs1 Hs2].
  set (b := last_node hd l1). set (f := List.hd hd l2).
  assert (b ∈ hd :: l1) as Hb by apply last_elem_of.
  assert (f ∈ l2 ++ [hd]) as Hf by apply hd_elem_of.
  destruct (hstore_Flink_Some b f m) as [m1 Hm1];
    [by apply (dseg_has_Flink m hd l1 x)|].
  destruct (hstore_Blink_Some f b m1) as [m2 Hm2].
  { rewrite (hload_Blink_store_Flink _ _ _ _ _ Hm1).
    by apply (dseg_has_Blink m x l2 hd). }
  assert (∀ a, hload_Flink a m2 =
               if decide (a = b) then Some f else hload_Flink a m) as HF.
  { intros a. rewrite (hload_Flink_store_Blink _ _ _ _ _ Hm2).
    apply (hload_Flink_store_Flink _ _ _ _ _ Hm1). }
  assert (∀ c, hload_Blink c m2 =
               if decide (c = f) then Some b else hload_Blink c m) as HB.
  { intros c. rewrite (hload_Blink_store_Blink _ _ _ _ _ Hm2).
    case_decide; [done|]. apply (hload_Blink_store_Flink _ _ _ _ _ Hm1). }
  assert (NoDup (hd :: l1 ++ l2)) as Hnd'.
  { rewrite app_comm_cons in Hnd |- *.
    apply NoDup_app in Hnd as (H1 & H2 & H3%NoDup_cons).
    apply NoDup_app. split; [done|]. split; [|tauto].
    intros a Ha Ha'. apply (H2 a Ha). by right. }
  assert (x ∉ hd :: l1) as Hx1.
  { rewrite app_comm_cons in Hnd.
    apply NoDup_app in Hnd as (_ & H2 & _). intros Hx.
    apply (H2 x Hx). by left. }
  assert (x ∉ l2) as Hx2.
  { rewrite app_comm_cons in Hnd.
    apply NoDup_app in Hnd as (_ & _ & H3%NoDup_cons). tauto. }
  assert (∀ a, a ∈ hd :: l1 → a ∉ l2) as Hdisj.
  { rewrite app_comm_cons in Hnd.
    apply NoDup_app in Hnd as (_ & H2 & _). intros a Ha Ha'.
    apply (H2 a Ha). by right. }
  assert (NoDup (hd :: l1)) as Hnd1.
  { rewrite app_comm_cons in Hnd. by apply NoDup_app in Hnd as (? & _ & _). }
  assert (NoDup l2) as Hnd2.
  { rewrite app_comm_cons in Hnd.
    by apply NoDup_app in Hnd as (_ & _ & [_ ?]%NoDup_cons). }
  assert (f ∉ l1) as Hfl1.
  { apply elem_of_app in Hf as [Hf| ->%list_elem_of_singleton].
    - intros Hf1. apply (Hdisj f); [by right|done].
    - by apply NoDup_cons in Hnd1 as [? _]. }
  assert (dseg m2 hd l1 f) as Hs1'.
  { eapply dseg_retarget; try done.
    - rewrite HF. by rewrite decide_True.
    - rewrite HB. by rewrite decide_True.
    - intros a _ Ha. rewrite HF. by rewrite decide_False.
    - intros c Hc. rewrite HB. rewrite decide_False; [done|].
      intros ->. done. }
  exists m1, m2. split; [by eapply dseg_first|].
  split; [by eapply dseg_last|]. split; [done|]. split; [done|].
  split; [split; [done|]|split].
  - destruct l2 as [|y l2].
    + rewrite app_nil_r. done.
    + apply dseg_app. split; [done|]. simpl in Hs2. destruct Hs2 as [_ Hs2].
      subst f. simpl in *.
      apply NoDup_cons in Hnd2 as [Hy Hnd2].
      eapply dseg_ext; [| |done].
      * intros a Ha. rewrite HF. rewrite decide_False; [done|].
        intros ->. by apply (Hdisj b).
      * intros c Hc. rewrite HB. rewrite decide_False; [done|].
        intros Hcy. rewrite Hcy in Hc.
        apply elem_of_app in Hc as [?|Hc%list_elem_of_singleton]; [done|].
        apply (Hdisj hd); [by left|]. rewrite <-Hc. by left.
  - eapply links_equiv_trans;
      [by eapply hstore_Flink_links_equiv|by eapply hstore_Blink_links_equiv].
  - intros a Ha.
    rewrite (hstore_Blink_other _ _ _ _ _ Hm2),
      (hstore_Flink_other _ _ _ _ _ Hm1); [done| |].
    + intros ->. apply Ha. rewrite app_comm_cons. apply elem_of_app. by left.
    + intros ->. apply Ha.
      apply elem_of_app in Hf as [?| ->%list_elem_of_singleton];
        [|by left]. right. apply elem_of_app. by right.
Qed.

Lemma has_links_store_Flink p v m m' q :
  hstore_Flink p v m = Some m' →
  is_Some (hload_Flink q m) → is_Some (hload_Flink q m').
Proof.
  intros H. rewrite (hload_Flink_store_Flink _ _ _ _ _ H).
  case_decide; eauto.
Qed.

Lemma has_links_store_Blink p v m m' q :
  hstore_Blink p v m = Some m' →
  is_Some (hload_Flink q m) → is_Some (hload_Flink q m').
Proof. intros H. by rewrite (hload_Flink_store_Blink _ _ _ _ _ H). Qed.

(** The stores of [DList_RemoveHeadList] on an empty list write what is
    there already. *)
Lemma dlist_empty_stores m hd :
  dlist m hd [] →
  hload_Flink hd m = Some hd ∧ hstore_Flink hd hd m = Some m ∧
  hstore_Blink hd hd m = Some m.
Proof.
  intros [_ [HF HB]]. split; [done|].
  unfold hload_Flink, hload_Blink, hstore_Flink, hstore_Blink in *.
  destruct (m !! hd) as [o|] eqn:Ho; simpl in *; [|done].
  destruct (links_of o) as [[f b]|] eqn:He; simpl in *; [|done].
  simplify_eq. rewrite (set_links_id _ _ He). by rewrite insert_id.
Qed.

(** Linking the node [x] in before the head: the stores of
    [DList_InsertTailList]. *)
Lemma dlist_append m hd l x :
  dlist m hd l → x ∉ hd :: l → is_Some (hload_Flink x m) →
  ∃ m1 m2 m3 m4,
    hload_Blink hd m = Some (last_node hd l) ∧
    hstore_Flink x hd m = Some m1 ∧
    hstore_Blink x (last_node hd l) m1 = Some m2 ∧
    hstore_Flink (last_node hd l) x m2 = Some m3 ∧
    hstore_Blink hd x m3 = Some m4 ∧
    dlist m4 hd (l ++ [x]) ∧ links_equiv m m4 ∧
    unchanged_outside (hd :: l ++ [x]) m m4.
Proof.
  intros [Hnd Hs] Hx Hxl. set (b := last_node hd l).
  assert (b ∈ hd :: l) as Hb by apply last_elem_of.
  assert (x ≠ b) as Hxb by (by intros ->).
  assert (x ≠ hd) as Hxhd by (intros ->; apply Hx; by left).
  assert (is_Some (hload_Flink b m)) as Hbl
    by (by apply (dseg_has_Flink m hd l hd)).
  assert (is_Some (hload_Flink hd m)) as Hhl
    by (apply (dseg_has_Flink m hd l hd); [done|by left]).
  destruct (hstore_Flink_Some x hd m) as [m1 Hm1]; [done|].
  destruct (hstore_Blink_Some x b m1) as [m2 Hm2].
  { apply hload_Flink_Blink. by eapply has_links_store_Flink. }
  destruct (hstore_Flink_Some b x m2) as [m3 Hm3].
  { eapply has_links_store_Blink; [done|].
    by eapply has_links_store_Flink. }
  destruct (hstore_Blink_Some hd x m3) as [m4 Hm4].
  { apply hload_Flink_Blink. eapply has_links_store_Flink; [done|].
    eapply has_links_store_Blink; [done|].
    by eapply has_links_store_Flink. }
  assert (∀ a, hload_Flink a m4 =
               if decide (a = b) then Some x
               else if decide (a = x) then Some hd
                    else hload_Flink a m) as HF.
  { intros a. rewrite (hload_Flink_store_Blink _ _ _ _ _ Hm4).
    rewrite (hload_Flink_store_Flink _ _ _ _ _ Hm3).
    case_decide; [done|].
    rewrite (hload_Flink_store_Blink _ _ _ _ _ Hm2).
    apply (hload_Flink_store_Flink _ _ _ _ _ Hm1). }
  assert (∀ c, hload_Blink c m4 =
               if decide (c = hd) then Some x
               else if decide (c = x) then Some b
                    else hload_Blink c m) as HB.
  { intros c. rewrite (hload_Blink_store_Blink _ _ _ _ _ Hm4).
    case_decide; [done|].
    rewrite (hload_Blink_store_Flink _ _ _ _ _ Hm3).
    rewrite (hload_Blink_store_Blink _ _ _ _ _ Hm2).
    case_decide; [done|].
    apply (hload_Blink_store_Flink _ _ _ _ _ Hm1). }
  exists m1, m2, m3, m4. split; [by eapply dseg_last|].
  do 4 (split; [done|]). split; [split|split].
  - rewrite app_comm_cons. apply NoDup_app. split; [done|].
    split; [|apply NoDup_singleton].
    intros a Ha ->%list_elem_of_singleton. done.
  - apply dseg_app. split.
    + eapply dseg_retarget; try done.
      * intros Hx'. apply Hx. by right.
      * rewrite HF. by rewrite decide_True.
      * rewrite HB. rewrite decide_False, decide_True; done.
      * intros a Ha Hab. rewrite HF.
        rewrite decide_False, decide_False; [done| |done].
        by intros ->.
      * intros c Hc. rewrite HB.
        rewrite decide_False, decide_False; [done| |].
        -- intros ->. apply Hx. by right.
        -- intros ->. by apply NoDup_cons in Hnd as [? _].
    + split.
      * rewrite HF. rewrite decide_False, decide_True; done.
      * rewrite HB. by rewrite decide_True.
  - eapply links_equiv_trans; [by eapply hstore_Flink_links_equiv|].
    eapply links_equiv_trans; [by eapply hstore_Blink_links_equiv|].
    eapply links_equiv_trans; [by eapply hstore_Flink_links_equiv|].
    by eapply hstore_Blink_links_equiv.
  - intros a Ha.
    assert (a ≠ hd) by (intros ->; apply Ha; by left).
    assert (a ≠ x).
    { intros ->. apply Ha. right. apply elem_of_app. right. by left. }
    assert (a ≠ b).
    { intros ->. apply Ha. rewrite app_comm_cons. apply elem_of_app.
      by left. }
    rewrite (hstore_Blink_other _ _ _ _ _ Hm4),
      (hstore_Flink_other _ _ _ _ _ Hm3),
      (hstore_Blink_other _ _ _ _ _ Hm2),
      (hstore_Flink_other _ _ _ _ _ Hm1); done.
Qed.

End dlist_ops.

(** ** Running the primitives *)

Section run.
Implicit Types (w : World) (m : gmap Z object) (p q x v hd : Z) (l : list Z).

Lemma set_heap_id w : set_heap (heap w) w = w.
Proof. by destruct w. Qed.

Lemma run_load_Flink p w v :
  hload_Flink p (heap w) = Some v → load_Flink p w = Some (v, w).
Proof. unfold load_Flink, lift_heap. by intros ->. Qed.

Lemma run_load_Blink p w v :
  hload_Blink p (heap w) = Some v → load_Blink p w = Some (v, w).
Proof. unfold load_Blink, lift_heap. by intros ->. Qed.

Lemma run_store_Flink p v w m' :
  hstore_Flink p v (heap w) = Some m' →
  store_Flink p v w = Some (tt, set_heap m' w).
Proof. unfold store_Flink, update_heap. by intros ->. Qed.

Lemma run_store_Blink p v w m' :
  hstore_Blink p v (heap w) = Some m' →
  store_Blink p v w = Some (tt, set_heap m' w).
Proof. unfold store_Blink, update_heap. by intros ->. Qed.

Lemma run_load_message p w r :
  hload_message p (heap w) = Some r → load_message p w = Some (r, w).
Proof. unfold load_message, lift_heap. by intros ->. Qed.

Lemma run_load_handle p w r :
  hload_handle p (heap w) = Some r → load_handle p w = Some (r, w).
Proof. unfold load_handle, lift_heap. by intros ->. Qed.

Lemma run_store_message p f w r :
  hload_message p (heap w) = Some r →
  store_message p f w =
    Some (tt, set_heap (<[p := ObjMessage (f r)]> (heap w)) w).
Proof. unfold store_message, update_heap. by intros ->. Qed.

Lemma run_store_handle p f w r :
  hload_handle p (heap w) = Some r →
  store_handle p f w =
    Some (tt, set_heap (<[p := ObjHandle (f r)]> (heap w)) w).
Proof. unfold store_handle, update_heap. by intros ->. Qed.

Lemma run_free p w o :
  heap w !! p = Some o → free p w = Some (tt, set_heap (delete p (heap w)) w).
Proof. unfold free, update_heap. by intros ->. Qed.

Lemma DList_RemoveHeadList_nil w hd :
  dlist (heap w) hd [] → DList_RemoveHeadList hd w = Some (hd, w).
Proof.
  intros (HF & HS1 & HS2)%dlist_empty_stores. unfold DList_RemoveHeadList.
  rewrite run_bind, (run_load_Flink _ _ _ HF).
  rewrite run_bind, (run_load_Flink _ _ _ HF).
  rewrite run_bind, (run_store_Flink _ _ _ _ HS1), set_heap_id.
  rewrite run_bind, (run_store_Blink _ _ _ _ HS2), set_heap_id.
  done.
Qed.

Lemma dlist_next m hd l1 x l2 :
  dlist m hd (l1 ++ x :: l2) → hload_Flink x m = Some (List.hd hd l2).
Proof. intros [_ [_ H]%dseg_app]. by eapply dseg_first. Qed.

Lemma DList_RemoveHeadList_cons w hd x l :
  dlist (heap w) hd (x :: l) →
  ∃ m', DList_RemoveHeadList hd w = Some (x, set_heap m' w) ∧
        dlist m' hd l ∧ links_equiv (heap w) m' ∧
        unchanged_outside (hd :: l) (heap w) m'.
Proof.
  intros H. pose proof (dlist_next _ _ [] _ _ H) as Hx.
  pose proof (dlist_next _ _ [] _ _ H) as Hf.
  destruct H as [Hnd Hs]. pose proof (dseg_first _ _ _ _ Hs) as Hhd.
  destruct (dlist_unlink (heap w) hd [] x l) as
    (m1 & m2 & _ & _ & Hm1 & Hm2 & Hd & Hle & Hun); [done|].
  simpl in *. exists m2. split; [|done].
  unfold DList_RemoveHeadList.
  rewrite run_bind, (run_load_Flink _ _ _ Hhd).
  rewrite run_bind, (run_load_Flink _ _ _ Hf).
  rewrite run_bind, (run_store_Flink _ _ _ _ Hm1).
  rewrite run_bind, (run_store_Blink _ _ (set_heap m1 w) _ Hm2).
  done.
Qed.

Lemma DList_RemoveEntryList_spec w hd l1 x l2 :
  dlist (heap w) hd (l1 ++ x :: l2) →
  ∃ m' r, DList_RemoveEntryList x w = Some (r, set_heap m' w) ∧
          dlist m' hd (l1 ++ l2) ∧ links_equiv (heap w) m' ∧
          unchanged_outside (hd :: l1 ++ l2) (heap w) m'.
Proof.
  intros H.
  destruct (dlist_unlink (heap w) hd l1 x l2) as
    (m1 & m2 & Hf & Hb & Hm1 & Hm2 & Hd & Hle & Hun); [done|].
  exists m2. eexists. split; [|done].
  unfold DList_RemoveEntryList.
  rewrite run_bind, (run_load_Flink _ _ _ Hf).
  rewrite run_bind, (run_load_Blink _ _ _ Hb).
  rewrite run_bind, (run_store_Flink _ _ _ _ Hm1).
  rewrite run_bind, (run_store_Blink _ _ (set_heap m1 w) _ Hm2).
  done.
Qed.

Lemma DList_InsertTailList_spec w hd l x :
  dlist (heap w) hd l → x ∉ hd :: l →
  is_Some (hload_Flink x (heap w)) →
  ∃ m', DList_InsertTailList hd x w = Some (tt, set_heap m' w) ∧
        dlist m' hd (l ++ [x]) ∧ links_equiv (heap w) m' ∧
        unchanged_outside (hd :: l ++ [x]) (heap w) m'.
Proof.
  intros H Hx Hxl.
  destruct (dlist_append (heap w) hd l x) as
    (m1 & m2 & m3 & m4 & Hb & Hm1 & Hm2 & Hm3 & Hm4 & Hd & Hle & Hun);
    [done..|].
  exists m4. split; [|done].
  unfold DList_InsertTailList.
  rewrite run_bind, (run_load_Blink _ _ _ Hb).
  rewrite run_bind, (run_store_Flink _ _ _ _ Hm1).
  rewrite run_bind, (run_store_Blink _ _ (set_heap m1 w) _ Hm2).
  rewrite run_bind, (run_store_Flink _ _ (set_heap m2 _) _ Hm3).
  rewrite (run_store_Blink _ _ (set_heap m3 _) _ Hm4).
  done.
Qed.

End run.

(** ** Completing every entry of a list *)

Section drain.
Implicit Types (w : World) (m : gmap Z object) (p x hd : Z) (l s : list Z)
  (q : list QueueEntry) (e : QueueEntry).

Lemma free_all_delete s x m : free_all s (delete x m) = delete x (free_all s m).
Proof.
  induction s as [|y s IH]; simpl; [done|]. by rewrite IH, delete_delete.
Qed.

Lemma links_equiv_free_all s m m' :
  links_equiv m m' → links_equiv (free_all s m) (free_all s m').
Proof.
  intros H. induction s as [|y s IH]; simpl; [done|].
  by apply links_equiv_delete.
Qed.

Lemma lookup_free_all s m p :
  free_all s m !! p = if decide (p ∈ s) then None else m !! p.
Proof.
  induction s as [|y s IH]; unfold free_all; cbn [foldr].
  - destruct (decide (p ∈ [])) as [H|H]; [by apply elem_of_nil in H|done].
  - fold (free_all s m). destruct (decide (p = y)) as [->|Hne].
    + rewrite lookup_delete_eq.
      destruct (decide (y ∈ y :: s)) as [|H]; [done|].
      exfalso. apply H. by left.
    + rewrite lookup_delete_ne, IH by done.
      destruct (decide (p ∈ s)) as [Hs|Hs],
        (decide (p ∈ y :: s)) as [Hys|Hys]; try done.
      * exfalso. apply Hys. by right.
      * exfalso. by apply elem_of_cons in Hys as [?|?].
Qed.

Lemma links_equiv_None m m' p :
  links_equiv m m' → m !! p = None → m' !! p = None.
Proof.
  intros H Hp. apply (links_equiv_lookup _ _ p) in H. rewrite Hp in H.
  by destruct (m' !! p).
Qed.

Lemma run_emit ev w :
  emit ev w = Some (tt, mkWorld (heap w) (trace w ++ [ev]) (env w)).
Proof. done. Qed.

Lemma run_confirm cb r ctx w :
  (if is_null cb then mret tt else call_confirmation cb r ctx) w =
  Some (tt, mkWorld (heap w)
              (trace w ++ if is_null cb then []
                          else [EvEventConfirmation cb r ctx])
              (env w)).
Proof.
  destruct (is_null cb); [|done]. rewrite app_nil_r. by destruct w.
Qed.

Lemma completions_cons r e q :
  completions r (e :: q) = completion r e ++ completions r q.
Proof. done. Qed.

Lemma queue_cons_inv m hd e q :
  queue m hd (e :: q) →
  dlist m hd (qe_addr e :: (qe_addr <$> q)) ∧ holds m e ∧
  Forall (holds m) q ∧ qe_addr e ≠ hd ∧
  qe_addr e ∉ hd :: (qe_addr <$> q).
Proof.
  intros [Hd [He Hq]%Forall_cons]. rewrite fmap_cons in Hd.
  split; [done|]. split; [done|]. split; [done|].
  destruct Hd as [Hnd _].
  apply NoDup_cons in Hnd as [Hhd [Hx Hnd]%NoDup_cons].
  split.
  - intros Heq. apply Hhd. rewrite Heq. by left.
  - intros [Heq|?]%elem_of_cons; [|done]. apply Hhd. rewrite Heq. by left.
Qed.

(** The completion loop on a well-formed list [q] returns with the list
    empty: every entry, in order, had its callback (when it has one) called
    with [r] and its message copy released, and was freed. *)
Lemma SendComplete_loop_spec r q :
  ∀ fuel w hd,
    queue (heap w) hd q → (length q < fuel)%nat →
    ∃ w', SendComplete_loop fuel hd r w = Some (tt, w') ∧
          trace w' = trace w ++ completions r q ∧ env w' = env w ∧
          dlist (heap w') hd [] ∧
          links_equiv (free_all (qe_addr <$> q) (heap w)) (heap w') ∧
          unchanged_outside (hd :: (qe_addr <$> q)) (heap w) (heap w').
Proof.
  induction q as [|e q IH]; intros fuel w hd Hq Hfuel.
  - destruct fuel as [|fuel]; [simpl in Hfuel; lia|].
    destruct Hq as [Hd _]. cbn [SendComplete_loop].
    rewrite run_bind, DList_RemoveHeadList_nil by done.
    rewrite bool_decide_eq_true_2 by done.
    exists w. rewrite app_nil_r. by repeat (split; [done|]).
  - destruct fuel as [|fuel]; [simpl in Hfuel; lia|].
    apply queue_cons_inv in Hq as (Hd & He & Hh & Hne & Hnin).
    destruct (DList_RemoveHeadList_cons w hd (qe_addr e) (qe_addr <$> q))
      as (m1 & Hrun & Hd1 & Hle1 & Hun1); [done|].
    assert (holds m1 e) as He1.
    { unfold holds. by rewrite (entry_at_links_equiv (heap w) m1). }
    apply holds_message in He1 as (r0 & Hr0 & Hmh & Hcb & Hctx & Hms).
    cbn [SendComplete_loop].
    rewrite run_bind, Hrun, bool_decide_eq_false_2 by done.
    rewrite run_bind, (run_load_message _ (set_heap m1 w) _ Hr0).
    rewrite run_bind, run_confirm.
    rewrite run_bind, (run_load_message _ (mkWorld m1 _ _) _ Hr0).
    unfold IoTHubMessage_Destroy. rewrite run_bind, run_emit.
    apply hload_message_lookup in Hr0.
    rewrite run_bind, (run_free _ (mkWorld m1 _ _) _ Hr0).
    cbn [heap trace env set_heap].
    edestruct (IH fuel (mkWorld (delete (qe_addr e) m1)
                 ((trace w ++ (if is_null (callback r0) then []
                    else [EvEventConfirmation (callback r0) r (context r0)]))
                  ++ [EvMessageDestroy (messageHandle r0)]) (env w)) hd)
      as (w' & Hrun' & Htr & Henv & Hd' & Hle' & Hun').
    { split; cbn [heap].
      - by apply dlist_delete.
      - apply (Forall_holds_agree m1).
        + intros e' He'. apply lookup_delete_ne. intros Heq.
          apply Hnin. right. rewrite Heq. by apply list_elem_of_fmap_2.
        + by apply (Forall_holds_links_equiv (heap w)). }
    { simpl in Hfuel. lia. }
    exists w'. split; [done|]. cbn [heap trace env] in *.
    split; [|split; [done|split; [done|split]]].
    + rewrite Htr, completions_cons. unfold completion.
      rewrite Hmh, Hcb, Hctx. by rewrite <-!app_assoc.
    + rewrite fmap_cons. simpl. rewrite <-free_all_delete.
      eapply links_equiv_trans; [|done].
      by apply links_equiv_free_all, links_equiv_delete.
    + intros p Hp. rewrite fmap_cons in Hp.
      apply not_elem_of_cons in Hp as [Hp1 [Hp2 Hp3]%not_elem_of_cons].
      assert (p ∉ hd :: (qe_addr <$> q)) as Hp'
        by (by intros [?|?]%elem_of_cons).
      rewrite Hun' by done. rewrite lookup_delete_ne by done.
      by apply Hun1.
Qed.

End drain.

(** The loop of [IoTHubClient_LL_Destroy] is the loop of
    [IoTHubClient_LL_SendComplete] at the status "because destroy". *)
Lemma Destroy_loop_SendComplete_loop fuel hd :
  Destroy_loop fuel hd =
  SendComplete_loop fuel hd IOTHUB_CLIENT_CONFIRMATION_BECAUSE_DESTROY.
Proof.
  induction fuel as [|fuel IH]; [done|].
  cbn [Destroy_loop SendComplete_loop]. by rewrite IH.
Qed.

(** ** The timeout scan *)

Section scan.
Implicit Types (w : World) (m : gmap Z object) (p x hd : Z) (l s : list Z)
  (q pre : list QueueEntry) (e : QueueEntry).

Lemma queue_app_cons_inv m hd pre e q :
  queue m hd (pre ++ e :: q) →
  dlist m hd ((qe_addr <$> pre) ++ qe_addr e :: (qe_addr <$> q)) ∧
  holds m e ∧ qe_addr e ≠ hd ∧
  qe_addr e ∉ hd :: (qe_addr <$> pre ++ q).
Proof.
  intros [Hd Hh]. rewrite fmap_app, fmap_cons in Hd.
  split; [done|]. split.
  { apply Forall_app in Hh as [_ [? _]%Forall_cons]. done. }
  destruct Hd as [Hnd _]. rewrite app_comm_cons in Hnd.
  apply NoDup_app in Hnd as (_ & H2 & [H3 _]%NoDup_cons).
  split.
  - intros Heq. apply (H2 hd); [by left|]. rewrite Heq. by left.
  - rewrite fmap_app. rewrite app_comm_cons.
    intros [Hin|Hin]%elem_of_app; [|done].
    apply (H2 _ Hin). by left.
Qed.

Lemma expired_test r e nowTick :
  ms_timesOutAfter r = qe_expiry e →
  negb (bool_decide (ms_timesOutAfter r = 0))
  && bool_decide (ms_timesOutAfter r < nowTick) = expired nowTick e.
Proof. unfold expired. by intros ->. Qed.

Lemma DoTimeouts_loop_spec nowTick hd q :
  ∀ pre fuel w,
    queue (heap w) hd (pre ++ q) → (length q < fuel)%nat →
    ∃ w', DoTimeouts_loop fuel hd nowTick (List.hd hd (qe_addr <$> q)) w
            = Some (tt, w') ∧
          queue (heap w') hd (pre ++ filter (λ e, ¬ expired nowTick e) q) ∧
          trace w' = trace w ++
            completions IOTHUB_CLIENT_CONFIRMATION_MESSAGE_TIMEOUT
              (filter (λ e, expired nowTick e) q) ∧
          env w' = env w ∧
          links_equiv
            (free_all (qe_addr <$> filter (λ e, expired nowTick e) q)
               (heap w))
            (heap w') ∧
          unchanged_outside (hd :: (qe_addr <$> pre ++ q)) (heap w) (heap w').
Proof.
  induction q as [|e q IH]; intros pre fuel w Hq Hfuel.
  - destruct fuel as [|fuel]; [simpl in Hfuel; lia|].
    cbn [DoTimeouts_loop fmap list_fmap List.hd].
    rewrite bool_decide_eq_true_2 by done.
    exists w. rewrite !app_nil_r in *. by repeat (split; [done|]).
  - destruct fuel as [|fuel]; [simpl in Hfuel; lia|].
    pose proof Hq as (Hd & He & Hne & Hnin)%queue_app_cons_inv.
    pose proof He as (r0 & Hr0 & Hmh & Hcb & Hctx & Hms)%holds_message.
    pose proof (dlist_next _ _ _ _ _ Hd) as Hnext.
    rewrite fmap_cons. cbn [DoTimeouts_loop List.hd].
    rewrite bool_decide_eq_false_2 by done.
    rewrite run_bind, (run_load_message _ _ _ Hr0).
    rewrite (expired_test _ e) by done.
    destruct (expired nowTick e) eqn:Hex;
      rewrite run_bind, (run_load_Flink _ _ _ Hnext).
    + destruct (DList_RemoveEntryList_spec w hd _ _ _ Hd)
        as (m1 & b & Hrun & Hd1 & Hle1 & Hun1).
      assert (m1 !! qe_addr e = heap w !! qe_addr e) as Hsame.
      { apply Hun1. by rewrite <-fmap_app. }
      assert (hload_message (qe_addr e) m1 = Some r0) as Hr1.
      { apply hload_message_lookup. rewrite Hsame.
        by apply hload_message_lookup. }
      rewrite run_bind, Hrun.
      rewrite run_bind, (run_load_message _ (set_heap m1 w) _ Hr1).
      rewrite run_bind, run_confirm.
      rewrite run_bind, (run_load_message _ (mkWorld m1 _ _) _ Hr1).
      unfold IoTHubMessage_Destroy. rewrite run_bind, run_emit.
      apply hload_message_lookup in Hr1.
      rewrite run_bind, (run_free _ (mkWorld m1 _ _) _ Hr1).
      cbn [heap trace env set_heap].
      edestruct (IH pre fuel (mkWorld (delete (qe_addr e) m1)
                   ((trace w ++ (if is_null (callback r0) then []
                      else [EvEventConfirmation (callback r0)
                              IOTHUB_CLIENT_CONFIRMATION_MESSAGE_TIMEOUT
                              (context r0)]))
                    ++ [EvMessageDestroy (messageHandle r0)]) (env w)))
        as (w' & Hrun' & Hq' & Htr & Henv & Hle' & Hun').
      { destruct Hq as [_ Hh]. split; cbn [heap].
        - rewrite fmap_app. apply dlist_delete; [|done].
          by rewrite <-fmap_app.
        - apply (Forall_holds_agree m1).
          + intros e' He'. apply lookup_delete_ne. intros Heq.
            apply Hnin. right. rewrite Heq. by apply list_elem_of_fmap_2.
          + apply (Forall_holds_links_equiv (heap w)); [done|].
            apply Forall_app in Hh as [? [_ ?]%Forall_cons].
            by apply Forall_app. }
      { simpl in Hfuel. lia. }
      exists w'. split; [done|]. cbn [heap trace env] in *.
      rewrite (filter_cons_False (λ e, ¬ expired nowTick e))
        by (cbv beta; rewrite Hex; by intros []).
      rewrite !(filter_cons_True (λ e, Is_true (expired nowTick e)))
        by (cbv beta; by rewrite Hex).
      split; [done|]. split; [|split; [done|split]].
      * rewrite Htr, completions_cons. unfold completion.
        rewrite Hmh, Hcb, Hctx. by rewrite <-!app_assoc.
      * rewrite fmap_cons. cbn [free_all foldr].
        fold (free_all (qe_addr <$> filter (λ e, expired nowTick e) q)
                (heap w)).
        rewrite <-free_all_delete.
        eapply links_equiv_trans; [|done].
        by apply links_equiv_free_all, links_equiv_delete.
      * intros p Hp. rewrite fmap_app, fmap_cons in Hp.
        assert (p ≠ qe_addr e) as Hpe.
        { intros ->. apply Hp. right. apply elem_of_app. right. by left. }
        assert (p ∉ hd :: (qe_addr <$> pre ++ q)) as Hp'.
        { rewrite fmap_app.
          intros [->|[?|?]%elem_of_app]%elem_of_cons; apply Hp;
            [by left|right; apply elem_of_app..]; [by left|].
          right. by right. }
        rewrite Hun' by done. rewrite lookup_delete_ne by done.
        apply Hun1. by rewrite <-fmap_app.
    + edestruct (IH (pre ++ [e]) fuel w)
        as (w' & Hrun' & Hq' & Htr & Henv & Hle' & Hun').
      { by rewrite <-app_assoc. }
      { simpl in Hfuel. lia. }
      exists w'. split; [exact Hrun'|].
      rewrite (filter_cons_True (λ e, ¬ expired nowTick e))
        by (cbv beta; rewrite Hex; by intros []).
      rewrite !(filter_cons_False (λ e, Is_true (expired nowTick e)))
        by (cbv beta; rewrite Hex; by intros []).
      rewrite <-app_assoc in Hq', Hun'.
      by repeat (split; [done|]).
Qed.

End scan.

(** ** The small world is well formed *)

Lemma example_queue_ok : queue example_heap 100 example_queue.
Proof.
  split.
  - split.
    + change (NoDup [100; 200; 300; 400]). compute_done.
    + vm_compute. by repeat split.
  - by repeat constructor.
Qed.

Lemma example_handle_ok : hload_handle 100 example_heap = Some example_handle.
Proof. by vm_compute. Qed.

(** ** What the application sees of a run of completions *)

Lemma expired_iff nowTick e :
  expired nowTick e ↔ qe_expiry e ≠ 0 ∧ qe_expiry e < nowTick.
Proof.
  unfold expired. rewrite andb_True, negb_True, !bool_decide_spec. done.
Qed.

Lemma confirmations_app t1 t2 :
  confirmations (t1 ++ t2) = confirmations t1 ++ confirmations t2.
Proof. apply omap_app. Qed.

(** Every entry with a callback is confirmed once, in the order of the
    entries, with the status and with its own context. *)
Lemma confirmations_completions r q :
  confirmations (completions r q) =
  (λ e, (qe_callback e, r, qe_context e))
    <$> filter (λ e, qe_callback e ≠ NULL) q.
Proof.
  induction q as [|e q IH]; [done|].
  rewrite completions_cons, confirmations_app, IH. unfold completion, is_null.
  destruct (decide (qe_callback e = NULL)) as [Heq|Hne].
  - rewrite bool_decide_eq_true_2 by done.
    rewrite filter_cons_False by (by intros ?). done.
  - rewrite bool_decide_eq_false_2 by done.
    rewrite filter_cons_True by done. done.
Qed.

Lemma free_all_removed s m m' p :
  links_equiv (free_all s m) m' → p ∈ s → m' !! p = None.
Proof.
  intros H Hp. eapply links_equiv_None; [done|].
  rewrite lookup_free_all. by rewrite decide_True.
Qed.

Lemma free_all_kept s m m' p :
  links_equiv (free_all s m) m' → p ∉ s →
  payload <$> m' !! p = payload <$> m !! p.
Proof.
  intros H Hp. rewrite (links_equiv_lookup _ _ p H), lookup_free_all.
  by rewrite decide_False.
Qed.

(** ** The timeout scan as a whole *)

Lemma filter_expired nowTick (q : list QueueEntry) :
  filter (λ e, Is_true (expired nowTick e)) q =
  filter (λ e, qe_expiry e ≠ 0 ∧ qe_expiry e < nowTick) q.
Proof. apply list_filter_iff. intros e. apply expired_iff. Qed.

Lemma filter_not_expired nowTick (q : list QueueEntry) :
  filter (λ e, ¬ expired nowTick e) q =
  filter (λ e, ¬ (qe_expiry e ≠ 0 ∧ qe_expiry e < nowTick)) q.
Proof. apply list_filter_iff. intros e. by rewrite expired_iff. Qed.

Lemma DoTimeouts_spec fuel w h hd q nowTick :
  hload_handle h (heap w) = Some hd →
  queue (heap w) h q →
  env_tick_ms (env w) = Some nowTick →
  (length q < fuel)%nat →
  ∃ w',
    DoTimeouts fuel h w = Some (tt, w') ∧
    queue (heap w') h
      (filter (λ e, ¬ (qe_expiry e ≠ 0 ∧ qe_expiry e < nowTick)) q) ∧
    trace w' = trace w ++
      completions IOTHUB_CLIENT_CONFIRMATION_MESSAGE_TIMEOUT
        (filter (λ e, qe_expiry e ≠ 0 ∧ qe_expiry e < nowTick) q) ∧
    env w' = env w ∧
    links_equiv
      (free_all
         (qe_addr <$> filter (λ e, qe_expiry e ≠ 0 ∧ qe_expiry e < nowTick) q)
         (heap w))
      (heap w') ∧
    unchanged_outside (h :: (qe_addr <$> q)) (heap w) (heap w').
Proof.
  intros Hh Hq Htick Hfuel.
  destruct (DoTimeouts_loop_spec nowTick h q [] fuel w)
    as (w' & Hrun & Hq' & Htr & Henv & Hle & Hun); [done..|].
  rewrite filter_expired in Htr, Hle. rewrite filter_not_expired in Hq'.
  simpl in Hq', Hun.
  exists w'. split; [|done].
  unfold DoTimeouts. rewrite run_bind, (run_load_handle _ _ _ Hh).
  unfold tickcounter_get_current_ms, ask. rewrite run_bind, Htick.
  destruct Hq as [[_ Hs] _]. apply dseg_first in Hs.
  by rewrite run_bind, (run_load_Flink _ _ _ Hs).
Qed.

(** Without a clock reading the scan is skipped. *)
Lemma DoTimeouts_no_clock fuel w h hd :
  hload_handle h (heap w) = Some hd →
  env_tick_ms (env w) = None →
  DoTimeouts fuel h w = Some (tt, w).
Proof.
  intros Hh Htick. unfold DoTimeouts.
  rewrite run_bind, (run_load_handle _ _ _ Hh).
  unfold tickcounter_get_current_ms, ask. by rewrite run_bind, Htick.
Qed.

(** ** C1: the timeout scan *)

(** C1.  With a clock reading [nowTick] taken at the start of the scan, the
    scan of a well-formed queue [q] returns; the queue then holds exactly the
    entries that have expiry 0 or an expiry not before [nowTick], in their
    original order; for each other entry, in queue order, the callback (when
    there is one) was called once with the timeout status and the entry's
    context, then the message copy was released, and the entry is no longer
    allocated; nothing else in memory was written but links of the list. *)
Theorem DoTimeouts_evicts_expired (fuel : nat) (w : World) (h : Z)
  (hd : IOTHUB_CLIENT_LL_HANDLE_DATA) (q : list QueueEntry) (nowTick : Z) :
  hload_handle h (heap w) = Some hd →
  queue (heap w) h q →
  env_tick_ms (env w) = Some nowTick →
  (length q < fuel)%nat →
  ∃ w',
    DoTimeouts fuel h w = Some (tt, w') ∧
    queue (heap w') h
      (filter (λ e, ¬ (qe_expiry e ≠ 0 ∧ qe_expiry e < nowTick)) q) ∧
    trace w' = trace w ++
      completions IOTHUB_CLIENT_CONFIRMATION_MESSAGE_TIMEOUT
        (filter (λ e, qe_expiry e ≠ 0 ∧ qe_expiry e < nowTick) q) ∧
    confirmations (trace w') = confirmations (trace w) ++
      ((λ e, (qe_callback e, IOTHUB_CLIENT_CONFIRMATION_MESSAGE_TIMEOUT,
              qe_context e))
         <$> filter (λ e, qe_callback e ≠ NULL)
               (filter (λ e, qe_expiry e ≠ 0 ∧ qe_expiry e < nowTick) q)) ∧
    (∀ e, e ∈ q → qe_expiry e ≠ 0 ∧ qe_expiry e < nowTick →
          heap w' !! qe_addr e = None) ∧
    (∀ p, (∀ e, e ∈ q → qe_expiry e ≠ 0 ∧ qe_expiry e < nowTick →
                p ≠ qe_addr e) →
          payload <$> heap w' !! p = payload <$> heap w !! p) ∧
    unchanged_outside (h :: (qe_addr <$> q)) (heap w) (heap w') ∧
    env w' = env w.
Proof.
  intros Hh Hq Htick Hfuel.
  destruct (DoTimeouts_spec fuel w h hd q nowTick)
    as (w' & Hrun & Hq' & Htr & Henv & Hle & Hun); [done..|].
  exists w'. split; [done|]. split; [done|]. split; [done|]. split.
  { by rewrite Htr, confirmations_app, confirmations_completions. }
  split.
  { intros e He Hex. eapply free_all_removed; [done|].
    apply list_elem_of_fmap_2. by apply list_elem_of_filter. }
  split; [|done].
  intros p Hp. eapply free_all_kept; [done|].
  intros (e & -> & [Hex He]%list_elem_of_filter)%list_elem_of_fmap.
  by apply (Hp e).
Qed.

Lemma DoTimeouts_evicts_expired_witness :
  ∃ w', DoTimeouts 4 100 example_world = Some (tt, w') ∧
        queue (heap w') 100
          [mkQueueEntry 300 22 0 0 0; mkQueueEntry 400 23 33 43 2000] ∧
        trace w' = [EvEventConfirmation 31
                      IOTHUB_CLIENT_CONFIRMATION_MESSAGE_TIMEOUT 41;
                    EvMessageDestroy 21] ∧
        heap w' !! 200 = None.
Proof.
  destruct (DoTimeouts_evicts_expired 4 example_world 100 example_handle
              example_queue 1000)
    as (w' & Hrun & Hq & Htr & _ & Hfree & _).
  - apply example_handle_ok.
  - apply example_queue_ok.
  - reflexivity.
  - simpl. lia.
  - exists w'. split; [exact Hrun|]. split; [exact Hq|]. split; [exact Htr|].
    apply (Hfree (mkQueueEntry 200 21 31 41 5)).
    + by left.
    + simpl. lia.
Defined.

(** ** C2: destroy *)

Lemma is_null_false p : p ≠ NULL → is_null p = false.
Proof. intros. unfold is_null. by rewrite bool_decide_eq_false_2. Qed.

Lemma is_null_NULL : is_null NULL = true.
Proof. done. Qed.

(** A handle whose record was written at most in its links. *)
Lemma hload_handle_payload m m' h hd :
  payload <$> m' !! h = payload <$> m !! h →
  hload_handle h m = Some hd →
  ∃ hd', hload_handle h m' = Some hd' ∧
         hd' = set_waitingToSend (waitingToSend hd') hd.
Proof.
  intros Hp Hh. apply hload_handle_lookup in Hh. rewrite Hh in Hp.
  destruct (m' !! h) as [o|] eqn:Ho; [|done]. simpl in Hp.
  destruct o as [hd'| | | |]; try done.
  exists hd'. split; [by apply hload_handle_lookup|].
  unfold payload in Hp. simpl in Hp. injection Hp as Hp.
  destruct hd, hd'. unfold set_waitingToSend in *. simpl in *. by simplify_eq.
Qed.

Lemma run_transport_destroy (shared : bool) th w :
  (if shared then mret tt else IoTHubTransport_Destroy th) w =
  Some (tt, mkWorld (heap w)
              (trace w ++ if shared then [] else [EvTransportDestroy th])
              (env w)).
Proof. destruct shared; [|done]. rewrite app_nil_r. by destruct w. Qed.

Lemma queue_head_not_entry m hd q : queue m hd q → hd ∉ qe_addr <$> q.
Proof. intros [[[? _]%NoDup_cons _] _]. done. Qed.

(** C2.  Destroy of a client with the well-formed queue [q] returns.  It
    calls the transport's unregister, then the transport's destroy exactly
    when the transport is not shared, then completes every entry of [q] in
    queue order (the callback, when there is one, once with the status
    "because destroy" and the entry's context, then the release of the
    message copy), then destroys the tick counter; afterwards neither the
    entries nor the client record are allocated, and the rest of memory is
    as before.  Destroy of [NULL] changes nothing. *)
Theorem Destroy_completes_every_entry (fuel : nat) (w : World) (h : Z)
  (hd : IOTHUB_CLIENT_LL_HANDLE_DATA) (q : list QueueEntry) :
  IoTHubClient_LL_Destroy fuel NULL w = Some (tt, w) ∧
  (h ≠ NULL →
   hload_handle h (heap w) = Some hd →
   queue (heap w) h q →
   (length q < fuel)%nat →
   ∃ w',
     IoTHubClient_LL_Destroy fuel h w = Some (tt, w') ∧
     trace w' = trace w ++
       [EvTransportUnregister (deviceHandle hd)] ++
       (if isSharedTransport hd then []
        else [EvTransportDestroy (transportHandle hd)]) ++
       completions IOTHUB_CLIENT_CONFIRMATION_BECAUSE_DESTROY q ++
       [EvTickCounterDestroy (tickCounter hd)] ∧
     confirmations (trace w') = confirmations (trace w) ++
       ((λ e, (qe_callback e, IOTHUB_CLIENT_CONFIRMATION_BECAUSE_DESTROY,
               qe_context e))
          <$> filter (λ e, qe_callback e ≠ NULL) q) ∧
     heap w' = free_all (h :: (qe_addr <$> q)) (heap w) ∧
     env w' = env w).
Proof.
  split; [done|]. intros Hnull Hh Hq Hfuel.
  pose proof (queue_head_not_entry _ _ _ Hq) as Hhq.
  unfold IoTHubClient_LL_Destroy. rewrite is_null_false by done.
  rewrite run_bind, (run_load_handle _ _ _ Hh).
  unfold IoTHubTransport_Unregister. rewrite run_bind, run_emit.
  rewrite run_bind, (run_load_handle _ (mkWorld _ _ _) _ Hh).
  rewrite run_bind, run_transport_destroy. cbn [heap trace env].
  rewrite Destroy_loop_SendComplete_loop.
  edestruct (SendComplete_loop_spec IOTHUB_CLIENT_CONFIRMATION_BECAUSE_DESTROY
               q fuel
               (mkWorld (heap w)
                  ((trace w ++ [EvTransportUnregister (deviceHandle hd)]) ++
                   (if isSharedTransport hd then []
                    else [EvTransportDestroy (transportHandle hd)]))
                  (env w)) h)
    as (w2 & Hrun & Htr & Henv & Hd & Hle & Hun); [exact Hq|done|].
  rewrite run_bind, Hrun. cbn [heap trace env] in *.
  destruct (hload_handle_payload (heap w) (heap w2) h hd)
    as (hd2 & Hh2 & Hhd2); [by eapply free_all_kept|done|].
  rewrite run_bind, (run_load_handle _ _ _ Hh2).
  unfold tickcounter_destroy. rewrite run_bind, run_emit.
  apply hload_handle_lookup in Hh2.
  rewrite (run_free _ (mkWorld _ _ _) _ Hh2). cbn [heap trace env set_heap].
  eexists. split; [done|]. unfold set_heap. cbn [heap trace env].
  assert (tickCounter hd2 = tickCounter hd) as -> by (by rewrite Hhd2).
  assert (trace w2 ++ [EvTickCounterDestroy (tickCounter hd)] =
          trace w ++ [EvTransportUnregister (deviceHandle hd)] ++
          (if isSharedTransport hd then []
           else [EvTransportDestroy (transportHandle hd)]) ++
          completions IOTHUB_CLIENT_CONFIRMATION_BECAUSE_DESTROY q ++
          [EvTickCounterDestroy (tickCounter hd)]) as Htr'.
  { rewrite Htr. by rewrite <-!app_assoc. }
  split; [done|]. split; [|split; [|done]].
  - rewrite Htr'. rewrite !confirmations_app, confirmations_completions.
    destruct (isSharedTransport hd); simpl; by rewrite app_nil_r.
  - apply map_eq. intros p. cbn [free_all foldr].
    fold (free_all (qe_addr <$> q) (heap w)).
    destruct (decide (p = h)) as [->|Hne].
    { by rewrite !lookup_delete_eq. }
    rewrite !lookup_delete_ne by done. rewrite lookup_free_all.
    destruct (decide (p ∈ qe_addr <$> q)) as [Hin|Hnin].
    + by eapply free_all_removed.
    + apply Hun. by intros [?|?]%elem_of_cons.
Qed.

Lemma Destroy_completes_every_entry_witness :
  ∃ w', IoTHubClient_LL_Destroy 4 100 example_world = Some (tt, w') ∧
        trace w' =
          [EvTransportUnregister 60; EvTransportDestroy 50;
           EvEventConfirmation 31
             IOTHUB_CLIENT_CONFIRMATION_BECAUSE_DESTROY 41;
           EvMessageDestroy 21; EvMessageDestroy 22;
           EvEventConfirmation 33
             IOTHUB_CLIENT_CONFIRMATION_BECAUSE_DESTROY 43;
           EvMessageDestroy 23; EvTickCounterDestroy 70] ∧
        heap w' = free_all [100; 200; 300; 400] example_heap.
Proof.
  destruct (Destroy_completes_every_entry 4 example_world 100 example_handle
              example_queue) as [_ H].
  destruct H as (w' & Hrun & Htr & _ & Hheap & _).
  - unfold NULL. lia.
  - apply example_handle_ok.
  - apply example_queue_ok.
  - simpl. lia.
  - exists w'. split; [exact Hrun|]. split; [exact Htr|exact Hheap].
Defined.

(** ** C3: send-complete *)

(** C3.  Send-complete on a non-null client and a non-null, well-formed
    batch [q] returns; every entry of the batch, in batch order, had its
    callback (when there is one) called once with the status of the batch
    result (success gives "ok", failed gives "error") and with the entry's
    stored context, then its message copy released; afterwards the batch is
    empty, no entry of it is allocated, and the rest of memory is as before.
    With a [NULL] client or a [NULL] batch the call changes nothing. *)
Theorem SendComplete_confirms_batch (fuel : nat) (w : World)
  (handle completed : Z) (result : IOTHUB_BATCHSTATE_RESULT)
  (q : list QueueEntry) :
  (handle = NULL ∨ completed = NULL →
   IoTHubClient_LL_SendComplete fuel handle completed result w
   = Some (tt, w)) ∧
  (handle ≠ NULL → completed ≠ NULL →
   queue (heap w) completed q →
   (length q < fuel)%nat →
   ∃ w',
     IoTHubClient_LL_SendComplete fuel handle completed result w
     = Some (tt, w') ∧
     trace w' = trace w ++ completions (batch_status result) q ∧
     confirmations (trace w') = confirmations (trace w) ++
       ((λ e, (qe_callback e, batch_status result, qe_context e))
          <$> filter (λ e, qe_callback e ≠ NULL) q) ∧
     queue (heap w') completed [] ∧
     (∀ e, e ∈ q → heap w' !! qe_addr e = None) ∧
     unchanged_outside (completed :: (qe_addr <$> q)) (heap w) (heap w') ∧
     env w' = env w).
Proof.
  split.
  { unfold IoTHubClient_LL_SendComplete.
    intros [-> | ->]; [done|]. by rewrite orb_true_r. }
  intros Hh Hc Hq Hfuel. unfold IoTHubClient_LL_SendComplete.
  rewrite !is_null_false by done. cbn [orb].
  destruct (SendComplete_loop_spec (batch_status result) q fuel w completed)
    as (w' & Hrun & Htr & Henv & Hd & Hle & Hun); [done..|].
  exists w'. split.
  { by destruct result. }
  split; [done|]. split.
  { by rewrite Htr, confirmations_app, confirmations_completions. }
  split; [by split|]. split; [|done].
  intros e He. eapply free_all_removed; [done|].
  by apply list_elem_of_fmap_2.
Qed.

Lemma SendComplete_confirms_batch_witness :
  ∃ w', IoTHubClient_LL_SendComplete 4 7 100 IOTHUB_BATCHSTATE_FAILED
          example_world = Some (tt, w') ∧
        confirmations (trace w') =
          [(31, IOTHUB_CLIENT_CONFIRMATION_ERROR, 41);
           (33, IOTHUB_CLIENT_CONFIRMATION_ERROR, 43)] ∧
        queue (heap w') 100 [].
Proof.
  destruct (SendComplete_confirms_batch 4 example_world 7 100
              IOTHUB_BATCHSTATE_FAILED example_queue) as [_ H].
  destruct H as (w' & Hrun & _ & Hc & Hq & _).
  - unfold NULL. lia.
  - unfold NULL. lia.
  - apply example_queue_ok.
  - simpl. lia.
  - exists w'. split; [exact Hrun|]. split; [exact Hc|exact Hq].
Defined.

(** ** C5: one drive cycle *)

(** C5.  A drive call on a client with the well-formed queue [q] returns,
    and it is the timeout scan followed by one call of the transport's
    do-work: the scan has returned, leaving the world [w1], before the
    transport is called; the transport is called on the memory the scan
    left, and its call is the last event.  With a clock reading the scan has
    by then removed and completed every expired entry; without one it has
    done nothing.  A drive call on [NULL] changes nothing, and calls
    nothing. *)
Theorem DoWork_scans_then_dispatches (fuel : nat) (w : World) (h : Z)
  (hd : IOTHUB_CLIENT_LL_HANDLE_DATA) (q : list QueueEntry) :
  IoTHubClient_LL_DoWork fuel NULL w = Some (tt, w) ∧
  (h ≠ NULL →
   hload_handle h (heap w) = Some hd →
   queue (heap w) h q →
   (length q < fuel)%nat →
   ∃ w1 w',
     DoTimeouts fuel h w = Some (tt, w1) ∧
     IoTHubClient_LL_DoWork fuel h w = Some (tt, w') ∧
     heap w' = heap w1 ∧ env w' = env w1 ∧
     trace w' = trace w1 ++ [EvTransportDoWork (transportHandle hd) h] ∧
     match env_tick_ms (env w) with
     | Some nowTick =>
       queue (heap w1) h
         (filter (λ e, ¬ (qe_expiry e ≠ 0 ∧ qe_expiry e < nowTick)) q) ∧
       trace w1 = trace w ++
         completions IOTHUB_CLIENT_CONFIRMATION_MESSAGE_TIMEOUT
           (filter (λ e, qe_expiry e ≠ 0 ∧ qe_expiry e < nowTick) q)
     | None => w1 = w
     end).
Proof.
  split; [done|]. intros Hnull Hh Hq Hfuel.
  pose proof (queue_head_not_entry _ _ _ Hq) as Hhq.
  unfold IoTHubClient_LL_DoWork. rewrite is_null_false by done.
  destruct (env_tick_ms (env w)) as [nowTick|] eqn:Htick.
  - destruct (DoTimeouts_spec fuel w h hd q nowTick)
      as (w1 & Hrun & Hq1 & Htr & Henv & Hle & Hun); [done..|].
    destruct (hload_handle_payload (heap w) (heap w1) h hd)
      as (hd1 & Hh1 & Hhd1); [|done|].
    { eapply free_all_kept; [done|].
      intros (e & -> & [_ He]%list_elem_of_filter)%list_elem_of_fmap.
      apply Hhq. by apply list_elem_of_fmap_2. }
    exists w1. eexists. split; [done|].
    rewrite run_bind, Hrun, run_bind, (run_load_handle _ _ _ Hh1).
    unfold IoTHubTransport_DoWork. rewrite run_emit.
    assert (transportHandle hd1 = transportHandle hd) as ->
      by (by rewrite Hhd1).
    by repeat (split; [done|]).
  - rewrite (DoTimeouts_no_clock fuel w h hd) by done.
    exists w. eexists. split; [done|].
    rewrite run_bind, (DoTimeouts_no_clock fuel w h hd) by done.
    rewrite run_bind, (run_load_handle _ _ _ Hh).
    unfold IoTHubTransport_DoWork. rewrite run_emit.
    by repeat (split; [done|]).
Qed.

Lemma DoWork_scans_then_dispatches_witness :
  ∃ w1 w', DoTimeouts 4 100 example_world = Some (tt, w1) ∧
           IoTHubClient_LL_DoWork 4 100 example_world = Some (tt, w') ∧
           heap w' = heap w1 ∧
           trace w' = trace w1 ++ [EvTransportDoWork 50 100] ∧
           trace w1 = [EvEventConfirmation 31
                         IOTHUB_CLIENT_CONFIRMATION_MESSAGE_TIMEOUT 41;
                       EvMessageDestroy 21].
Proof.
  destruct (DoWork_scans_then_dispatches 4 example_world 100 example_handle
              example_queue) as [_ H].
  destruct H as (w1 & w' & Hscan & Hrun & Hheap & _ & Htr & _ & Htr1).
  - unfold NULL. lia.
  - apply example_handle_ok.
  - apply example_queue_ok.
  - simpl. lia.
  - exists w1, w'. split; [exact Hscan|]. split; [exact Hrun|].
    split; [exact Hheap|]. split; [exact Htr|exact Htr1].
Defined.

(** ** C6: send-async on invalid arguments *)

(** C6.  When the client is [NULL], or the message is [NULL], or the callback
    is [NULL] while the context is not, send-async returns the
    invalid-argument status and leaves the whole world as it was: memory (so
    every queue and every client record), the trace of calls, and the
    environment. *)
Theorem SendEventAsync_invalid_arg (w : World) (h msg cb ctx : Z) :
  h = NULL ∨ msg = NULL ∨ (cb = NULL ∧ ctx ≠ NULL) →
  IoTHubClient_LL_SendEventAsync h msg cb ctx w
  = Some (IOTHUB_CLIENT_INVALID_ARG, w).
Proof.
  unfold IoTHubClient_LL_SendEventAsync.
  intros [-> | [-> | [-> Hctx]]].
  - done.
  - by rewrite is_null_NULL, orb_true_r.
  - by rewrite is_null_NULL, (is_null_false ctx), !orb_true_r.
Qed.

Lemma SendEventAsync_invalid_arg_witness :
  IoTHubClient_LL_SendEventAsync 100 7 NULL 9 example_world
  = Some (IOTHUB_CLIENT_INVALID_ARG, example_world).
Proof.
  apply (SendEventAsync_invalid_arg example_world 100 7 NULL 9).
  right. right. split; [reflexivity|]. unfold NULL. lia.
Defined.

(** ** C9: inbound delivery without a receive callback *)

(** C9.  On a client whose receive callback is [NULL], deliver-inbound
    returns "abandoned", makes no call (the trace is as before), and stores
    the arrival time as the client's last-receive time, whatever was there;
    nothing else is written. *)
Theorem MessageCallback_without_callback (w : World) (h msg : Z)
  (hd : IOTHUB_CLIENT_LL_HANDLE_DATA) :
  h ≠ NULL →
  hload_handle h (heap w) = Some hd →
  messageCallback hd = NULL →
  ∃ w',
    IoTHubClient_LL_MessageCallback h msg w
    = Some (IOTHUBMESSAGE_ABANDONED, w') ∧
    trace w' = trace w ∧
    hload_handle h (heap w')
    = Some (set_lastMessageReceiveTime (env_time (env w)) hd) ∧
    heap w' = <[h := ObjHandle
                        (set_lastMessageReceiveTime (env_time (env w)) hd)]>
                (heap w) ∧
    env w' = env w.
Proof.
  intros Hnull Hh Hcb. unfold IoTHubClient_LL_MessageCallback.
  rewrite is_null_false by done. unfold get_time, ask. rewrite run_bind.
  rewrite run_bind, (run_store_handle _ _ _ _ Hh).
  assert (hload_handle h
            (<[h := ObjHandle
                      (set_lastMessageReceiveTime (env_time (env w)) hd)]>
               (heap w))
          = Some (set_lastMessageReceiveTime (env_time (env w)) hd)) as Hh'.
  { apply hload_handle_lookup. by rewrite lookup_insert_eq. }
  rewrite run_bind, (run_load_handle _ (set_heap _ w) _ Hh').
  cbn [messageCallback set_lastMessageReceiveTime]. rewrite Hcb.
  eexists. split; [done|]. by repeat (split; [done|]).
Qed.

Lemma MessageCallback_without_callback_witness :
  ∃ w', IoTHubClient_LL_MessageCallback 100 7 example_world
        = Some (IOTHUBMESSAGE_ABANDONED, w') ∧
        trace w' = [] ∧
        lastMessageReceiveTime <$> hload_handle 100 (heap w') = Some 1234.
Proof.
  destruct (MessageCallback_without_callback example_world 100 7
              example_handle) as (w' & Hrun & Htr & Hh & _).
  - unfold NULL. lia.
  - apply example_handle_ok.
  - reflexivity.
  - exists w'. split; [exact Hrun|]. split; [exact Htr|].
    rewrite Hh. reflexivity.
Defined.

(** ** C10: the last-receive-time query and its output *)

(** C10.  With a [NULL] client or a [NULL] output pointer the query returns
    the invalid-argument status.  Whenever the query returns a status other
    than "ok" (invalid-argument, indefinite-time) nothing was written: the
    world, and with it what the output pointer refers to, is as before.
    When it returns "ok" the only write is the stored time to the output. *)
Theorem GetLastMessageReceiveTime_writes_only_on_ok (w : World) (h out : Z) :
  (h = NULL ∨ out = NULL →
   IoTHubClient_LL_GetLastMessageReceiveTime h out w
   = Some (IOTHUB_CLIENT_INVALID_ARG, w)) ∧
  (∀ r w',
     IoTHubClient_LL_GetLastMessageReceiveTime h out w = Some (r, w') →
     r ≠ IOTHUB_CLIENT_OK → w' = w) ∧
  (∀ w',
     IoTHubClient_LL_GetLastMessageReceiveTime h out w
     = Some (IOTHUB_CLIENT_OK, w') →
     ∃ hd, hload_handle h (heap w) = Some hd ∧
           lastMessageReceiveTime hd ≠ INDEFINITE_TIME ∧
           w' = set_heap (<[out := ObjTime (lastMessageReceiveTime hd)]>
                            (heap w)) w).
Proof.
  unfold IoTHubClient_LL_GetLastMessageReceiveTime. split; [|split].
  - intros [-> | ->]; [done|]. by rewrite is_null_NULL, orb_true_r.
  - intros r w'. destruct (is_null h || is_null out).
    { by intros [= <- <-]. }
    rewrite run_bind. unfold load_handle at 1, lift_heap.
    destruct (hload_handle h (heap w)) as [hd|] eqn:Hh; [|done].
    case_bool_decide.
    { by intros [= <- <-]. }
    rewrite run_bind, (run_load_handle _ _ _ Hh), run_bind.
    destruct (store_time out (lastMessageReceiveTime hd) w) as [[[] w1]|];
      [|done].
    by intros [= <- <-].
  - intros w'. destruct (is_null h || is_null out); [done|].
    rewrite run_bind. unfold load_handle at 1, lift_heap.
    destruct (hload_handle h (heap w)) as [hd|] eqn:Hh; [|done].
    case_bool_decide as Hind; [done|].
    rewrite run_bind, (run_load_handle _ _ _ Hh), run_bind.
    unfold store_time, update_heap.
    destruct (heap w !! out) as [[]|]; try done.
    intros [= <-]. by exists hd.
Qed.

Lemma GetLastMessageReceiveTime_writes_only_on_ok_witness :
  IoTHubClient_LL_GetLastMessageReceiveTime 100 NULL example_world
  = Some (IOTHUB_CLIENT_INVALID_ARG, example_world) ∧
  IoTHubClient_LL_GetLastMessageReceiveTime 100 500 example_world
  = Some (IOTHUB_CLIENT_INDEFINITE_TIME, example_world).
Proof.
  destruct (GetLastMessageReceiveTime_writes_only_on_ok example_world 100
              NULL) as (H1 & _ & _).
  destruct (GetLastMessageReceiveTime_writes_only_on_ok example_world 100
              500) as (_ & H2 & _).
  split.
  - apply H1. right. reflexivity.
  - destruct (IoTHubClient_LL_GetLastMessageReceiveTime 100 500
                example_world) as [[r w']|] eqn:Hrun.
    + assert (r = IOTHUB_CLIENT_INDEFINITE_TIME) as Hr.
      { vm_compute in Hrun. congruence. }
      rewrite (H2 r w' eq_refl); [by rewrite Hr|]. by rewrite Hr.
    + vm_compute in Hrun. discriminate Hrun.
Defined.

(** ** Send-async *)

Section send.
Implicit Types (w : World) (m : gmap Z object) (p h : Z)
  (q : list QueueEntry).

Lemma malloc_fresh w init :
  env_malloc_fails (env w) = false →
  ∃ p, malloc init w = Some (p, set_heap (<[p := init]> (heap w)) w) ∧
       p ≠ NULL ∧ heap w !! p = None.
Proof.
  intros Hm. unfold malloc. rewrite Hm.
  pose proof (is_fresh ({[NULL]} ∪ dom (heap w))) as Hf.
  exists (fresh ({[NULL]} ∪ dom (heap w))). split; [done|].
  apply not_elem_of_union in Hf as [Hf1 Hf2]. split.
  - intros Heq. apply Hf1. rewrite Heq. by apply elem_of_singleton.
  - by apply not_elem_of_dom.
Qed.

Lemma hload_message_insert p r m :
  hload_message p (<[p := ObjMessage r]> m) = Some r.
Proof. apply hload_message_lookup. by rewrite lookup_insert_eq. Qed.

Lemma hload_handle_insert_ne p h o m :
  p ≠ h → hload_handle h (<[p := o]> m) = hload_handle h m.
Proof. intros. unfold hload_handle. by rewrite lookup_insert_ne. Qed.

(** The expiry [attach_ms_timesOutAfter] gives to a new entry. *)
Lemma attach_ms_timesOutAfter_spec w h hd p r :
  p ≠ h →
  hload_handle h (heap w) = Some hd →
  hload_message p (heap w) = Some r →
  attach_ms_timesOutAfter h p w =
  if bool_decide (currentMessageTimeout hd = 0) then
    Some (0, set_heap (<[p := ObjMessage (set_ms_timesOutAfter 0 r)]>
                         (heap w)) w)
  else
    match env_tick_ms (env w) with
    | None => Some (451, w)
    | Some ms =>
      Some (0, set_heap
                 (<[p := ObjMessage
                           (set_ms_timesOutAfter
                              (uint64_add ms (currentMessageTimeout hd)) r)]>
                    (heap w)) w)
    end.
Proof.
  intros Hne Hh Hr. unfold attach_ms_timesOutAfter.
  rewrite run_bind, (run_load_handle _ _ _ Hh).
  case_bool_decide.
  - by rewrite run_bind, (run_store_message _ _ _ _ Hr).
  - unfold tickcounter_get_current_ms, ask. rewrite run_bind.
    destruct (env_tick_ms (env w)) as [ms|]; [|done].
    rewrite run_bind, (run_store_message _ _ _ _ Hr).
    rewrite run_bind, (run_load_handle _ (set_heap _ w) hd).
    2:{ cbn [heap set_heap]. by rewrite hload_handle_insert_ne. }
    rewrite run_bind, (run_load_message _ (set_heap _ w) _
                         (hload_message_insert _ _ _)).
    rewrite run_bind, (run_store_message _ _ (set_heap _ w) _
                         (hload_message_insert _ _ _)).
    unfold set_heap. cbn [heap trace env]. by rewrite insert_insert_eq.
Qed.

Lemma attach_ms_timesOutAfter_ok w h hd p r expiry :
  p ≠ h →
  hload_handle h (heap w) = Some hd →
  hload_message p (heap w) = Some r →
  (currentMessageTimeout hd = 0 ∧ expiry = 0 ∨
   currentMessageTimeout hd ≠ 0 ∧
   ∃ ms, env_tick_ms (env w) = Some ms ∧
         expiry = uint64_add ms (currentMessageTimeout hd)) →
  attach_ms_timesOutAfter h p w =
  Some (0, set_heap (<[p := ObjMessage (set_ms_timesOutAfter expiry r)]>
                       (heap w)) w).
Proof.
  intros Hne Hh Hr Hexp.
  rewrite (attach_ms_timesOutAfter_spec w h hd p r) by done.
  destruct Hexp as [[Ht ->] | [Ht (ms & Hms & ->)]].
  - by rewrite bool_decide_eq_true_2.
  - by rewrite bool_decide_eq_false_2, Hms.
Qed.

(** A successful send appends one entry, with the expiry [expiry] that
    [attach_ms_timesOutAfter] computed, at the tail of the queue. *)
Lemma SendEventAsync_enqueues w h hd q msg cb ctx expiry :
  h ≠ NULL → msg ≠ NULL → (cb = NULL → ctx = NULL) →
  hload_handle h (heap w) = Some hd →
  queue (heap w) h q →
  env_malloc_fails (env w) = false →
  env_message_clone (env w) ≠ NULL →
  (currentMessageTimeout hd = 0 ∧ expiry = 0 ∨
   currentMessageTimeout hd ≠ 0 ∧
   ∃ ms, env_tick_ms (env w) = Some ms ∧
         expiry = uint64_add ms (currentMessageTimeout hd)) →
  ∃ w' p,
    IoTHubClient_LL_SendEventAsync h msg cb ctx w
    = Some (IOTHUB_CLIENT_OK, w') ∧
    p ≠ NULL ∧ heap w !! p = None ∧
    queue (heap w') h
      (q ++ [mkQueueEntry p (env_message_clone (env w)) cb ctx expiry]) ∧
    trace w' = trace w ∧ env w' = env w ∧
    unchanged_outside (h :: (qe_addr <$> q) ++ [p]) (heap w) (heap w') ∧
    payload <$> heap w' !! h = payload <$> heap w !! h.
Proof.
  intros Hh0 Hmsg Hcb Hh Hq Hmalloc Hclone Hexp.
  destruct (malloc_fresh w (ObjMessage uninit_message) Hmalloc)
    as (p & Hrun & Hp0 & Hpfree).
  assert (p ≠ h) as Hph.
  { intros ->. apply hload_handle_lookup in Hh. congruence. }
  assert (p ∉ h :: (qe_addr <$> q)) as Hpq.
  { intros Hin. destruct Hq as [Hd _].
    destruct (dlist_allocated _ _ _ _ Hd Hin) as [o Ho]. congruence. }
  unfold IoTHubClient_LL_SendEventAsync.
  rewrite !is_null_false by done. cbn [orb].
  assert (is_null cb && negb (is_null ctx) = false) as ->.
  { unfold is_null. case_bool_decide as Hc; [|done].
    by rewrite (bool_decide_eq_true_2 _ (Hcb Hc)). }
  rewrite run_bind, Hrun, is_null_false by done.
  set (r1 := set_ms_timesOutAfter expiry uninit_message).
  rewrite run_bind,
    (attach_ms_timesOutAfter_ok (set_heap _ w) h hd p uninit_message expiry);
    [|done|cbn [heap set_heap]; by rewrite hload_handle_insert_ne
     |apply hload_message_insert|done].
  unfold set_heap at 1. cbn [heap trace env set_heap].
  rewrite insert_insert_eq. fold r1.
  rewrite bool_decide_eq_true_2 by done.
  cbn [negb]. unfold IoTHubMessage_Clone, ask. rewrite run_bind.
  cbn [heap trace env].
  rewrite run_bind, (run_store_message _ _ (mkWorld _ _ _) _
                       (hload_message_insert _ _ _)).
  unfold set_heap. cbn [heap trace env]. rewrite insert_insert_eq.
  rewrite is_null_false by done.
  rewrite run_bind, (run_store_message _ _ (mkWorld _ _ _) _
                       (hload_message_insert _ _ _)).
  unfold set_heap. cbn [heap trace env]. rewrite insert_insert_eq.
  rewrite run_bind, (run_store_message _ _ (mkWorld _ _ _) _
                       (hload_message_insert _ _ _)).
  unfold set_heap. cbn [heap trace env]. rewrite insert_insert_eq.
  set (r5 := set_context ctx
               (set_callback cb
                  (set_messageHandle (env_message_clone (env w)) r1))).
  set (m5 := <[p := ObjMessage r5]> (heap w)).
  assert (∀ a, a ≠ p → m5 !! a = heap w !! a) as Hm5.
  { intros a Ha. unfold m5. by rewrite lookup_insert_ne. }
  destruct Hq as [Hd Hholds].
  destruct (DList_InsertTailList_spec (mkWorld m5 (trace w) (env w)) h
              (qe_addr <$> q) p) as (m6 & Hrun6 & Hd6 & Hle6 & Hun6).
  { cbn [heap]. eapply dlist_agree; [|exact Hd].
    intros a Ha. apply Hm5. by intros ->. }
  { done. }
  { cbn [heap]. unfold hload_Flink, m5. rewrite lookup_insert_eq. by eexists. }
  rewrite run_bind, Hrun6. cbn [heap trace env set_heap] in *.
  exists (mkWorld m6 (trace w) (env w)), p. split; [done|].
  split; [done|]. split; [done|]. cbn [heap trace env].
  split; [|split; [done|split; [done|split]]].
  - split.
    + by rewrite fmap_app.
    + apply Forall_app. split.
      * apply (Forall_holds_links_equiv m5); [done|].
        apply (Forall_holds_agree (heap w)); [|done].
        intros e He. apply Hm5. intros Heq. apply Hpq. right.
        rewrite <-Heq. by apply list_elem_of_fmap_2.
      * apply Forall_singleton. unfold holds. cbn [qe_addr].
        rewrite (entry_at_links_equiv m5 m6) by done.
        unfold entry_at, m5. by rewrite hload_message_insert.
  - intros a Ha. rewrite Hun6 by done. apply Hm5. intros ->.
    apply Ha. right. apply elem_of_app. right. by left.
  - rewrite (links_equiv_lookup m5 m6) by done. by rewrite Hm5.
Qed.

(** When the default timeout is not 0 and the clock cannot be read, the
    send fails and leaves the world as it was: the new record is freed. *)
Lemma SendEventAsync_clock_failure w h hd msg cb ctx :
  h ≠ NULL → msg ≠ NULL → (cb = NULL → ctx = NULL) →
  hload_handle h (heap w) = Some hd →
  env_malloc_fails (env w) = false →
  currentMessageTimeout hd ≠ 0 →
  env_tick_ms (env w) = None →
  IoTHubClient_LL_SendEventAsync h msg cb ctx w
  = Some (IOTHUB_CLIENT_ERROR, w).
Proof.
  intros Hh0 Hmsg Hcb Hh Hmalloc Ht Htick.
  destruct (malloc_fresh w (ObjMessage uninit_message) Hmalloc)
    as (p & Hrun & Hp0 & Hpfree).
  assert (p ≠ h) as Hph.
  { intros ->. apply hload_handle_lookup in Hh. congruence. }
  unfold IoTHubClient_LL_SendEventAsync.
  rewrite !is_null_false by done. cbn [orb].
  assert (is_null cb && negb (is_null ctx) = false) as ->.
  { unfold is_null. case_bool_decide as Hc; [|done].
    by rewrite (bool_decide_eq_true_2 _ (Hcb Hc)). }
  rewrite run_bind, Hrun, is_null_false by done.
  rewrite run_bind,
    (attach_ms_timesOutAfter_spec (set_heap _ w) h hd p uninit_message);
    [|done|cbn [heap set_heap]; by rewrite hload_handle_insert_ne
     |apply hload_message_insert].
  rewrite bool_decide_eq_false_2 by done. cbn [env set_heap]. rewrite Htick.
  rewrite bool_decide_eq_false_2 by done. cbn [negb].
  rewrite run_bind, (run_free _ (set_heap _ w) (ObjMessage uninit_message))
    by (cbn [heap set_heap]; by rewrite lookup_insert_eq).
  unfold set_heap. cbn [heap trace env].
  rewrite delete_insert_id by done. by destruct w.
Qed.

End send.

(** ** C7: changing the default timeout *)

Lemma queue_insert_handle m h hd hd' q :
  hload_handle h m = Some hd →
  waitingToSend hd' = waitingToSend hd →
  queue m h q → queue (<[h := ObjHandle hd']> m) h q.
Proof.
  intros Hh Hl [Hd Hq]. apply hload_handle_lookup in Hh. split.
  - eapply dlist_insert_same_links; [done| |done]. simpl. by rewrite Hl.
  - apply (Forall_holds_agree m); [|done]. intros e He.
    apply lookup_insert_ne. intros Heq.
    apply Forall_forall with (x := e) in Hq; [|done].
    apply holds_message in Hq as (r & Hr%hload_message_lookup & _).
    congruence.
Qed.

(** C7.  A set-option call that sets "messageTimeout" to [v] returns "ok" and
    writes the client's default timeout and nothing else: every other object
    in memory is as before, so the queue holds the same entries with the
    expiry each was given when it was enqueued.  Only a later send sees the
    new value: its entry, appended behind the old ones, has expiry 0 when
    [v] is 0 and otherwise the clock reading of that send plus [v] in
    [uint64_t] arithmetic. *)
Theorem SetOption_messageTimeout_keeps_expiries (w : World) (h value v : Z)
  (hd : IOTHUB_CLIENT_LL_HANDLE_DATA) (q : list QueueEntry) :
  h ≠ NULL → value ≠ NULL →
  hload_handle h (heap w) = Some hd →
  heap w !! value = Some (ObjUInt64 v) →
  queue (heap w) h q →
  ∃ w',
    IoTHubClient_LL_SetOption h (Some "messageTimeout"%string) value w
    = Some (IOTHUB_CLIENT_OK, w') ∧
    queue (heap w') h q ∧
    (∀ p, p ≠ h → heap w' !! p = heap w !! p) ∧
    hload_handle h (heap w') = Some (set_currentMessageTimeout v hd) ∧
    trace w' = trace w ∧ env w' = env w ∧
    (∀ (e : Environment) (msg cb ctx expiry : Z),
       msg ≠ NULL → (cb = NULL → ctx = NULL) →
       env_malloc_fails e = false → env_message_clone e ≠ NULL →
       (v = 0 ∧ expiry = 0 ∨
        v ≠ 0 ∧
        ∃ ms, env_tick_ms e = Some ms ∧ expiry = uint64_add ms v) →
       ∃ w'' p,
         IoTHubClient_LL_SendEventAsync h msg cb ctx (set_env e w')
         = Some (IOTHUB_CLIENT_OK, w'') ∧
         queue (heap w'') h
           (q ++ [mkQueueEntry p (env_message_clone e) cb ctx expiry])).
Proof.
  intros Hh0 Hv0 Hh Hv Hq. unfold IoTHubClient_LL_SetOption.
  rewrite !is_null_false by done. cbn [orb].
  rewrite bool_decide_eq_true_2 by done.
  rewrite run_bind. unfold load_uint64 at 1, lift_heap. rewrite Hv.
  rewrite run_bind, (run_store_handle _ _ _ _ Hh).
  set (m' := <[h := ObjHandle (set_currentMessageTimeout v hd)]> (heap w)).
  assert (queue m' h q) as Hq' by (by eapply queue_insert_handle).
  assert (hload_handle h m' = Some (set_currentMessageTimeout v hd)) as Hh'.
  { apply hload_handle_lookup. unfold m'. by rewrite lookup_insert_eq. }
  eexists. split; [done|]. cbn [heap trace env set_heap].
  split; [done|]. split.
  { intros p Hp. unfold m'. by rewrite lookup_insert_ne. }
  split; [done|]. split; [done|]. split; [done|].
  intros e msg cb ctx expiry Hmsg Hcb Hmalloc Hclone Hexp.
  destruct (SendEventAsync_enqueues (set_env e (mkWorld m' (trace w) (env w)))
              h (set_currentMessageTimeout v hd) q msg cb ctx expiry)
    as (w'' & p & Hrun & _ & _ & Hq'' & _); try done.
  exists w'', p. by split.
Qed.

Lemma SetOption_messageTimeout_keeps_expiries_witness :
  ∃ w', IoTHubClient_LL_SetOption 100 (Some "messageTimeout"%string) 600
          example_world = Some (IOTHUB_CLIENT_OK, w') ∧
        queue (heap w') 100 example_queue ∧
        currentMessageTimeout <$> hload_handle 100 (heap w') = Some 500.
Proof.
  destruct (SetOption_messageTimeout_keeps_expiries example_world 100 600 500
              example_handle example_queue)
    as (w' & Hrun & Hq & _ & Hh & _).
  - unfold NULL. lia.
  - unfold NULL. lia.
  - apply example_handle_ok.
  - reflexivity.
  - apply example_queue_ok.
  - exists w'. split; [exact Hrun|]. split; [exact Hq|].
    rewrite Hh. reflexivity.
Defined.

(** ** C4: the expiry of a new entry *)

Lemma uint64_add_exact a b :
  0 ≤ a + b < UINT64_MOD → uint64_add a b = a + b.
Proof. intros. unfold uint64_add. by apply Z.mod_small. Qed.

(** Where the sum fits in 64 bits, the new entry expires at the clock reading
    plus the default timeout; with the default timeout 0 it never expires. *)
Lemma SendEventAsync_expiry_in_range (w : World) (h msg cb ctx : Z)
  (hd : IOTHUB_CLIENT_LL_HANDLE_DATA) (q : list QueueEntry) (ms : Z) :
  h ≠ NULL → msg ≠ NULL → (cb = NULL → ctx = NULL) →
  hload_handle h (heap w) = Some hd →
  queue (heap w) h q →
  env_malloc_fails (env w) = false →
  env_message_clone (env w) ≠ NULL →
  env_tick_ms (env w) = Some ms →
  0 ≤ ms + currentMessageTimeout hd < UINT64_MOD →
  ∃ w' p,
    IoTHubClient_LL_SendEventAsync h msg cb ctx w
    = Some (IOTHUB_CLIENT_OK, w') ∧
    queue (heap w') h
      (q ++ [mkQueueEntry p (env_message_clone (env w)) cb ctx
               (if bool_decide (currentMessageTimeout hd = 0) then 0
                else ms + currentMessageTimeout hd)]).
Proof.
  intros Hh0 Hmsg Hcb Hh Hq Hmalloc Hclone Hms Hrange.
  edestruct (SendEventAsync_enqueues w h hd q msg cb ctx)
    as (w' & p & Hrun & _ & _ & Hq' & _); try done.
  2:{ exists w', p. split; [exact Hrun|exact Hq']. }
  case_bool_decide as Ht; [by left|]. right. split; [done|].
  exists ms. split; [done|]. by rewrite uint64_add_exact.
Qed.

(** C4, at the default timeout [UINT64_MAX] and the clock reading 1000.  The
    send succeeds and the new entry gets the expiry 999, which is neither 0
    nor the clock reading plus the timeout: the [uint64_t] sum wrapped
    around.  The expiry lies before the clock reading of the send itself, so
    a scan at that same reading already completes the entry with the
    timeout status. *)
Theorem SendEventAsync_expiry_wraps_around :
  ∃ w' w'',
    IoTHubClient_LL_SendEventAsync 100 7 8 9 overflow_world
    = Some (IOTHUB_CLIENT_OK, w') ∧
    queue (heap w') 100 [mkQueueEntry 101 900 8 9 999] ∧
    999 ≠ 1000 + UINT64_MAX ∧
    DoTimeouts 2 100 w' = Some (tt, w'') ∧
    queue (heap w'') 100 [] ∧
    trace w'' = [EvEventConfirmation 8
                   IOTHUB_CLIENT_CONFIRMATION_MESSAGE_TIMEOUT 9;
                 EvMessageDestroy 900].
Proof.
  destruct (IoTHubClient_LL_SendEventAsync 100 7 8 9 overflow_world)
    as [[r w']|] eqn:Hsend; vm_compute in Hsend; [|discriminate Hsend].
  injection Hsend as <- <-.
  match goal with
  | |- ∃ _ _, Some (_, ?w) = _ ∧ _ =>
    destruct (DoTimeouts 2 100 w) as [[[] w'']|] eqn:Hscan;
      vm_compute in Hscan; [|discriminate Hscan]
  end.
  injection Hscan as <-.
  eexists _, _. split; [reflexivity|]. split.
  { split; [split|].
    - change (NoDup [100; 101]). compute_done.
    - vm_compute. by repeat split.
    - by repeat constructor. }
  split; [by vm_compute|]. split; [by vm_compute|]. split; [|done].
  split; [split|].
  - change (NoDup [100]). compute_done.
  - vm_compute. by repeat split.
  - constructor.
Qed.

(** ** Create *)

Lemma hload_handle_insert p r (m : gmap Z object) :
  hload_handle p (<[p := ObjHandle r]> m) = Some r.
Proof. apply hload_handle_lookup. by rewrite lookup_insert_eq. Qed.

Lemma DList_InitializeListHead_handle p r (m : gmap Z object) t e :
  DList_InitializeListHead p (mkWorld (<[p := ObjHandle r]> m) t e) =
  Some (tt, mkWorld (<[p := ObjHandle
                            (set_waitingToSend (mkDLIST_ENTRY p p) r)]> m) t e).
Proof.
  unfold DList_InitializeListHead, store_Flink, store_Blink, update_heap.
  rewrite run_bind. cbn [heap]. unfold hstore_Flink.
  rewrite lookup_insert_eq. cbn [mbind option_bind links_of set_links].
  unfold set_heap. cbn [heap trace env]. unfold hstore_Blink.
  rewrite lookup_insert_eq. cbn [mbind option_bind links_of set_links].
  by rewrite !insert_insert_eq.
Qed.

(** X1.  A successful create returns a new client record: an empty queue,
    no receive callback, no last receive time, its own transport, and
    messages that do not time out. *)
Lemma IoTHubClient_LL_Create_spec (w : World) (c : IOTHUB_CLIENT_CONFIG) :
  protocol c ≠ NULL →
  env_malloc_fails (env w) = false →
  env_tickcounter_create (env w) ≠ NULL →
  env_transport_create (env w) ≠ NULL →
  env_transport_register (env w) ≠ NULL →
  ∃ h w',
    IoTHubClient_LL_Create (Some c) w = Some (h, w') ∧
    h ≠ NULL ∧ heap w !! h = None ∧
    hload_handle h (heap w')
    = Some (mkHANDLE_DATA (mkDLIST_ENTRY h h) (env_transport_create (env w))
              false (env_transport_register (env w)) NULL NULL
              INDEFINITE_TIME (env_tickcounter_create (env w)) 0) ∧
    queue (heap w') h [] ∧
    trace w' = trace w ++
      [EvTransportCreate;
       EvTransportRegister (env_transport_create (env w)) h] ∧
    (∀ p, p ≠ h → heap w' !! p = heap w !! p).
Proof.
  intros Hproto Hmalloc Htc Hth Hdh.
  destruct (malloc_fresh w (ObjHandle uninit_handle) Hmalloc)
    as (h & Hrun & Hh0 & Hfree).
  unfold IoTHubClient_LL_Create. rewrite is_null_false by done.
  rewrite run_bind, Hrun, is_null_false by done.
  unfold tickcounter_create, ask. rewrite run_bind.
  unfold set_heap. cbn [heap trace env].
  rewrite run_bind, (run_store_handle _ _ (mkWorld _ _ _) _
                       (hload_handle_insert _ _ _)).
  unfold set_heap. cbn [heap trace env]. rewrite insert_insert_eq.
  rewrite is_null_false by done.
  rewrite run_bind, DList_InitializeListHead_handle.
  do 3 (rewrite run_bind, (run_store_handle _ _ (mkWorld _ _ _) _
                             (hload_handle_insert _ _ _));
        unfold set_heap; cbn [heap trace env]; rewrite insert_insert_eq).
  unfold IoTHubTransport_Create. rewrite run_bind, run_bind, run_emit.
  cbn [heap trace env]. unfold ask at 1. cbn [env].
  rewrite run_bind, (run_store_handle _ _ (mkWorld _ _ _) _
                       (hload_handle_insert _ _ _)).
  unfold set_heap. cbn [heap trace env]. rewrite insert_insert_eq.
  rewrite is_null_false by done.
  unfold IoTHubTransport_Register. rewrite run_bind, run_bind, run_emit.
  cbn [heap trace env]. unfold ask at 1. cbn [env].
  rewrite run_bind, (run_store_handle _ _ (mkWorld _ _ _) _
                       (hload_handle_insert _ _ _)).
  unfold set_heap. cbn [heap trace env]. rewrite insert_insert_eq.
  rewrite is_null_false by done.
  do 2 (rewrite run_bind, (run_store_handle _ _ (mkWorld _ _ _) _
                             (hload_handle_insert _ _ _));
        unfold set_heap; cbn [heap trace env]; rewrite insert_insert_eq).
  eexists h, _. split; [done|]. cbn [heap trace env].
  split; [done|]. split; [done|]. split; [apply hload_handle_insert|].
  split; [|split].
  - split; [|done]. split; [apply NoDup_singleton|].
    unfold dseg, linked, hload_Flink, hload_Blink. cbn [fmap list_fmap].
    by rewrite lookup_insert_eq.
  - by rewrite <-app_assoc.
  - intros p Hp. by rewrite lookup_insert_ne.
Qed.

(** ** C8: the last-receive time over a run of calls *)

Section inbound.
Implicit Types (w : World) (m : gmap Z object) (h out : Z)
  (hd : IOTHUB_CLIENT_LL_HANDLE_DATA) (cs : list inbound_call)
  (last : option Z).

(** A delivery stores the arrival time in the client record, whether or not
    a receive callback is registered, and writes nothing else. *)
Lemma MessageCallback_records_time w h hd message :
  h ≠ NULL → hload_handle h (heap w) = Some hd →
  ∃ d w',
    IoTHubClient_LL_MessageCallback h message w = Some (d, w') ∧
    heap w' = <[h := ObjHandle
                        (set_lastMessageReceiveTime (env_time (env w)) hd)]>
                (heap w) ∧
    env w' = env w.
Proof.
  intros Hnull Hh. unfold IoTHubClient_LL_MessageCallback.
  rewrite is_null_false by done. unfold get_time, ask. rewrite run_bind.
  rewrite run_bind, (run_store_handle _ _ _ _ Hh).
  rewrite run_bind,
    (run_load_handle _ (set_heap _ w)
       (set_lastMessageReceiveTime (env_time (env w)) hd))
    by (apply hload_handle_lookup; cbn [heap set_heap];
        by rewrite lookup_insert_eq).
  destruct (negb _); [|by eexists _, _].
  rewrite run_bind, run_emit. by eexists _, _.
Qed.

(** The query on a client and a [time_t] cell. *)
Lemma GetLastMessageReceiveTime_run w h hd out t :
  h ≠ NULL → out ≠ NULL →
  hload_handle h (heap w) = Some hd →
  heap w !! out = Some (ObjTime t) →
  IoTHubClient_LL_GetLastMessageReceiveTime h out w =
  if bool_decide (lastMessageReceiveTime hd = INDEFINITE_TIME)
  then Some (IOTHUB_CLIENT_INDEFINITE_TIME, w)
  else Some (IOTHUB_CLIENT_OK,
             set_heap (<[out := ObjTime (lastMessageReceiveTime hd)]>
                         (heap w)) w).
Proof.
  intros Hh0 Ho0 Hh Ho. unfold IoTHubClient_LL_GetLastMessageReceiveTime.
  rewrite !is_null_false by done. cbn [orb].
  rewrite run_bind, (run_load_handle _ _ _ Hh).
  case_bool_decide; [done|].
  rewrite run_bind, (run_load_handle _ _ _ Hh), run_bind.
  unfold store_time, update_heap. by rewrite Ho.
Qed.

Lemma Forall_inbound_ok_insert_handle m h hd hd' cs :
  hload_handle h m = Some hd →
  Forall (inbound_ok m) cs →
  Forall (inbound_ok (<[h := ObjHandle hd']> m)) cs.
Proof.
  intros Hh%hload_handle_lookup Hcs. eapply Forall_impl; [exact Hcs|].
  intros [t msg|out]; [done|]. intros [Ho (t & Ht)]. split; [done|].
  exists t. rewrite lookup_insert_ne; [done|]. intros ->. congruence.
Qed.

Lemma Forall_inbound_ok_insert_time m out t t' cs :
  m !! out = Some (ObjTime t) →
  Forall (inbound_ok m) cs →
  Forall (inbound_ok (<[out := ObjTime t']> m)) cs.
Proof.
  intros Hout Hcs. eapply Forall_impl; [exact Hcs|].
  intros [t0 msg|out']; [done|]. intros [Ho (t1 & Ht)]. split; [done|].
  destruct (decide (out' = out)) as [->|Hne].
  - exists t'. by rewrite lookup_insert_eq.
  - exists t1. by rewrite lookup_insert_ne.
Qed.

(** The record holds the reading of the last delivery, whatever it is; a
    reading that is recorded as a time is not the "indefinite" value. *)
Lemma stored_recorded t hd :
  lastMessageReceiveTime (set_lastMessageReceiveTime t hd)
  = stored (recorded t).
Proof.
  unfold recorded, stored. destruct hd. cbn [lastMessageReceiveTime
    set_lastMessageReceiveTime]. by case_bool_decide.
Qed.

Lemma recorded_Some t t' :
  recorded t = Some t' → t' ≠ INDEFINITE_TIME.
Proof. unfold recorded. case_bool_decide; [done|]. by intros [= <-]. Qed.

Lemma recorded_Some_eq t t' : recorded t = Some t' → t' = t.
Proof. unfold recorded. case_bool_decide; [done|]. by intros [= <-]. Qed.

Lemma run_inbound_refines_spec h cs :
  ∀ w hd last,
    h ≠ NULL →
    hload_handle h (heap w) = Some hd →
    lastMessageReceiveTime hd = stored last →
    (∀ t, last = Some t → t ≠ INDEFINITE_TIME) →
    Forall (inbound_ok (heap w)) cs →
    ∃ rs w', run_inbound h cs w = Some (rs, w') ∧
             Forall2 answer_matches rs (spec_receive_times last cs).
Proof.
  induction cs as [|[t msg|out] cs IH]; intros w hd last Hh0 Hh Hlast Hne Hcs.
  - exists [], w. by split.
  - apply Forall_cons in Hcs as [_ Hcs]. cbn [run_inbound].
    unfold wall_clock at 1. rewrite run_bind.
    destruct (MessageCallback_records_time
                (set_env (set_env_time t (env w)) w) h hd msg)
      as (d & w1 & Hrun & Hheap & Henv); [done..|].
    rewrite run_bind, Hrun. cbn [heap env set_env set_env_time env_time] in *.
    destruct (IH w1 (set_lastMessageReceiveTime t hd) (recorded t))
      as (rs & w' & Hrun' & Hrs); try done.
    + apply hload_handle_lookup. rewrite Hheap. by rewrite lookup_insert_eq.
    + apply stored_recorded.
    + apply recorded_Some.
    + rewrite Hheap. by eapply Forall_inbound_ok_insert_handle.
    + by exists rs, w'.
  - apply Forall_cons in Hcs as [[Ho (t & Ht)] Hcs]. cbn [run_inbound].
    rewrite run_bind, (GetLastMessageReceiveTime_run w h hd out t) by done.
    rewrite Hlast. destruct last as [t0|]; unfold stored, default, id;
      cbn [from_option].
    + rewrite bool_decide_eq_false_2 by (by apply Hne).
      rewrite run_bind. unfold load_time at 1, lift_heap, set_heap.
      cbn [heap]. rewrite lookup_insert_eq.
      destruct (IH (mkWorld (<[out := ObjTime t0]> (heap w)) (trace w)
                      (env w)) hd (Some t0))
        as (rs & w' & Hrun' & Hrs); try done.
      * cbn [heap]. rewrite hload_handle_insert_ne; [done|].
        intros ->. apply hload_handle_lookup in Hh. congruence.
      * cbn [heap]. by eapply Forall_inbound_ok_insert_time.
      * rewrite run_bind, Hrun'. eexists _, w'. split; [done|].
        by constructor.
    + rewrite bool_decide_eq_true_2 by done.
      rewrite run_bind. unfold load_time at 1, lift_heap. rewrite Ht.
      destruct (IH w hd None) as (rs & w' & Hrun' & Hrs); try done.
      rewrite run_bind, Hrun'. eexists _, w'. split; [done|].
      by constructor.
Qed.

Lemma ok_times_spec rs (ss : list (option Z)) :
  Forall2 answer_matches rs ss → ok_times rs = omap id ss.
Proof.
  induction 1 as [|[r v] [t|] rs ss Hm _ IH]; [done| |];
    unfold ok_times in *; cbn [omap list_omap]; rewrite IH; simpl in Hm.
  - destruct Hm as [-> ->]. done.
  - rewrite Hm. done.
Qed.

(** When the arrival times do not decrease, neither do the timestamps the
    spec answers, from the last arrival time [lo] on; the time [last] to be
    answered is [lo], if it is a time at all. *)
Lemma spec_times_sorted cs :
  ∀ (lo : option Z) last,
    (∀ t, last = Some t → lo = Some t) →
    StronglySorted Z.le (option_list lo ++ delivery_times cs) →
    StronglySorted Z.le (option_list lo ++ spec_times last cs).
Proof.
  induction cs as [|[t msg|out] cs IH]; intros lo last Hlast Hs.
  - by rewrite app_nil_r in *.
  - unfold spec_times, delivery_times in *.
    cbn [spec_receive_times omap list_omap] in *.
    assert (StronglySorted Z.le (option_list (Some t) ++
              omap (λ c, match c with
                         | Deliver t _ => Some t
                         | Query _ => None
                         end) cs)) as Hs'.
    { destruct lo; [|done]. simpl in Hs. simpl.
      by apply StronglySorted_inv in Hs as [? _]. }
    assert (∀ t', recorded t = Some t' → Some t = Some t') as Hrec
      by (by intros t' ->%recorded_Some_eq).
    specialize (IH (Some t) (recorded t) Hrec Hs').
    simpl in IH. destruct lo as [l|]; simpl.
    + apply StronglySorted_inv in IH as [IH1 IH2].
      constructor; [done|]. simpl in Hs.
      apply StronglySorted_inv in Hs as [_ Hl].
      apply Forall_cons in Hl as [Hlt _].
      eapply Forall_impl; [done|]. intros x Hx. simpl in Hx. lia.
    + by apply StronglySorted_inv in IH as [? _].
  - unfold spec_times, delivery_times in *.
    cbn [spec_receive_times omap list_omap] in *.
    specialize (IH lo last Hlast Hs). destruct last as [l|]; [|done].
    rewrite (Hlast l eq_refl) in *. simpl in *.
    constructor; [done|].
    apply StronglySorted_inv in IH as [_ IH2]. constructor; [lia|done].
Qed.

End inbound.

(** C8, as amended.  On a client on which no delivery has occurred (its
    stored time is the "indefinite" value, as create leaves it), run any
    deliveries and queries, each query writing to a [time_t], whatever the
    wall clock reads at the deliveries.  The run returns and every query
    answers: indefinite-time before the first delivery; after it, "ok" with
    the arrival time of the most recent delivery, written to the [time_t],
    provided that time is not [(time_t)(-1)], and indefinite-time when it
    is.  If moreover the arrival times do not decrease from one delivery to
    the next, the timestamps returned do not decrease from one query to the
    next. *)
Theorem last_receive_time_queries (w : World) (h : Z)
  (hd : IOTHUB_CLIENT_LL_HANDLE_DATA) (cs : list inbound_call) :
  h ≠ NULL →
  hload_handle h (heap w) = Some hd →
  lastMessageReceiveTime hd = INDEFINITE_TIME →
  Forall (inbound_ok (heap w)) cs →
  ∃ rs w',
    run_inbound h cs w = Some (rs, w') ∧
    Forall2 answer_matches rs (spec_receive_times None cs) ∧
    (StronglySorted Z.le (delivery_times cs) →
     StronglySorted Z.le (ok_times rs)).
Proof.
  intros Hh0 Hh Hlast Hcs.
  destruct (run_inbound_refines_spec h cs w hd None)
    as (rs & w' & Hrun & Hrs); try done.
  exists rs, w'. split; [done|]. split; [done|].
  intros Hs. rewrite (ok_times_spec _ _ Hrs).
  by apply (spec_times_sorted cs None None).
Qed.

Lemma last_receive_time_queries_witness :
  ∃ rs w',
    run_inbound 100 [Query 500; Deliver (-1) 7; Query 500; Deliver 10 7;
                     Query 500; Deliver 15 7; Query 500] example_world
    = Some (rs, w') ∧
    Forall2 answer_matches rs [None; None; Some 10; Some 15] ∧
    StronglySorted Z.le (ok_times rs).
Proof.
  destruct (last_receive_time_queries example_world 100 example_handle
              [Query 500; Deliver (-1) 7; Query 500; Deliver 10 7;
               Query 500; Deliver 15 7; Query 500])
    as (rs & w' & Hrun & Hrs & Hsorted).
  - unfold NULL. lia.
  - apply example_handle_ok.
  - reflexivity.
  - repeat (apply Forall_cons; split); try apply Forall_nil;
      first [ by (split; [unfold NULL; lia | exists 0])
            | exact I ].
  - exists rs, w'. split; [exact Hrun|]. split; [exact Hrs|].
    apply Hsorted. repeat constructor; lia.
Defined.

(** C8 as stated fails on two runs.  A delivery at which [get_time] gives
    [(time_t)(-1)] is followed by a query that answers indefinite-time, not
    the recorded timestamp.  And when the wall clock is set back between two
    deliveries, the timestamps of the two queries decrease. *)
Lemma last_receive_time_counterexample :
  fst <$> run_inbound 100 [Deliver (-1) 7; Query 500] example_world
  = Some [(IOTHUB_CLIENT_INDEFINITE_TIME, 0)] ∧
  fst <$> run_inbound 100 [Deliver 10 7; Query 500; Deliver 5 7; Query 500]
            example_world
  = Some [(IOTHUB_CLIENT_OK, 10); (IOTHUB_CLIENT_OK, 5)].
Proof. split; by vm_compute. Qed.

(** * Further properties *)

(** ** Create and its failure paths *)

Lemma next_address_fresh (m : gmap Z object) :
  next_address m ≠ NULL ∧ m !! next_address m = None.
Proof.
  pose proof (is_fresh ({[NULL]} ∪ dom m)) as Hf.
  apply not_elem_of_union in Hf as [Hf1 Hf2]. split.
  - intros Heq. apply Hf1. unfold next_address in Heq. rewrite Heq.
    by apply elem_of_singleton.
  - by apply not_elem_of_dom.
Qed.

Lemma run_malloc w init :
  env_malloc_fails (env w) = false →
  malloc init w =
  Some (next_address (heap w),
        mkWorld (<[next_address (heap w) := init]> (heap w)) (trace w)
                (env w)).
Proof. intros Hm. unfold malloc. by rewrite Hm. Qed.

Lemma run_free_fresh (m : gmap Z object) p o t e :
  m !! p = None →
  free p (mkWorld (<[p := o]> m) t e) = Some (tt, mkWorld m t e).
Proof.
  intros Hp. rewrite (run_free _ _ o) by (cbn [heap]; by rewrite lookup_insert_eq).
  unfold set_heap. cbn [heap trace env]. by rewrite delete_insert_id.
Qed.

(** Create, step by step: what it returns and the world it leaves, by the
    answers of the environment. *)
Lemma IoTHubClient_LL_Create_run (w : World) (c : IOTHUB_CLIENT_CONFIG) :
  protocol c ≠ NULL →
  env_malloc_fails (env w) = false →
  IoTHubClient_LL_Create (Some c) w =
  if is_null (env_tickcounter_create (env w)) then Some (NULL, w)
  else if is_null (env_transport_create (env w)) then
    Some (NULL,
          mkWorld (heap w)
            (trace w ++
             [EvTransportCreate;
              EvTickCounterDestroy (env_tickcounter_create (env w))])
            (env w))
  else if is_null (env_transport_register (env w)) then
    Some (NULL,
          mkWorld (heap w)
            (trace w ++
             [EvTransportCreate;
              EvTransportRegister (env_transport_create (env w))
                (next_address (heap w));
              EvTransportDestroy (env_transport_create (env w));
              EvTickCounterDestroy (env_tickcounter_create (env w))])
            (env w))
  else
    Some (next_address (heap w),
          mkWorld (<[next_address (heap w) :=
                       ObjHandle (created_handle (next_address (heap w))
                                    (env w))]> (heap w))
            (trace w ++
             [EvTransportCreate;
              EvTransportRegister (env_transport_create (env w))
                (next_address (heap w))])
            (env w)).
Proof.
  intros Hproto Hmalloc.
  destruct (next_address_fresh (heap w)) as [Hh0 Hfree].
  set (h := next_address (heap w)) in *.
  unfold IoTHubClient_LL_Create. rewrite is_null_false by done.
  rewrite run_bind, run_malloc by done. fold h.
  rewrite is_null_false by done.
  unfold tickcounter_create, ask. rewrite run_bind. cbn [env].
  rewrite run_bind, (run_store_handle _ _ (mkWorld _ _ _) _
                       (hload_handle_insert _ _ _)).
  unfold set_heap. cbn [heap trace env]. rewrite insert_insert_eq.
  destruct (is_null (env_tickcounter_create (env w))).
  { rewrite run_bind, run_free_fresh by done. by destruct w. }
  rewrite run_bind, DList_InitializeListHead_handle.
  do 3 (rewrite run_bind, (run_store_handle _ _ (mkWorld _ _ _) _
                             (hload_handle_insert _ _ _));
        unfold set_heap; cbn [heap trace env]; rewrite insert_insert_eq).
  unfold IoTHubTransport_Create. rewrite run_bind, run_bind, run_emit.
  cbn [heap trace env]. unfold ask at 1. cbn [env].
  rewrite run_bind, (run_store_handle _ _ (mkWorld _ _ _) _
                       (hload_handle_insert _ _ _)).
  unfold set_heap. cbn [heap trace env]. rewrite insert_insert_eq.
  destruct (is_null (env_transport_create (env w))).
  { unfold tickcounter_destroy. rewrite run_bind, run_emit.
    cbn [heap trace env]. rewrite run_bind, run_free_fresh by done.
    by rewrite <-app_assoc. }
  unfold IoTHubTransport_Register. rewrite run_bind, run_bind, run_emit.
  cbn [heap trace env]. unfold ask at 1. cbn [env].
  rewrite run_bind, (run_store_handle _ _ (mkWorld _ _ _) _
                       (hload_handle_insert _ _ _)).
  unfold set_heap. cbn [heap trace env]. rewrite insert_insert_eq.
  destruct (is_null (env_transport_register (env w))).
  { unfold IoTHubTransport_Destroy, tickcounter_destroy.
    rewrite run_bind, run_emit. cbn [heap trace env].
    rewrite run_bind, run_emit. cbn [heap trace env].
    rewrite run_bind, run_free_fresh by done.
    by rewrite <-!app_assoc. }
  do 2 (rewrite run_bind, (run_store_handle _ _ (mkWorld _ _ _) _
                             (hload_handle_insert _ _ _));
        unfold set_heap; cbn [heap trace env]; rewrite insert_insert_eq).
  by rewrite <-app_assoc.
Qed.

Lemma is_null_true p : is_null p = true → p = NULL.
Proof. unfold is_null. by intros ?%bool_decide_eq_true. Qed.

Lemma is_null_false_inv p : is_null p = false → p ≠ NULL.
Proof. unfold is_null. by intros ?%bool_decide_eq_false. Qed.

(** X2.  Whenever create returns [NULL], memory is as it was before the
    call: the client record it had allocated is freed.  What it had acquired
    is released in reverse order, so the calls it made are one of: none; the
    attempt to create the transport, then the release of the tick counter;
    the creation of the transport, the attempt to register, then the
    destruction of the transport and the release of the tick counter. *)
Theorem Create_failure_releases_everything
  (config : option IOTHUB_CLIENT_CONFIG) (w w' : World) :
  IoTHubClient_LL_Create config w = Some (NULL, w') →
  heap w' = heap w ∧ env w' = env w ∧
  (trace w' = trace w ∨
   trace w' = trace w ++
     [EvTransportCreate;
      EvTickCounterDestroy (env_tickcounter_create (env w))] ∨
   trace w' = trace w ++
     [EvTransportCreate;
      EvTransportRegister (env_transport_create (env w))
        (next_address (heap w));
      EvTransportDestroy (env_transport_create (env w));
      EvTickCounterDestroy (env_tickcounter_create (env w))]).
Proof.
  destruct config as [c|]; [|intros [= <-]; by auto].
  destruct (is_null (protocol c)) eqn:Hp.
  { unfold IoTHubClient_LL_Create. rewrite Hp. intros [= <-]. by auto. }
  destruct (env_malloc_fails (env w)) eqn:Hm.
  { unfold IoTHubClient_LL_Create. rewrite Hp, run_bind. unfold malloc.
    rewrite Hm. intros [= <-]. by auto. }
  rewrite IoTHubClient_LL_Create_run; [|by apply is_null_false_inv|done].
  destruct (next_address_fresh (heap w)) as [Hfresh _].
  repeat case_match; intros Heq; inversion Heq; subst; cbn [heap trace env];
    by auto.
Qed.

Lemma Create_failure_releases_everything_witness :
  ∃ w', IoTHubClient_LL_Create (Some (mkCONFIG 1 2 3))
          (mkWorld ∅ [] register_fails_env) = Some (NULL, w') ∧
        heap w' = ∅ ∧
        (trace w' = [] ∨
         trace w' = [EvTransportCreate; EvTickCounterDestroy 70] ∨
         trace w' = [EvTransportCreate; EvTransportRegister 50 1;
                     EvTransportDestroy 50; EvTickCounterDestroy 70]).
Proof.
  assert (IoTHubClient_LL_Create (Some (mkCONFIG 1 2 3))
            (mkWorld ∅ [] register_fails_env)
          = Some (NULL,
                  mkWorld ∅ [EvTransportCreate; EvTransportRegister 50 1;
                             EvTransportDestroy 50; EvTickCounterDestroy 70]
                    register_fails_env)) as Hrun by (by vm_compute).
  destruct (Create_failure_releases_everything _ _ _ Hrun)
    as (Hheap & _ & Htr).
  eexists. split; [exact Hrun|]. split; [exact Hheap|].
  right. right. reflexivity.
Defined.

Lemma IoTHubClient_LL_Create_spec_witness :
  ∃ h w', IoTHubClient_LL_Create (Some (mkCONFIG 1 2 3)) empty_world
          = Some (h, w') ∧
          h ≠ NULL ∧
          hload_handle h (heap w')
          = Some (mkHANDLE_DATA (mkDLIST_ENTRY h h) 50 false 60 NULL NULL
                    INDEFINITE_TIME 70 0) ∧
          queue (heap w') h [] ∧
          trace w' = [EvTransportCreate; EvTransportRegister 50 h].
Proof.
  destruct (IoTHubClient_LL_Create_spec empty_world (mkCONFIG 1 2 3))
    as (h & w' & Hrun & Hh & _ & Hhd & Hq & Htr & _).
  - simpl. unfold NULL. lia.
  - reflexivity.
  - simpl. unfold NULL. lia.
  - simpl. unfold NULL. lia.
  - simpl. unfold NULL. lia.
  - exists h, w'. split; [exact Hrun|]. split; [exact Hh|].
    split; [exact Hhd|]. split; [exact Hq|exact Htr].
Defined.

(** ** Create on a shared transport *)

(** Create-with-transport, step by step. *)
Lemma IoTHubClient_LL_CreateWithTransport_run (w : World)
  (c : IOTHUB_CLIENT_DEVICE_CONFIG) :
  dc_protocol c ≠ NULL → dc_transportHandle c ≠ NULL →
  env_malloc_fails (env w) = false →
  IoTHubClient_LL_CreateWithTransport (Some c) w =
  if is_null (env_tickcounter_create (env w)) then Some (NULL, w)
  else if is_null (env_transport_register (env w)) then
    Some (NULL,
          mkWorld (heap w)
            (trace w ++
             [EvTransportRegister (dc_transportHandle c)
                (next_address (heap w));
              EvTickCounterDestroy (env_tickcounter_create (env w))])
            (env w))
  else
    Some (next_address (heap w),
          mkWorld (<[next_address (heap w) :=
                       ObjHandle (shared_handle (next_address (heap w))
                                    (dc_transportHandle c) (env w))]>
                     (heap w))
            (trace w ++
             [EvTransportRegister (dc_transportHandle c)
                (next_address (heap w))])
            (env w)).
Proof.
  intros Hproto Hth Hmalloc.
  destruct (next_address_fresh (heap w)) as [Hh0 Hfree].
  set (h := next_address (heap w)) in *.
  unfold IoTHubClient_LL_CreateWithTransport.
  rewrite !is_null_false by done. cbn [orb].
  rewrite run_bind, run_malloc by done. fold h.
  rewrite is_null_false by done.
  unfold tickcounter_create, ask. rewrite run_bind. cbn [env].
  rewrite run_bind, (run_store_handle _ _ (mkWorld _ _ _) _
                       (hload_handle_insert _ _ _)).
  unfold set_heap. cbn [heap trace env]. rewrite insert_insert_eq.
  destruct (is_null (env_tickcounter_create (env w))).
  { rewrite run_bind, run_free_fresh by done. by destruct w. }
  rewrite run_bind, DList_InitializeListHead_handle.
  do 4 (rewrite run_bind, (run_store_handle _ _ (mkWorld _ _ _) _
                             (hload_handle_insert _ _ _));
        unfold set_heap; cbn [heap trace env]; rewrite insert_insert_eq).
  unfold IoTHubTransport_Register. rewrite run_bind, run_bind, run_emit.
  cbn [heap trace env]. unfold ask at 1. cbn [env].
  rewrite run_bind, (run_store_handle _ _ (mkWorld _ _ _) _
                       (hload_handle_insert _ _ _)).
  unfold set_heap. cbn [heap trace env]. rewrite insert_insert_eq.
  destruct (is_null (env_transport_register (env w))).
  { unfold tickcounter_destroy. rewrite run_bind, run_emit.
    cbn [heap trace env]. rewrite run_bind, run_free_fresh by done.
    by rewrite <-app_assoc. }
  by do 2 (rewrite run_bind, (run_store_handle _ _ (mkWorld _ _ _) _
                                (hload_handle_insert _ _ _));
           unfold set_heap; cbn [heap trace env]; rewrite insert_insert_eq).
Qed.

(** X3.  Create-with-transport never creates and never destroys a
    transport, whatever happens.  When it returns [NULL], memory is as before
    and at most the registration attempt and the release of the tick counter
    were made; when it returns a client, the client is marked as sharing the
    transport it was given, its queue is empty, its default timeout is 0 and
    the only call made is the registration. *)
Theorem CreateWithTransport_never_owns_transport
  (c : IOTHUB_CLIENT_DEVICE_CONFIG) (w w' : World) (h : Z) :
  IoTHubClient_LL_CreateWithTransport (Some c) w = Some (h, w') →
  env w' = env w ∧
  (h = NULL ∧ heap w' = heap w ∧
   (trace w' = trace w ∨
    trace w' = trace w ++
      [EvTransportRegister (dc_transportHandle c) (next_address (heap w));
       EvTickCounterDestroy (env_tickcounter_create (env w))])
   ∨
   h ≠ NULL ∧ heap w !! h = None ∧
   heap w' = <[h := ObjHandle
                       (shared_handle h (dc_transportHandle c) (env w))]>
               (heap w) ∧
   queue (heap w') h [] ∧
   trace w' = trace w ++ [EvTransportRegister (dc_transportHandle c) h]).
Proof.
  destruct (is_null (dc_protocol c) || is_null (dc_transportHandle c))
    eqn:Hp.
  { unfold IoTHubClient_LL_CreateWithTransport. rewrite Hp.
    intros [= <- <-]. split; [done|]. left. by auto. }
  apply orb_false_elim in Hp as [Hp Hth].
  destruct (env_malloc_fails (env w)) eqn:Hm.
  { unfold IoTHubClient_LL_CreateWithTransport. rewrite Hp, Hth.
    cbn [orb]. rewrite run_bind. unfold malloc. rewrite Hm. intros [= <- <-]. split; [done|]. left.
    by auto. }
  rewrite IoTHubClient_LL_CreateWithTransport_run;
    [|by apply is_null_false_inv..|done].
  destruct (next_address_fresh (heap w)) as [Hfresh Hnone].
  repeat case_match; intros Heq; inversion Heq; subst; cbn [heap trace env];
    (split; [done|]).
  all: try (left; split; [done|]; split; [done|]; by auto).
  right. do 3 (split; [done|]). split; [|done].
  split; [|done]. split; [apply NoDup_singleton|].
  cbn [fmap list_fmap]. unfold dseg, linked, hload_Flink, hload_Blink.
  by rewrite lookup_insert_eq.
Qed.

Lemma CreateWithTransport_never_owns_transport_witness :
  ∃ h w', IoTHubClient_LL_CreateWithTransport
            (Some (mkDEVICE_CONFIG 1 50 2 3)) empty_world = Some (h, w') ∧
          h ≠ NULL ∧
          isSharedTransport <$> hload_handle h (heap w') = Some true ∧
          trace w' = [EvTransportRegister 50 h].
Proof.
  assert (IoTHubClient_LL_CreateWithTransport
            (Some (mkDEVICE_CONFIG 1 50 2 3)) empty_world
          = Some (1, mkWorld (<[1 := ObjHandle (shared_handle 1 50 example_env)]>
                                ∅)
                       [EvTransportRegister 50 1] example_env)) as Hrun
    by (by vm_compute).
  destruct (CreateWithTransport_never_owns_transport _ _ _ _ Hrun)
    as [_ [[Hnull _] | (Hh & _ & Hheap & _ & Htr)]].
  - discriminate Hnull.
  - eexists _, _. split; [exact Hrun|]. split; [exact Hh|].
    split; [|exact Htr]. rewrite Hheap. reflexivity.
Defined.

(** ** Destroy, for use after other calls *)

Lemma Destroy_run (fuel : nat) (w : World) (h : Z)
  (hd : IOTHUB_CLIENT_LL_HANDLE_DATA) (q : list QueueEntry) :
  h ≠ NULL →
  hload_handle h (heap w) = Some hd →
  queue (heap w) h q →
  (length q < fuel)%nat →
  ∃ w',
    IoTHubClient_LL_Destroy fuel h w = Some (tt, w') ∧
    trace w' = trace w ++
      [EvTransportUnregister (deviceHandle hd)] ++
      (if isSharedTransport hd then []
       else [EvTransportDestroy (transportHandle hd)]) ++
      completions IOTHUB_CLIENT_CONFIRMATION_BECAUSE_DESTROY q ++
      [EvTickCounterDestroy (tickCounter hd)] ∧
    heap w' = free_all (h :: (qe_addr <$> q)) (heap w) ∧
    env w' = env w.
Proof.
  intros Hnull Hh Hq Hfuel.
  pose proof (queue_head_not_entry _ _ _ Hq) as Hhq.
  unfold IoTHubClient_LL_Destroy. rewrite is_null_false by done.
  rewrite run_bind, (run_load_handle _ _ _ Hh).
  unfold IoTHubTransport_Unregister. rewrite run_bind, run_emit.
  rewrite run_bind, (run_load_handle _ (mkWorld _ _ _) _ Hh).
  rewrite run_bind, run_transport_destroy. cbn [heap trace env].
  rewrite Destroy_loop_SendComplete_loop.
  edestruct (SendComplete_loop_spec IOTHUB_CLIENT_CONFIRMATION_BECAUSE_DESTROY
               q fuel
               (mkWorld (heap w)
                  ((trace w ++ [EvTransportUnregister (deviceHandle hd)]) ++
                   (if isSharedTransport hd then []
                    else [EvTransportDestroy (transportHandle hd)]))
                  (env w)) h)
    as (w2 & Hrun & Htr & Henv & Hd & Hle & Hun); [exact Hq|done|].
  rewrite run_bind, Hrun. cbn [heap trace env] in *.
  destruct (hload_handle_payload (heap w) (heap w2) h hd)
    as (hd2 & Hh2 & Hhd2); [by eapply free_all_kept|done|].
  rewrite run_bind, (run_load_handle _ _ _ Hh2).
  unfold tickcounter_destroy. rewrite run_bind, run_emit.
  apply hload_handle_lookup in Hh2.
  rewrite (run_free _ (mkWorld _ _ _) _ Hh2). cbn [heap trace env set_heap].
  eexists. split; [done|]. unfold set_heap. cbn [heap trace env].
  assert (tickCounter hd2 = tickCounter hd) as -> by (by rewrite Hhd2).
  split; [|split; [|done]].
  - rewrite Htr. by rewrite <-!app_assoc.
  - apply map_eq. intros p. cbn [free_all foldr].
    fold (free_all (qe_addr <$> q) (heap w)).
    destruct (decide (p = h)) as [->|Hne].
    { by rewrite !lookup_delete_eq. }
    rewrite !lookup_delete_ne by done. rewrite lookup_free_all.
    destruct (decide (p ∈ qe_addr <$> q)) as [Hin|Hnin].
    + by eapply free_all_removed.
    + apply Hun. by intros [?|?]%elem_of_cons.
Qed.

(** ** From create to destroy *)

Lemma queue_empty_insert_handle (m : gmap Z object) h hd :
  waitingToSend hd = mkDLIST_ENTRY h h →
  queue (<[h := ObjHandle hd]> m) h [].
Proof.
  intros Hl. split; [|done]. split; [apply NoDup_singleton|].
  cbn [fmap list_fmap]. unfold dseg, linked, hload_Flink, hload_Blink.
  rewrite lookup_insert_eq. cbn [mbind option_bind links_of]. by rewrite Hl.
Qed.

Lemma Create_success_inv (config : option IOTHUB_CLIENT_CONFIG)
  (w w1 : World) (h : Z) :
  IoTHubClient_LL_Create config w = Some (h, w1) → h ≠ NULL →
  heap w !! h = None ∧
  w1 = mkWorld (<[h := ObjHandle (created_handle h (env w))]> (heap w))
         (trace w ++
          [EvTransportCreate;
           EvTransportRegister (env_transport_create (env w)) h])
         (env w).
Proof.
  destruct config as [c|]; [|by intros [= <-]].
  destruct (is_null (protocol c)) eqn:Hp.
  { unfold IoTHubClient_LL_Create. rewrite Hp. by intros [= <-]. }
  destruct (env_malloc_fails (env w)) eqn:Hm.
  { unfold IoTHubClient_LL_Create. rewrite Hp, run_bind. unfold malloc.
    rewrite Hm. by intros [= <-]. }
  rewrite IoTHubClient_LL_Create_run; [|by apply is_null_false_inv|done].
  destruct (next_address_fresh (heap w)) as [_ Hnone].
  repeat case_match; intros Heq; inversion Heq; subst; done.
Qed.

Lemma CreateWithTransport_success_inv
  (config : option IOTHUB_CLIENT_DEVICE_CONFIG) (w w1 : World) (h : Z) :
  IoTHubClient_LL_CreateWithTransport config w = Some (h, w1) → h ≠ NULL →
  ∃ c, config = Some c ∧ heap w !! h = None ∧
       w1 = mkWorld (<[h := ObjHandle
                             (shared_handle h (dc_transportHandle c)
                                (env w))]> (heap w))
              (trace w ++ [EvTransportRegister (dc_transportHandle c) h])
              (env w).
Proof.
  destruct config as [c|]; [|by intros [= <-]].
  destruct (is_null (dc_protocol c) || is_null (dc_transportHandle c))
    eqn:Hp.
  { unfold IoTHubClient_LL_CreateWithTransport. rewrite Hp. by intros [= <-]. }
  apply orb_false_elim in Hp as [Hp Hth].
  destruct (env_malloc_fails (env w)) eqn:Hm.
  { unfold IoTHubClient_LL_CreateWithTransport. rewrite Hp, Hth.
    cbn [orb]. rewrite run_bind. unfold malloc. rewrite Hm. by intros [= <-]. }
  rewrite IoTHubClient_LL_CreateWithTransport_run;
    [|by apply is_null_false_inv..|done].
  destruct (next_address_fresh (heap w)) as [_ Hnone].
  repeat case_match; intros Heq; inversion Heq; subst; try done.
  intros _. by exists c.
Qed.

(** X4.  Destroy right after a successful create gives back the memory
    create was called on: the client record is the only thing create had
    allocated, and destroy frees it.  In between, the transport sees its
    create, the registration, the unregistration and its destroy, once each
    and in this order, before the tick counter is released. *)
Theorem Create_then_Destroy_restores_memory (fuel : nat)
  (config : option IOTHUB_CLIENT_CONFIG) (w w1 : World) (h : Z) :
  IoTHubClient_LL_Create config w = Some (h, w1) →
  h ≠ NULL →
  (0 < fuel)%nat →
  ∃ w2,
    IoTHubClient_LL_Destroy fuel h w1 = Some (tt, w2) ∧
    heap w2 = heap w ∧ env w2 = env w ∧
    trace w2 = trace w ++
      [EvTransportCreate;
       EvTransportRegister (env_transport_create (env w)) h;
       EvTransportUnregister (env_transport_register (env w));
       EvTransportDestroy (env_transport_create (env w));
       EvTickCounterDestroy (env_tickcounter_create (env w))].
Proof.
  intros Hrun Hh Hfuel.
  destruct (Create_success_inv _ _ _ _ Hrun Hh) as [Hnone ->].
  destruct (Destroy_run fuel
              (mkWorld (<[h := ObjHandle (created_handle h (env w))]> (heap w))
                 (trace w ++
                  [EvTransportCreate;
                   EvTransportRegister (env_transport_create (env w)) h])
                 (env w))
              h (created_handle h (env w)) [])
    as (w2 & Hrun2 & Htr & Hheap & Henv); [done| | |done|].
  { apply hload_handle_insert. }
  { by apply queue_empty_insert_handle. }
  exists w2. split; [done|]. cbn [heap trace env] in *.
  split; [|split; [done|]].
  - rewrite Hheap. cbn [fmap list_fmap free_all foldr].
    by rewrite delete_insert_id.
  - rewrite Htr. cbn [created_handle deviceHandle isSharedTransport
                        transportHandle tickCounter completions].
    by rewrite <-app_assoc.
Qed.

Lemma Create_then_Destroy_restores_memory_witness :
  ∃ w2, IoTHubClient_LL_Destroy 1 1
          (mkWorld (<[1 := ObjHandle (created_handle 1 example_env)]> ∅)
             [EvTransportCreate; EvTransportRegister 50 1] example_env)
        = Some (tt, w2) ∧
        heap w2 = ∅ ∧
        trace w2 = [EvTransportCreate; EvTransportRegister 50 1;
                    EvTransportUnregister 60; EvTransportDestroy 50;
                    EvTickCounterDestroy 70].
Proof.
  assert (IoTHubClient_LL_Create (Some (mkCONFIG 1 2 3)) empty_world
          = Some (1, mkWorld
                       (<[1 := ObjHandle (created_handle 1 example_env)]> ∅)
                       [EvTransportCreate; EvTransportRegister 50 1]
                       example_env)) as Hrun by (by vm_compute).
  destruct (Create_then_Destroy_restores_memory 1 _ _ _ _ Hrun)
    as (w2 & Hrun2 & Hheap & _ & Htr).
  - unfold NULL. lia.
  - lia.
  - exists w2. split; [exact Hrun2|]. split; [exact Hheap|exact Htr].
Defined.

(** X5.  Destroy right after a successful create-with-transport gives back
    the memory and never touches the life of the transport: the transport
    sees the registration and the unregistration, and neither a create nor a
    destroy. *)
Theorem CreateWithTransport_then_Destroy_keeps_transport (fuel : nat)
  (c : IOTHUB_CLIENT_DEVICE_CONFIG) (w w1 : World) (h : Z) :
  IoTHubClient_LL_CreateWithTransport (Some c) w = Some (h, w1) →
  h ≠ NULL →
  (0 < fuel)%nat →
  ∃ w2,
    IoTHubClient_LL_Destroy fuel h w1 = Some (tt, w2) ∧
    heap w2 = heap w ∧ env w2 = env w ∧
    trace w2 = trace w ++
      [EvTransportRegister (dc_transportHandle c) h;
       EvTransportUnregister (env_transport_register (env w));
       EvTickCounterDestroy (env_tickcounter_create (env w))].
Proof.
  intros Hrun Hh Hfuel.
  destruct (CreateWithTransport_success_inv _ _ _ _ Hrun Hh)
    as (c' & [= <-] & Hnone & ->).
  destruct (Destroy_run fuel
              (mkWorld (<[h := ObjHandle
                                 (shared_handle h (dc_transportHandle c)
                                    (env w))]> (heap w))
                 (trace w ++ [EvTransportRegister (dc_transportHandle c) h])
                 (env w))
              h (shared_handle h (dc_transportHandle c) (env w)) [])
    as (w2 & Hrun2 & Htr & Hheap & Henv); [done| | |done|].
  { apply hload_handle_insert. }
  { by apply queue_empty_insert_handle. }
  exists w2. split; [done|]. cbn [heap trace env] in *.
  split; [|split; [done|]].
  - rewrite Hheap. cbn [fmap list_fmap free_all foldr].
    by rewrite delete_insert_id.
  - rewrite Htr. cbn [shared_handle deviceHandle isSharedTransport
                        transportHandle tickCounter completions].
    by rewrite <-app_assoc.
Qed.

Lemma CreateWithTransport_then_Destroy_keeps_transport_witness :
  ∃ w2, IoTHubClient_LL_Destroy 1 1
          (mkWorld (<[1 := ObjHandle (shared_handle 1 50 example_env)]> ∅)
             [EvTransportRegister 50 1] example_env)
        = Some (tt, w2) ∧
        heap w2 = ∅ ∧
        trace w2 = [EvTransportRegister 50 1; EvTransportUnregister 60;
                    EvTickCounterDestroy 70].
Proof.
  assert (IoTHubClient_LL_CreateWithTransport
            (Some (mkDEVICE_CONFIG 1 50 2 3)) empty_world
          = Some (1, mkWorld
                       (<[1 := ObjHandle (shared_handle 1 50 example_env)]> ∅)
                       [EvTransportRegister 50 1] example_env)) as Hrun
    by (by vm_compute).
  destruct (CreateWithTransport_then_Destroy_keeps_transport 1 _ _ _ _ Hrun)
    as (w2 & Hrun2 & Hheap & _ & Htr).
  - unfold NULL. lia.
  - lia.
  - exists w2. split; [exact Hrun2|]. split; [exact Hheap|exact Htr].
Defined.

(** ** The outcomes of send-async *)

Lemma update_heap_inv f (w w' : World) u :
  update_heap f w = Some (u, w') →
  ∃ m, f (heap w) = Some m ∧ w' = set_heap m w.
Proof.
  unfold update_heap. destruct (f (heap w)) as [m|]; [|done].
  intros [= <- <-]. by exists m.
Qed.

Lemma lift_heap_inv {A} (f : gmap Z object → option A) (w w' : World) a :
  lift_heap f w = Some (a, w') → f (heap w) = Some a ∧ w' = w.
Proof.
  unfold lift_heap. destruct (f (heap w)); [|done]. by intros [= <- <-].
Qed.

Lemma run_bind_inv {A B} (c : M A) (f : A → M B) (w w' : World) b :
  (c ≫= f) w = Some (b, w') →
  ∃ a w1, c w = Some (a, w1) ∧ f a w1 = Some (b, w').
Proof.
  rewrite run_bind. destruct (c w) as [[a w1]|]; [|done]. by exists a, w1.
Qed.

(** The list operations write memory and nothing else. *)
Lemma DList_InsertTailList_world hd x (w w' : World) u :
  DList_InsertTailList hd x w = Some (u, w') →
  trace w' = trace w ∧ env w' = env w.
Proof.
  unfold DList_InsertTailList.
  intros (b & w1 & [_ ->]%lift_heap_inv & H)%run_bind_inv.
  apply run_bind_inv in H as (? & w2 & (m2 & _ & ->)%update_heap_inv & H).
  apply run_bind_inv in H as (? & w3 & (m3 & _ & ->)%update_heap_inv & H).
  apply run_bind_inv in H as (? & w4 & (m4 & _ & ->)%update_heap_inv & H).
  apply update_heap_inv in H as (m5 & _ & ->). done.
Qed.

Lemma attach_ms_timesOutAfter_outcome w h hd p r :
  p ≠ h →
  hload_handle h (heap w) = Some hd →
  hload_message p (heap w) = Some r →
  attach_ms_timesOutAfter h p w = Some (451, w) ∧
    currentMessageTimeout hd ≠ 0 ∧ env_tick_ms (env w) = None
  ∨ ∃ x, attach_ms_timesOutAfter h p w =
         Some (0, set_heap (<[p := ObjMessage (set_ms_timesOutAfter x r)]>
                              (heap w)) w).
Proof.
  intros Hne Hh Hr. rewrite (attach_ms_timesOutAfter_spec w h hd p r) by done.
  case_bool_decide; [right; by eexists|].
  destruct (env_tick_ms (env w)); [right; by eexists|by left].
Qed.

(** X6.  Send-async makes no call to the transport or to the application and
    leaves the environment alone.  When it returns anything but "ok" the
    whole world is as before: the record it had allocated is freed again and
    the queue is untouched.  It returns "ok" only when the client and the
    message are not [NULL], a context comes with a callback, the allocation
    succeeded and the message could be cloned. *)
Theorem SendEventAsync_failure_is_atomic (w w' : World) (h msg cb ctx : Z)
  (r : IOTHUB_CLIENT_RESULT) :
  IoTHubClient_LL_SendEventAsync h msg cb ctx w = Some (r, w') →
  trace w' = trace w ∧ env w' = env w ∧
  (r ≠ IOTHUB_CLIENT_OK → w' = w) ∧
  (r = IOTHUB_CLIENT_OK →
   h ≠ NULL ∧ msg ≠ NULL ∧ (cb = NULL → ctx = NULL) ∧
   env_malloc_fails (env w) = false ∧ env_message_clone (env w) ≠ NULL).
Proof.
  unfold IoTHubClient_LL_SendEventAsync.
  destruct (is_null h || is_null msg || is_null cb && negb (is_null ctx))
    eqn:Hargs.
  { by intros [= <- <-]. }
  apply orb_false_elim in Hargs as [[Hh Hmsg]%orb_false_elim Hcb].
  apply is_null_false_inv in Hh, Hmsg.
  assert (cb = NULL → ctx = NULL) as Hcb'.
  { intros ->. rewrite is_null_NULL in Hcb. cbn [andb] in Hcb.
    apply negb_false_iff in Hcb. by apply is_null_true. }
  rewrite run_bind. destruct (env_malloc_fails (env w)) eqn:Hm.
  { unfold malloc. rewrite Hm, is_null_NULL. by intros [= <- <-]. }
  rewrite run_malloc by done.
  destruct (next_address_fresh (heap w)) as [Hp0 Hpfree].
  set (p := next_address (heap w)) in *. rewrite is_null_false by done.
  rewrite run_bind.
  destruct (hload_handle h (<[p := ObjMessage uninit_message]> (heap w)))
    as [hd|] eqn:Hhd.
  2:{ unfold attach_ms_timesOutAfter. rewrite run_bind.
      unfold load_handle at 1, lift_heap. cbn [heap]. by rewrite Hhd. }
  assert (p ≠ h) as Hph.
  { intros ->. apply hload_handle_lookup in Hhd.
    by rewrite lookup_insert_eq in Hhd. }
  destruct (attach_ms_timesOutAfter_outcome
              (mkWorld (<[p := ObjMessage uninit_message]> (heap w))
                 (trace w) (env w)) h hd p uninit_message)
    as [[-> _] | [x ->]]; [done|done|apply hload_message_insert| |].
  { rewrite bool_decide_eq_false_2 by done. cbn [negb].
    rewrite run_bind, run_free_fresh by done. destruct w.
    by intros [= <- <-]. }
  rewrite bool_decide_eq_true_2 by done. cbn [negb].
  unfold set_heap. cbn [heap trace env]. rewrite insert_insert_eq.
  unfold IoTHubMessage_Clone, ask. rewrite run_bind. cbn [env].
  rewrite run_bind, (run_store_message _ _ (mkWorld _ _ _) _
                       (hload_message_insert _ _ _)).
  unfold set_heap. cbn [heap trace env]. rewrite insert_insert_eq.
  destruct (is_null (env_message_clone (env w))) eqn:Hclone.
  { rewrite run_bind, run_free_fresh by done. destruct w.
    by intros [= <- <-]. }
  apply is_null_false_inv in Hclone.
  rewrite run_bind, (run_store_message _ _ (mkWorld _ _ _) _
                       (hload_message_insert _ _ _)).
  unfold set_heap. cbn [heap trace env]. rewrite insert_insert_eq.
  rewrite run_bind, (run_store_message _ _ (mkWorld _ _ _) _
                       (hload_message_insert _ _ _)).
  unfold set_heap. cbn [heap trace env]. rewrite insert_insert_eq.
  intros (u & w6 & [Htr Henv]%DList_InsertTailList_world & [= <- <-])
    %run_bind_inv.
  cbn [heap trace env] in *. by repeat (split; [done|]).
Qed.

Lemma SendEventAsync_failure_is_atomic_witness :
  ∃ r w', IoTHubClient_LL_SendEventAsync 100 7 8 9 clone_fails_world
          = Some (r, w') ∧
          r = IOTHUB_CLIENT_ERROR ∧ w' = clone_fails_world.
Proof.
  assert (IoTHubClient_LL_SendEventAsync 100 7 8 9 clone_fails_world
          = Some (IOTHUB_CLIENT_ERROR, clone_fails_world)) as Hrun
    by (by vm_compute).
  destruct (SendEventAsync_failure_is_atomic _ _ _ _ _ _ _ Hrun)
    as (_ & _ & Hsame & _).
  eexists _, _. split; [exact Hrun|]. split; [reflexivity|].
  apply Hsame. discriminate.
Defined.

(** ** From send-async to the completion of the entry *)

(** The expiry send-async gives to a new entry. *)
Lemma new_expiry_cases (hd : IOTHUB_CLIENT_LL_HANDLE_DATA) (e : Environment) :
  currentMessageTimeout hd = 0 ∨ is_Some (env_tick_ms e) →
  ∃ expiry,
    currentMessageTimeout hd = 0 ∧ expiry = 0 ∨
    currentMessageTimeout hd ≠ 0 ∧
    ∃ ms, env_tick_ms e = Some ms ∧
          expiry = uint64_add ms (currentMessageTimeout hd).
Proof.
  destruct (decide (currentMessageTimeout hd = 0)) as [Ht|Ht].
  - intros _. exists 0. by left.
  - intros [?|[ms Hms]]; [done|]. eexists. right. split; [done|].
    by exists ms.
Qed.

(** X7.  A message accepted by send-async and still queued when the client
    is destroyed is completed by destroy: after every entry that was queued
    before it, its callback (when it has one) is called once, with the status
    "because destroy" and the context given to send-async, and its message
    copy is released.  Afterwards memory is what destroy alone would have
    left: the record of the new entry is freed too. *)
Theorem SendEventAsync_then_Destroy (fuel : nat) (w : World)
  (h msg cb ctx : Z) (hd : IOTHUB_CLIENT_LL_HANDLE_DATA)
  (q : list QueueEntry) :
  h ≠ NULL → msg ≠ NULL → (cb = NULL → ctx = NULL) →
  hload_handle h (heap w) = Some hd →
  queue (heap w) h q →
  env_malloc_fails (env w) = false →
  env_message_clone (env w) ≠ NULL →
  currentMessageTimeout hd = 0 ∨ is_Some (env_tick_ms (env w)) →
  (S (length q) < fuel)%nat →
  ∃ w1 w2,
    IoTHubClient_LL_SendEventAsync h msg cb ctx w
    = Some (IOTHUB_CLIENT_OK, w1) ∧
    IoTHubClient_LL_Destroy fuel h w1 = Some (tt, w2) ∧
    trace w2 = trace w ++
      [EvTransportUnregister (deviceHandle hd)] ++
      (if isSharedTransport hd then []
       else [EvTransportDestroy (transportHandle hd)]) ++
      completions IOTHUB_CLIENT_CONFIRMATION_BECAUSE_DESTROY q ++
      (if is_null cb then []
       else [EvEventConfirmation cb
               IOTHUB_CLIENT_CONFIRMATION_BECAUSE_DESTROY ctx]) ++
      [EvMessageDestroy (env_message_clone (env w));
       EvTickCounterDestroy (tickCounter hd)] ∧
    heap w2 = free_all (h :: (qe_addr <$> q)) (heap w).
Proof.
  intros Hh0 Hmsg Hcb Hh Hq Hmalloc Hclone Htick Hfuel.
  destruct (new_expiry_cases hd (env w) Htick) as [expiry Hexp].
  destruct (SendEventAsync_enqueues w h hd q msg cb ctx expiry)
    as (w1 & p & Hrun & Hp0 & Hpfree & Hq1 & Htr1 & Henv1 & Hun1 & Hpay);
    [done..|].
  destruct (hload_handle_payload (heap w) (heap w1) h hd)
    as (hd1 & Hh1 & Hhd1); [done..|].
  destruct (Destroy_run fuel w1 h hd1
              (q ++ [mkQueueEntry p (env_message_clone (env w)) cb ctx
                       expiry]))
    as (w2 & Hrun2 & Htr2 & Hheap2 & Henv2); [done..| |].
  { rewrite length_app. simpl. lia. }
  exists w1, w2. split; [done|]. split; [done|]. split.
  - rewrite Htr2, Htr1, Hhd1. cbn [set_waitingToSend deviceHandle
      isSharedTransport transportHandle tickCounter].
    unfold completions. rewrite fmap_app, concat_app. simpl.
    unfold completion. cbn [qe_callback qe_context qe_message].
    rewrite app_nil_r. by rewrite <-!app_assoc.
  - rewrite Hheap2. apply map_eq. intros a.
    rewrite !lookup_free_all, fmap_app. cbn [fmap list_fmap qe_addr].
    assert (p ∉ h :: (qe_addr <$> q)) as Hpq.
    { intros Hin. destruct Hq as [Hd _].
      destruct (dlist_allocated _ _ _ _ Hd Hin) as [o Ho]. congruence. }
    destruct (decide (a ∈ h :: (qe_addr <$> q))) as [Hin|Hnin].
    + rewrite decide_True; [done|].
      apply elem_of_cons in Hin as [->|Hin]; [by left|].
      right. apply elem_of_app. by left.
    + destruct (decide (a = p)) as [->|Hap].
      * rewrite decide_True; [done|]. right. apply elem_of_app. right.
        by left.
      * rewrite decide_False.
        -- apply Hun1. intros [->|[?|?%list_elem_of_singleton]%elem_of_app]
             %elem_of_cons; [apply Hnin; by left| |done].
           apply Hnin. by right.
        -- intros [->|[?|?%list_elem_of_singleton]%elem_of_app]
             %elem_of_cons; [apply Hnin; by left| |done].
           apply Hnin. by right.
Qed.

Lemma SendEventAsync_then_Destroy_witness :
  ∃ w1 w2,
    IoTHubClient_LL_SendEventAsync 100 7 8 9 example_world
    = Some (IOTHUB_CLIENT_OK, w1) ∧
    IoTHubClient_LL_Destroy 5 100 w1 = Some (tt, w2) ∧
    trace w2 =
      [EvTransportUnregister 60; EvTransportDestroy 50;
       EvEventConfirmation 31 IOTHUB_CLIENT_CONFIRMATION_BECAUSE_DESTROY 41;
       EvMessageDestroy 21; EvMessageDestroy 22;
       EvEventConfirmation 33 IOTHUB_CLIENT_CONFIRMATION_BECAUSE_DESTROY 43;
       EvMessageDestroy 23;
       EvEventConfirmation 8 IOTHUB_CLIENT_CONFIRMATION_BECAUSE_DESTROY 9;
       EvMessageDestroy 900; EvTickCounterDestroy 70] ∧
    heap w2 = free_all [100; 200; 300; 400] example_heap.
Proof.
  destruct (SendEventAsync_then_Destroy 5 example_world 100 7 8 9
              example_handle example_queue)
    as (w1 & w2 & Hrun1 & Hrun2 & Htr & Hheap).
  - unfold NULL. lia.
  - unfold NULL. lia.
  - unfold NULL. lia.
  - apply example_handle_ok.
  - apply example_queue_ok.
  - reflexivity.
  - simpl. unfold NULL. lia.
  - left. reflexivity.
  - simpl. lia.
  - exists w1, w2. split; [exact Hrun1|]. split; [exact Hrun2|].
    split; [exact Htr|exact Hheap].
Defined.

(** ** Scans that find nothing to do *)

Lemma DoTimeouts_loop_nothing_expired nowTick hd (q : list QueueEntry) :
  ∀ (pre : list QueueEntry) fuel w,
    queue (heap w) hd (pre ++ q) →
    Forall (λ e, ¬ (qe_expiry e ≠ 0 ∧ qe_expiry e < nowTick)) q →
    (length q < fuel)%nat →
    DoTimeouts_loop fuel hd nowTick (List.hd hd (qe_addr <$> q)) w
    = Some (tt, w).
Proof.
  induction q as [|e q IH]; intros pre fuel w Hq Hno Hfuel.
  - destruct fuel as [|fuel]; [simpl in Hfuel; lia|].
    cbn [DoTimeouts_loop fmap list_fmap List.hd].
    by rewrite bool_decide_eq_true_2.
  - destruct fuel as [|fuel]; [simpl in Hfuel; lia|].
    apply Forall_cons in Hno as [He Hno].
    pose proof Hq as (Hd & Hhold & Hne & Hnin)%queue_app_cons_inv.
    pose proof Hhold as (r0 & Hr0 & Hmh & Hcb & Hctx & Hms)%holds_message.
    pose proof (dlist_next _ _ _ _ _ Hd) as Hnext.
    rewrite fmap_cons. cbn [DoTimeouts_loop List.hd].
    rewrite bool_decide_eq_false_2 by done.
    rewrite run_bind, (run_load_message _ _ _ Hr0).
    rewrite (expired_test _ e) by done.
    destruct (expired nowTick e) eqn:Hex.
    { exfalso. apply He. apply expired_iff. by rewrite Hex. }
    rewrite run_bind, (run_load_Flink _ _ _ Hnext).
    apply (IH (pre ++ [e])); [by rewrite <-app_assoc|done|].
    simpl in Hfuel. lia.
Qed.

(** A scan of a queue in which nothing has expired writes nothing and calls
    nothing. *)
Lemma DoTimeouts_nothing_expired fuel w h hd (q : list QueueEntry) nowTick :
  hload_handle h (heap w) = Some hd →
  queue (heap w) h q →
  env_tick_ms (env w) = Some nowTick →
  Forall (λ e, ¬ (qe_expiry e ≠ 0 ∧ qe_expiry e < nowTick)) q →
  (length q < fuel)%nat →
  DoTimeouts fuel h w = Some (tt, w).
Proof.
  intros Hh Hq Htick Hno Hfuel. unfold DoTimeouts.
  rewrite run_bind, (run_load_handle _ _ _ Hh).
  unfold tickcounter_get_current_ms, ask. rewrite run_bind, Htick.
  pose proof Hq as [[_ Hs] _]. apply dseg_first in Hs.
  rewrite run_bind, (run_load_Flink _ _ _ Hs).
  by apply (DoTimeouts_loop_nothing_expired nowTick h q []).
Qed.

Lemma DoTimeouts_keeps_handle w w' h hd (q : list QueueEntry) nowTick :
  hload_handle h (heap w) = Some hd →
  queue (heap w) h q →
  links_equiv
    (free_all
       (qe_addr <$> filter (λ e, qe_expiry e ≠ 0 ∧ qe_expiry e < nowTick) q)
       (heap w))
    (heap w') →
  ∃ hd', hload_handle h (heap w') = Some hd' ∧
         hd' = set_waitingToSend (waitingToSend hd') hd.
Proof.
  intros Hh Hq Hle. apply (hload_handle_payload (heap w)); [|done].
  eapply free_all_kept; [done|].
  intros (e & -> & [_ He]%list_elem_of_filter)%list_elem_of_fmap.
  apply (queue_head_not_entry _ _ _ Hq). by apply list_elem_of_fmap_2.
Qed.

(** X8.  A scan is idempotent: after a scan at the clock reading [nowTick],
    a second scan at a reading that is not later finds nothing expired,
    calls no callback and leaves the world exactly as the first scan left
    it; no entry is ever timed out twice. *)
Theorem DoTimeouts_is_idempotent (fuel : nat) (w : World) (h : Z)
  (hd : IOTHUB_CLIENT_LL_HANDLE_DATA) (q : list QueueEntry)
  (nowTick : Z) :
  hload_handle h (heap w) = Some hd →
  queue (heap w) h q →
  env_tick_ms (env w) = Some nowTick →
  (length q < fuel)%nat →
  ∃ w1,
    DoTimeouts fuel h w = Some (tt, w1) ∧
    DoTimeouts fuel h w1 = Some (tt, w1) ∧
    (∀ (e : Environment) (earlier : Z),
       env_tick_ms e = Some earlier → earlier ≤ nowTick →
       DoTimeouts fuel h (set_env e w1) = Some (tt, set_env e w1)).
Proof.
  intros Hh Hq Htick Hfuel.
  destruct (DoTimeouts_spec fuel w h hd q nowTick)
    as (w1 & Hrun & Hq1 & Htr & Henv & Hle & Hun); [done..|].
  destruct (DoTimeouts_keeps_handle w w1 h hd q nowTick)
    as (hd1 & Hh1 & _); [done..|].
  set (kept := filter (λ e, ¬ (qe_expiry e ≠ 0 ∧ qe_expiry e < nowTick)) q)
    in *.
  assert (length kept < fuel)%nat as Hfuel1.
  { eapply Nat.le_lt_trans; [apply length_filter|done]. }
  assert (∀ earlier, earlier ≤ nowTick →
            Forall (λ e, ¬ (qe_expiry e ≠ 0 ∧ qe_expiry e < earlier)) kept)
    as Hno.
  { intros earlier Hle'. apply Forall_forall.
    intros e [He _]%list_elem_of_filter [Hz Hlt]. apply He. split; [done|].
    lia. }
  exists w1. split; [done|]. split.
  - eapply DoTimeouts_nothing_expired; [done|done| |by apply Hno|done].
    by rewrite Henv.
  - intros e earlier He Hle'.
    apply (DoTimeouts_nothing_expired fuel (set_env e w1) h hd1 kept earlier);
      [exact Hh1|exact Hq1|exact He|by apply Hno|exact Hfuel1].
Qed.

Lemma DoTimeouts_is_idempotent_witness :
  ∃ w1, DoTimeouts 4 100 example_world = Some (tt, w1) ∧
        DoTimeouts 4 100 w1 = Some (tt, w1).
Proof.
  destruct (DoTimeouts_is_idempotent 4 example_world 100 example_handle
              example_queue 1000) as (w1 & Hrun1 & Hrun2 & _).
  - apply example_handle_ok.
  - apply example_queue_ok.
  - reflexivity.
  - simpl. lia.
  - exists w1. split; [exact Hrun1|exact Hrun2].
Defined.

Lemma timeout_queue_ok : queue (heap timeout_world) 100 [].
Proof. by apply queue_empty_insert_handle. Qed.

(** ** From send-async to the scan *)

(** A successful send followed, in the environment [e'], by a scan. *)
Lemma SendEventAsync_then_DoTimeouts (fuel : nat) (w : World)
  (h msg cb ctx expiry nowTick : Z) (hd : IOTHUB_CLIENT_LL_HANDLE_DATA)
  (q : list QueueEntry) (e' : Environment) :
  h ≠ NULL → msg ≠ NULL → (cb = NULL → ctx = NULL) →
  hload_handle h (heap w) = Some hd →
  queue (heap w) h q →
  env_malloc_fails (env w) = false →
  env_message_clone (env w) ≠ NULL →
  (currentMessageTimeout hd = 0 ∧ expiry = 0 ∨
   currentMessageTimeout hd ≠ 0 ∧
   ∃ ms, env_tick_ms (env w) = Some ms ∧
         expiry = uint64_add ms (currentMessageTimeout hd)) →
  env_tick_ms e' = Some nowTick →
  (S (length q) < fuel)%nat →
  ∃ w1 w2 p,
    IoTHubClient_LL_SendEventAsync h msg cb ctx w
    = Some (IOTHUB_CLIENT_OK, w1) ∧
    DoTimeouts fuel h (set_env e' w1) = Some (tt, w2) ∧
    queue (heap w2) h
      (filter (λ e, ¬ (qe_expiry e ≠ 0 ∧ qe_expiry e < nowTick))
         (q ++ [mkQueueEntry p (env_message_clone (env w)) cb ctx expiry])) ∧
    trace w2 = trace w ++
      completions IOTHUB_CLIENT_CONFIRMATION_MESSAGE_TIMEOUT
        (filter (λ e, qe_expiry e ≠ 0 ∧ qe_expiry e < nowTick)
           (q ++ [mkQueueEntry p (env_message_clone (env w)) cb ctx
                    expiry])).
Proof.
  intros Hh0 Hmsg Hcb Hh Hq Hmalloc Hclone Hexp Hnow Hfuel.
  destruct (SendEventAsync_enqueues w h hd q msg cb ctx expiry)
    as (w1 & p & Hrun & Hp0 & Hpfree & Hq1 & Htr1 & Henv1 & Hun1 & Hpay);
    [done..|].
  destruct (hload_handle_payload (heap w) (heap w1) h hd)
    as (hd1 & Hh1 & Hhd1); [done..|].
  destruct (DoTimeouts_spec fuel (set_env e' w1) h hd1
              (q ++ [mkQueueEntry p (env_message_clone (env w)) cb ctx
                       expiry]) nowTick)
    as (w2 & Hrun2 & Hq2 & Htr2 & _); [done..| |].
  { rewrite length_app. simpl. lia. }
  exists w1, w2, p. split; [done|]. split; [done|]. split; [done|].
  rewrite Htr2. cbn [trace set_env]. by rewrite Htr1.
Qed.

(** X9.  With the default timeout [T] (not 0) and the clock at [ms] when the
    message is sent, the sum fitting in 64 bits: a scan at a clock reading
    up to [ms + T] leaves the new entry queued, last, and calls nothing for
    it; a scan at any later reading removes it and calls its callback (when
    it has one) once with the timeout status and its context, then releases
    its message copy.  The older entries fare as by their own expiry. *)
Theorem SendEventAsync_then_scan_timeout (fuel : nat) (w : World)
  (h msg cb ctx ms nowTick : Z) (hd : IOTHUB_CLIENT_LL_HANDLE_DATA)
  (q : list QueueEntry) (e' : Environment) :
  h ≠ NULL → msg ≠ NULL → (cb = NULL → ctx = NULL) →
  hload_handle h (heap w) = Some hd →
  queue (heap w) h q →
  env_malloc_fails (env w) = false →
  env_message_clone (env w) ≠ NULL →
  0 < currentMessageTimeout hd →
  env_tick_ms (env w) = Some ms →
  0 ≤ ms →
  ms + currentMessageTimeout hd < UINT64_MOD →
  env_tick_ms e' = Some nowTick →
  (S (length q) < fuel)%nat →
  ∃ w1 w2 p,
    IoTHubClient_LL_SendEventAsync h msg cb ctx w
    = Some (IOTHUB_CLIENT_OK, w1) ∧
    DoTimeouts fuel h (set_env e' w1) = Some (tt, w2) ∧
    (nowTick ≤ ms + currentMessageTimeout hd →
     queue (heap w2) h
       (filter (λ e, ¬ (qe_expiry e ≠ 0 ∧ qe_expiry e < nowTick)) q ++
        [mkQueueEntry p (env_message_clone (env w)) cb ctx
           (ms + currentMessageTimeout hd)]) ∧
     trace w2 = trace w ++
       completions IOTHUB_CLIENT_CONFIRMATION_MESSAGE_TIMEOUT
         (filter (λ e, qe_expiry e ≠ 0 ∧ qe_expiry e < nowTick) q)) ∧
    (ms + currentMessageTimeout hd < nowTick →
     queue (heap w2) h
       (filter (λ e, ¬ (qe_expiry e ≠ 0 ∧ qe_expiry e < nowTick)) q) ∧
     trace w2 = trace w ++
       completions IOTHUB_CLIENT_CONFIRMATION_MESSAGE_TIMEOUT
         (filter (λ e, qe_expiry e ≠ 0 ∧ qe_expiry e < nowTick) q) ++
       (if is_null cb then []
        else [EvEventConfirmation cb
                IOTHUB_CLIENT_CONFIRMATION_MESSAGE_TIMEOUT ctx]) ++
       [EvMessageDestroy (env_message_clone (env w))]).
Proof.
  intros Hh0 Hmsg Hcb Hh Hq Hmalloc Hclone HT Hms Hms0 Hrange Hnow Hfuel.
  destruct (SendEventAsync_then_DoTimeouts fuel w h msg cb ctx
              (ms + currentMessageTimeout hd) nowTick hd q e')
    as (w1 & w2 & p & Hrun1 & Hrun2 & Hq2 & Htr2); try done.
  { right. split; [lia|]. exists ms. split; [done|].
    rewrite uint64_add_exact; [done|lia]. }
  exists w1, w2, p. split; [done|]. split; [done|].
  rewrite !filter_app in Hq2, Htr2. split; intros Hcmp.
  - rewrite filter_cons_True, filter_nil in Hq2
      by (cbn [qe_expiry]; lia).
    rewrite filter_cons_False, filter_nil, app_nil_r in Htr2
      by (cbn [qe_expiry]; lia).
    done.
  - rewrite filter_cons_False, filter_nil, app_nil_r in Hq2
      by (cbn [qe_expiry]; lia).
    rewrite filter_cons_True, filter_nil in Htr2
      by (cbn [qe_expiry]; lia).
    split; [done|]. rewrite Htr2. unfold completions.
    rewrite fmap_app, concat_app. simpl. by rewrite app_nil_r.
Qed.

Lemma SendEventAsync_then_scan_timeout_witness :
  ∃ w1 w2,
    IoTHubClient_LL_SendEventAsync 100 7 8 9 timeout_world
    = Some (IOTHUB_CLIENT_OK, w1) ∧
    DoTimeouts 2 100 (set_env later_env w1) = Some (tt, w2) ∧
    queue (heap w2) 100 [] ∧
    trace w2 = [EvEventConfirmation 8
                  IOTHUB_CLIENT_CONFIRMATION_MESSAGE_TIMEOUT 9;
                EvMessageDestroy 900].
Proof.
  destruct (SendEventAsync_then_scan_timeout 2 timeout_world 100 7 8 9 1000
              1501 timeout_handle [] later_env)
    as (w1 & w2 & p & Hrun1 & Hrun2 & _ & Hlate).
  - unfold NULL. lia.
  - unfold NULL. lia.
  - unfold NULL. lia.
  - reflexivity.
  - apply timeout_queue_ok.
  - reflexivity.
  - simpl. unfold NULL. lia.
  - simpl. lia.
  - reflexivity.
  - lia.
  - simpl. unfold UINT64_MOD. lia.
  - reflexivity.
  - simpl. lia.
  - destruct Hlate as [Hq Htr]; [simpl; lia|].
    exists w1, w2. split; [exact Hrun1|]. split; [exact Hrun2|].
    split; [exact Hq|exact Htr].
Defined.

(** X10.  With the default timeout 0 the new entry never expires: a scan at
    any clock reading leaves it queued, last, and calls nothing for it. *)
Theorem SendEventAsync_without_timeout_never_expires (fuel : nat)
  (w : World) (h msg cb ctx nowTick : Z) (hd : IOTHUB_CLIENT_LL_HANDLE_DATA)
  (q : list QueueEntry) (e' : Environment) :
  h ≠ NULL → msg ≠ NULL → (cb = NULL → ctx = NULL) →
  hload_handle h (heap w) = Some hd →
  queue (heap w) h q →
  env_malloc_fails (env w) = false →
  env_message_clone (env w) ≠ NULL →
  currentMessageTimeout hd = 0 →
  env_tick_ms e' = Some nowTick →
  (S (length q) < fuel)%nat →
  ∃ w1 w2 p,
    IoTHubClient_LL_SendEventAsync h msg cb ctx w
    = Some (IOTHUB_CLIENT_OK, w1) ∧
    DoTimeouts fuel h (set_env e' w1) = Some (tt, w2) ∧
    queue (heap w2) h
      (filter (λ e, ¬ (qe_expiry e ≠ 0 ∧ qe_expiry e < nowTick)) q ++
       [mkQueueEntry p (env_message_clone (env w)) cb ctx 0]) ∧
    trace w2 = trace w ++
      completions IOTHUB_CLIENT_CONFIRMATION_MESSAGE_TIMEOUT
        (filter (λ e, qe_expiry e ≠ 0 ∧ qe_expiry e < nowTick) q).
Proof.
  intros Hh0 Hmsg Hcb Hh Hq Hmalloc Hclone HT Hnow Hfuel.
  destruct (SendEventAsync_then_DoTimeouts fuel w h msg cb ctx 0 nowTick hd
              q e')
    as (w1 & w2 & p & Hrun1 & Hrun2 & Hq2 & Htr2); try done.
  { by left. }
  exists w1, w2, p. split; [done|]. split; [done|].
  rewrite !filter_app in Hq2, Htr2.
  rewrite filter_cons_True, filter_nil in Hq2 by (cbn [qe_expiry]; lia).
  rewrite filter_cons_False, filter_nil, app_nil_r in Htr2
    by (cbn [qe_expiry]; lia).
  done.
Qed.

Lemma SendEventAsync_without_timeout_never_expires_witness :
  ∃ w1 w2 p,
    IoTHubClient_LL_SendEventAsync 100 7 8 9 example_world
    = Some (IOTHUB_CLIENT_OK, w1) ∧
    DoTimeouts 5 100 (set_env later_env w1) = Some (tt, w2) ∧
    queue (heap w2) 100
      [mkQueueEntry 300 22 0 0 0; mkQueueEntry 400 23 33 43 2000;
       mkQueueEntry p 900 8 9 0].
Proof.
  destruct (SendEventAsync_without_timeout_never_expires 5 example_world 100
              7 8 9 1501 example_handle example_queue later_env)
    as (w1 & w2 & p & Hrun1 & Hrun2 & Hq & _).
  - unfold NULL. lia.
  - unfold NULL. lia.
  - unfold NULL. lia.
  - apply example_handle_ok.
  - apply example_queue_ok.
  - reflexivity.
  - simpl. unfold NULL. lia.
  - reflexivity.
  - reflexivity.
  - simpl. lia.
  - exists w1, w2, p. split; [exact Hrun1|]. split; [exact Hrun2|exact Hq].
Defined.

(** ** From the scan to destroy *)

Lemma releases_app t1 t2 : releases (t1 ++ t2) = releases t1 ++ releases t2.
Proof. apply omap_app. Qed.

(** Completing entries releases the message copy of each one, once. *)
Lemma releases_completions r q : releases (completions r q) = qe_message <$> q.
Proof.
  induction q as [|e q IH]; [done|].
  rewrite completions_cons, releases_app, IH. unfold completion.
  rewrite releases_app. by destruct (is_null (qe_callback e)).
Qed.

Lemma addr_expired_or_kept nowTick (q : list QueueEntry) k :
  k ∈ qe_addr <$> q →
  k ∈ qe_addr <$> filter (λ e, qe_expiry e ≠ 0 ∧ qe_expiry e < nowTick) q ∨
  k ∈ qe_addr <$>
    filter (λ e, ¬ (qe_expiry e ≠ 0 ∧ qe_expiry e < nowTick)) q.
Proof.
  intros (e & -> & He)%list_elem_of_fmap.
  destruct (decide (qe_expiry e ≠ 0 ∧ qe_expiry e < nowTick)) as [Hx|Hx].
  - left. apply list_elem_of_fmap. exists e. split; [done|].
    by apply list_elem_of_filter.
  - right. apply list_elem_of_fmap. exists e. split; [done|].
    by apply list_elem_of_filter.
Qed.

(** X11.  A scan followed by destroy completes every entry of the queue
    exactly once: the expired ones with the timeout status, during the scan,
    the others with the destroy status, during destroy.  Each message copy
    is released once, and in the end the client record and every entry
    record are freed and nothing else in memory has changed. *)
Theorem DoTimeouts_then_Destroy_completes_once (fuel : nat) (w : World)
  (h : Z) (hd : IOTHUB_CLIENT_LL_HANDLE_DATA) (q : list QueueEntry)
  (nowTick : Z) :
  h ≠ NULL →
  hload_handle h (heap w) = Some hd →
  queue (heap w) h q →
  env_tick_ms (env w) = Some nowTick →
  (length q < fuel)%nat →
  ∃ w1 w2,
    DoTimeouts fuel h w = Some (tt, w1) ∧
    IoTHubClient_LL_Destroy fuel h w1 = Some (tt, w2) ∧
    trace w2 = trace w ++
      completions IOTHUB_CLIENT_CONFIRMATION_MESSAGE_TIMEOUT
        (filter (λ e, qe_expiry e ≠ 0 ∧ qe_expiry e < nowTick) q) ++
      [EvTransportUnregister (deviceHandle hd)] ++
      (if isSharedTransport hd then []
       else [EvTransportDestroy (transportHandle hd)]) ++
      completions IOTHUB_CLIENT_CONFIRMATION_BECAUSE_DESTROY
        (filter (λ e, ¬ (qe_expiry e ≠ 0 ∧ qe_expiry e < nowTick)) q) ++
      [EvTickCounterDestroy (tickCounter hd)] ∧
    releases (trace w2) ≡ₚ releases (trace w) ++ (qe_message <$> q) ∧
    heap w2 = free_all (h :: (qe_addr <$> q)) (heap w).
Proof.
  intros Hnull Hh Hq Htick Hfuel.
  destruct (DoTimeouts_spec fuel w h hd q nowTick)
    as (w1 & Hrun1 & Hq1 & Htr1 & Henv1 & Hle1 & Hun1); [done..|].
  destruct (DoTimeouts_keeps_handle w w1 h hd q nowTick)
    as (hd1 & Hh1 & Hhd1); [done..|].
  destruct (Destroy_run fuel w1 h hd1 _ Hnull Hh1 Hq1)
    as (w2 & Hrun2 & Htr2 & Hheap2 & Henv2).
  { eapply Nat.le_lt_trans; [apply length_filter|done]. }
  assert (deviceHandle hd1 = deviceHandle hd) as Hdev by (by rewrite Hhd1).
  assert (isSharedTransport hd1 = isSharedTransport hd) as Hsh
    by (by rewrite Hhd1).
  assert (transportHandle hd1 = transportHandle hd) as Htp
    by (by rewrite Hhd1).
  assert (tickCounter hd1 = tickCounter hd) as Htc by (by rewrite Hhd1).
  rewrite Hdev, Hsh, Htp, Htc, Htr1 in Htr2.
  exists w1, w2. split; [done|]. split; [done|]. split.
  { rewrite Htr2. by rewrite <-!app_assoc. }
  split.
  { rewrite Htr2, !releases_app, !releases_completions.
    rewrite <-app_assoc. apply Permutation_app_head.
    assert (releases [EvTransportUnregister (deviceHandle hd)] = []) as ->
      by done.
    assert (releases (if isSharedTransport hd then []
                      else [EvTransportDestroy (transportHandle hd)]) = [])
      as -> by (by destruct (isSharedTransport hd)).
    assert (releases [EvTickCounterDestroy (tickCounter hd)] = []) as ->
      by done.
    rewrite app_nil_r. cbn [app]. rewrite <-fmap_app.
    apply fmap_Permutation, filter_app_complement. }
  rewrite Hheap2. apply map_eq. intros k. rewrite !lookup_free_all.
  destruct (decide (k ∈ h :: (qe_addr <$> q))) as [Hin|Hout].
  - destruct (decide (k ∈ h :: (qe_addr <$> filter _ q)))
      as [|Hnk]; [done|].
    apply elem_of_cons in Hin as [->|Hin]; [exfalso; apply Hnk; by left|].
    apply (addr_expired_or_kept nowTick) in Hin as [Hx|Hk].
    + by eapply free_all_removed.
    + exfalso. apply Hnk. by right.
  - rewrite decide_False; [by apply Hun1|].
    intros [->|Hk]%elem_of_cons; apply Hout; [by left|right].
    apply list_elem_of_fmap in Hk as (e & -> & He).
    apply list_elem_of_filter in He as [_ He].
    apply list_elem_of_fmap. by exists e.
Qed.

Lemma DoTimeouts_then_Destroy_completes_once_witness :
  ∃ w1 w2,
    DoTimeouts 4 100 (set_env later_env example_world) = Some (tt, w1) ∧
    IoTHubClient_LL_Destroy 4 100 w1 = Some (tt, w2) ∧
    releases (trace w2) ≡ₚ [21; 22; 23] ∧
    heap w2 = free_all [100; 200; 300; 400] example_heap.
Proof.
  destruct (DoTimeouts_then_Destroy_completes_once 4
              (set_env later_env example_world) 100 example_handle
              example_queue 1501)
    as (w1 & w2 & Hrun1 & Hrun2 & _ & Hrel & Hheap).
  - unfold NULL. lia.
  - apply example_handle_ok.
  - apply example_queue_ok.
  - reflexivity.
  - simpl. lia.
  - exists w1, w2. split; [exact Hrun1|]. split; [exact Hrun2|].
    split; [exact Hrel|exact Hheap].
Defined.

(** ** The receive callback: registration and delivery *)

(** The call in closed form, by the callback given and the transport's
    answer. *)
Lemma IoTHubClient_LL_SetMessageCallback_run (w : World) (h cb ctx : Z)
  (hd : IOTHUB_CLIENT_LL_HANDLE_DATA) :
  h ≠ NULL → hload_handle h (heap w) = Some hd →
  IoTHubClient_LL_SetMessageCallback h cb ctx w =
  Some
    (if is_null cb then
       (IOTHUB_CLIENT_OK,
        mkWorld
          (<[h := ObjHandle (set_messageUserContextCallback NULL
                               (set_messageCallback NULL hd))]> (heap w))
          (trace w ++ [EvTransportUnsubscribe (deviceHandle hd)]) (env w))
     else if bool_decide (env_transport_subscribe (env w) = 0) then
       (IOTHUB_CLIENT_OK,
        mkWorld
          (<[h := ObjHandle (set_messageUserContextCallback ctx
                               (set_messageCallback cb hd))]> (heap w))
          (trace w ++ [EvTransportSubscribe (deviceHandle hd)]) (env w))
     else
       (IOTHUB_CLIENT_ERROR,
        mkWorld
          (<[h := ObjHandle (set_messageUserContextCallback NULL
                               (set_messageCallback NULL hd))]> (heap w))
          (trace w ++ [EvTransportSubscribe (deviceHandle hd)]) (env w))).
Proof.
  intros Hnull Hh. unfold IoTHubClient_LL_SetMessageCallback.
  rewrite is_null_false by done.
  assert (∀ t c1 c2,
    (store_handle h (set_messageCallback c1);;
     store_handle h (set_messageUserContextCallback c2))
      (mkWorld (heap w) t (env w)) =
    Some (tt, mkWorld
                (<[h := ObjHandle (set_messageUserContextCallback c2
                                     (set_messageCallback c1 hd))]> (heap w))
                t (env w))) as Hstores.
  { intros t c1 c2.
    rewrite run_bind, (run_store_handle _ _ (mkWorld _ _ _) _ Hh).
    unfold set_heap. cbn [heap trace env].
    rewrite (run_store_handle _ _ (mkWorld _ _ _) (set_messageCallback c1 hd))
      by apply hload_handle_insert.
    unfold set_heap. cbn [heap trace env]. by rewrite insert_insert_eq. }
  assert (∀ t c1 c2 (r : IOTHUB_CLIENT_RESULT),
    (store_handle h (set_messageCallback c1);;
     store_handle h (set_messageUserContextCallback c2);; mret r)
      (mkWorld (heap w) t (env w)) =
    Some (r, mkWorld
               (<[h := ObjHandle (set_messageUserContextCallback c2
                                    (set_messageCallback c1 hd))]> (heap w))
               t (env w))) as Hstores'.
  { intros t c1 c2 r. specialize (Hstores t c1 c2).
    rewrite run_bind in Hstores. rewrite run_bind.
    destruct (store_handle h (set_messageCallback c1) _) as [[[] w1]|];
      [|done].
    rewrite run_bind, Hstores. done. }
  destruct (is_null cb).
  - rewrite run_bind, (run_load_handle _ _ _ Hh).
    unfold IoTHubTransport_Unsubscribe. rewrite run_bind, run_emit.
    by rewrite Hstores'.
  - rewrite run_bind, (run_load_handle _ _ _ Hh).
    unfold IoTHubTransport_Subscribe. rewrite run_bind, run_bind, run_emit.
    unfold ask. cbn [heap trace env].
    case_bool_decide; by rewrite Hstores'.
Qed.

(** Delivery in closed form, by the callback the client has. *)
Lemma IoTHubClient_LL_MessageCallback_run (w : World) (h msg : Z)
  (hd : IOTHUB_CLIENT_LL_HANDLE_DATA) :
  h ≠ NULL → hload_handle h (heap w) = Some hd →
  IoTHubClient_LL_MessageCallback h msg w =
  Some
    (if is_null (messageCallback hd) then
       (IOTHUBMESSAGE_ABANDONED,
        mkWorld
          (<[h := ObjHandle
                    (set_lastMessageReceiveTime (env_time (env w)) hd)]>
             (heap w))
          (trace w) (env w))
     else
       (env_message_disposition (env w),
        mkWorld
          (<[h := ObjHandle
                    (set_lastMessageReceiveTime (env_time (env w)) hd)]>
             (heap w))
          (trace w ++
           [EvMessageCallback (messageCallback hd) msg
              (messageUserContextCallback hd)])
          (env w))).
Proof.
  intros Hnull Hh. unfold IoTHubClient_LL_MessageCallback.
  rewrite is_null_false by done. unfold get_time, ask. rewrite run_bind.
  rewrite run_bind, (run_store_handle _ _ _ _ Hh).
  rewrite run_bind,
    (run_load_handle _ (set_heap _ w)
       (set_lastMessageReceiveTime (env_time (env w)) hd))
    by (apply hload_handle_lookup; cbn [heap set_heap];
        by rewrite lookup_insert_eq).
  assert (messageCallback (set_lastMessageReceiveTime (env_time (env w)) hd)
          = messageCallback hd) as -> by (by destruct hd).
  assert (messageUserContextCallback
            (set_lastMessageReceiveTime (env_time (env w)) hd)
          = messageUserContextCallback hd) as -> by (by destruct hd).
  destruct (is_null (messageCallback hd)); cbn [negb]; [done|].
  by rewrite run_bind, run_emit.
Qed.

(** X12.  Set-message-callback on a client makes exactly one call to the
    transport (unsubscribe for a [NULL] callback, subscribe otherwise) and
    leaves the client with the given callback and context only when it was
    not [NULL] and the transport subscribed, with the result "ok".  For a
    [NULL] callback it returns "ok", and when the transport refuses it
    returns "error"; in both cases the client is left with no callback and
    no context, whatever it had before.  The queue and every other field of
    the client, and the rest of memory, are as before. *)
Theorem SetMessageCallback_outcome (w : World) (h cb ctx : Z)
  (hd : IOTHUB_CLIENT_LL_HANDLE_DATA) (q : list QueueEntry) :
  h ≠ NULL → hload_handle h (heap w) = Some hd → queue (heap w) h q →
  ∃ r w' c1 c2,
    IoTHubClient_LL_SetMessageCallback h cb ctx w = Some (r, w') ∧
    hload_handle h (heap w')
    = Some (set_messageUserContextCallback c2 (set_messageCallback c1 hd)) ∧
    (cb ≠ NULL ∧ env_transport_subscribe (env w) = 0 →
     r = IOTHUB_CLIENT_OK ∧ c1 = cb ∧ c2 = ctx) ∧
    (cb = NULL → r = IOTHUB_CLIENT_OK ∧ c1 = NULL ∧ c2 = NULL) ∧
    (cb ≠ NULL ∧ env_transport_subscribe (env w) ≠ 0 →
     r = IOTHUB_CLIENT_ERROR ∧ c1 = NULL ∧ c2 = NULL) ∧
    trace w' = trace w ++
      [if is_null cb then EvTransportUnsubscribe (deviceHandle hd)
       else EvTransportSubscribe (deviceHandle hd)] ∧
    queue (heap w') h q ∧
    unchanged_outside [h] (heap w) (heap w') ∧
    env w' = env w.
Proof.
  intros Hnull Hh Hq.
  rewrite (IoTHubClient_LL_SetMessageCallback_run w h cb ctx hd) by done.
  assert (∀ c1 c2,
    queue (<[h := ObjHandle (set_messageUserContextCallback c2
                               (set_messageCallback c1 hd))]> (heap w)) h q)
    as Hq'.
  { intros c1 c2. eapply queue_insert_handle; [done| |done]. by destruct hd. }
  assert (∀ o, unchanged_outside [h] (heap w) (<[h := o]> (heap w))) as Hun.
  { intros o p Hp. apply lookup_insert_ne. intros ->. apply Hp. by left. }
  destruct (is_null cb) eqn:Hcb.
  - apply is_null_true in Hcb.
    eexists _, _, NULL, NULL. split; [done|]. cbn [heap trace env].
    split; [apply hload_handle_insert|].
    split; [by intros [? _]|]. split; [done|].
    split; [by intros [? _]|]. by auto.
  - apply is_null_false_inv in Hcb. case_bool_decide as Hsub.
    + eexists _, _, cb, ctx. split; [done|]. cbn [heap trace env].
      split; [apply hload_handle_insert|].
      split; [done|]. split; [done|].
      split; [by intros [_ ?]|]. by auto.
    + eexists _, _, NULL, NULL. split; [done|]. cbn [heap trace env].
      split; [apply hload_handle_insert|].
      split; [by intros [_ ?]|]. split; [done|].
      split; [done|]. by auto.
Qed.

Lemma subscribed_queue_ok : queue (heap subscribed_world) 100 [].
Proof. by apply queue_empty_insert_handle. Qed.

Lemma SetMessageCallback_outcome_witness :
  ∃ w',
    IoTHubClient_LL_SetMessageCallback 100 82 83
      (set_env subscribe_fails_env subscribed_world)
    = Some (IOTHUB_CLIENT_ERROR, w') ∧
    hload_handle 100 (heap w')
    = Some (set_messageUserContextCallback NULL
              (set_messageCallback NULL subscribed_handle)).
Proof.
  destruct (SetMessageCallback_outcome
              (set_env subscribe_fails_env subscribed_world) 100 82 83
              subscribed_handle [])
    as (r & w' & c1 & c2 & Hrun & Hh & _ & _ & Herr & _).
  - unfold NULL. lia.
  - reflexivity.
  - apply subscribed_queue_ok.
  - destruct Herr as (-> & -> & ->).
    + split; [unfold NULL; lia|simpl; lia].
    + exists w'. split; [exact Hrun|exact Hh].
Defined.

(** X13.  After a successful registration of the callback [cb] with the
    context [ctx], delivering the message [msg] calls [cb] once, with [msg]
    and [ctx], returns what the callback answers, and stores the arrival time
    as the client's last-receive time. *)
Theorem SetMessageCallback_then_MessageCallback (w : World)
  (h cb ctx msg : Z) (hd : IOTHUB_CLIENT_LL_HANDLE_DATA)
  (e' : Environment) :
  h ≠ NULL → cb ≠ NULL → hload_handle h (heap w) = Some hd →
  env_transport_subscribe (env w) = 0 →
  ∃ w1 w2,
    IoTHubClient_LL_SetMessageCallback h cb ctx w
    = Some (IOTHUB_CLIENT_OK, w1) ∧
    IoTHubClient_LL_MessageCallback h msg (set_env e' w1)
    = Some (env_message_disposition e', w2) ∧
    trace w2 = trace w ++ [EvTransportSubscribe (deviceHandle hd);
                           EvMessageCallback cb msg ctx] ∧
    hload_handle h (heap w2)
    = Some (set_lastMessageReceiveTime (env_time e')
              (set_messageUserContextCallback ctx
                 (set_messageCallback cb hd))).
Proof.
  intros Hnull Hcb Hh Hsub.
  rewrite (IoTHubClient_LL_SetMessageCallback_run w h cb ctx hd) by done.
  rewrite is_null_false, bool_decide_eq_true_2 by done.
  eexists _, _. split; [done|].
  rewrite (IoTHubClient_LL_MessageCallback_run _ h msg
             (set_messageUserContextCallback ctx (set_messageCallback cb hd)))
    by (done || apply hload_handle_insert).
  assert (messageCallback
            (set_messageUserContextCallback ctx (set_messageCallback cb hd))
          = cb) as -> by (by destruct hd).
  assert (messageUserContextCallback
            (set_messageUserContextCallback ctx (set_messageCallback cb hd))
          = ctx) as -> by (by destruct hd).
  rewrite is_null_false by done. cbn [set_env heap trace env].
  split; [done|]. split; [by rewrite <-app_assoc|].
  apply hload_handle_insert.
Qed.

Lemma SetMessageCallback_then_MessageCallback_witness :
  ∃ w1 w2,
    IoTHubClient_LL_SetMessageCallback 100 82 83 example_world
    = Some (IOTHUB_CLIENT_OK, w1) ∧
    IoTHubClient_LL_MessageCallback 100 7 (set_env later_env w1)
    = Some (IOTHUBMESSAGE_ACCEPTED, w2) ∧
    trace w2 = [EvTransportSubscribe 60; EvMessageCallback 82 7 83].
Proof.
  destruct (SetMessageCallback_then_MessageCallback example_world 100 82 83 7
              example_handle later_env)
    as (w1 & w2 & Hrun1 & Hrun2 & Htr & _).
  - unfold NULL. lia.
  - unfold NULL. lia.
  - apply example_handle_ok.
  - reflexivity.
  - exists w1, w2. split; [exact Hrun1|]. split; [exact Hrun2|exact Htr].
Defined.

(** X14.  After the callback was taken away ([NULL] given), or a registration
    the transport refused, delivering a message calls nothing and returns
    "abandoned", also on a client that had a callback before; the arrival
    time is stored all the same. *)
Theorem MessageCallback_after_unregistration (w : World) (h cb ctx msg : Z)
  (hd : IOTHUB_CLIENT_LL_HANDLE_DATA) (e' : Environment) :
  h ≠ NULL → hload_handle h (heap w) = Some hd →
  cb = NULL ∨ env_transport_subscribe (env w) ≠ 0 →
  ∃ r w1 w2,
    IoTHubClient_LL_SetMessageCallback h cb ctx w = Some (r, w1) ∧
    IoTHubClient_LL_MessageCallback h msg (set_env e' w1)
    = Some (IOTHUBMESSAGE_ABANDONED, w2) ∧
    trace w2 = trace w1 ∧
    hload_handle h (heap w2)
    = Some (set_lastMessageReceiveTime (env_time e')
              (set_messageUserContextCallback NULL
                 (set_messageCallback NULL hd))).
Proof.
  intros Hnull Hh Hcase.
  rewrite (IoTHubClient_LL_SetMessageCallback_run w h cb ctx hd) by done.
  assert (∀ t,
    IoTHubClient_LL_MessageCallback h msg
      (set_env e'
         (mkWorld
            (<[h := ObjHandle (set_messageUserContextCallback NULL
                                 (set_messageCallback NULL hd))]> (heap w))
            t (env w))) =
    Some (IOTHUBMESSAGE_ABANDONED,
          mkWorld
            (<[h := ObjHandle
                      (set_lastMessageReceiveTime (env_time e')
                         (set_messageUserContextCallback NULL
                            (set_messageCallback NULL hd)))]>
               (<[h := ObjHandle (set_messageUserContextCallback NULL
                                    (set_messageCallback NULL hd))]>
                  (heap w)))
            t e')) as Hdeliver.
  { intros t.
    rewrite (IoTHubClient_LL_MessageCallback_run _ h msg
               (set_messageUserContextCallback NULL
                  (set_messageCallback NULL hd)))
      by (done || apply hload_handle_insert).
    assert (messageCallback
              (set_messageUserContextCallback NULL
                 (set_messageCallback NULL hd)) = NULL) as ->
      by (by destruct hd).
    by rewrite is_null_NULL. }
  destruct (is_null cb) eqn:Hcb.
  - eexists _, _, _. split; [done|]. rewrite Hdeliver.
    split; [done|]. split; [done|]. apply hload_handle_insert.
  - apply is_null_false_inv in Hcb. destruct Hcase as [?|Hsub]; [done|].
    rewrite bool_decide_eq_false_2 by done.
    eexists _, _, _. split; [done|]. rewrite Hdeliver.
    split; [done|]. split; [done|]. apply hload_handle_insert.
Qed.

Lemma MessageCallback_after_unregistration_witness :
  ∃ r w1 w2,
    IoTHubClient_LL_SetMessageCallback 100 NULL 0 subscribed_world
    = Some (r, w1) ∧
    IoTHubClient_LL_MessageCallback 100 7 (set_env later_env w1)
    = Some (IOTHUBMESSAGE_ABANDONED, w2) ∧
    trace w2 = trace w1.
Proof.
  destruct (MessageCallback_after_unregistration subscribed_world 100 NULL 0 7
              subscribed_handle later_env)
    as (r & w1 & w2 & Hrun1 & Hrun2 & Htr & _).
  - unfold NULL. lia.
  - reflexivity.
  - left. reflexivity.
  - exists r, w1, w2. split; [exact Hrun1|]. split; [exact Hrun2|exact Htr].
Defined.

(** ** Options the client does not handle itself *)

(** X15.  Set-option with a [NULL] client, name or value returns "invalid
    argument" and does nothing.  With any name other than "messageTimeout"
    it hands the name and the value to the transport, once, and returns the
    transport's answer; it reads nothing through [value] and writes nothing:
    memory, and with it the default timeout and the queue, is as before. *)
Theorem SetOption_passes_other_options_on (w : World) (h value : Z)
  (optionName : option string) (hd : IOTHUB_CLIENT_LL_HANDLE_DATA) :
  (h = NULL ∨ optionName = None ∨ value = NULL →
   IoTHubClient_LL_SetOption h optionName value w
   = Some (IOTHUB_CLIENT_INVALID_ARG, w)) ∧
  (∀ name : string,
     h ≠ NULL → value ≠ NULL → optionName = Some name →
     name ≠ "messageTimeout"%string →
     hload_handle h (heap w) = Some hd →
     IoTHubClient_LL_SetOption h optionName value w
     = Some (env_transport_setoption (env w),
             mkWorld (heap w)
               (trace w ++
                [EvTransportSetOption (transportHandle hd) name value])
               (env w))).
Proof.
  split.
  - unfold IoTHubClient_LL_SetOption. destruct optionName as [name|]; [|done].
    intros [->|[?| ->]]; [done|done|]. by rewrite is_null_NULL, orb_true_r.
  - intros name Hh0 Hv0 -> Hname Hh. unfold IoTHubClient_LL_SetOption.
    rewrite !is_null_false by done. cbn [orb].
    rewrite bool_decide_eq_false_2 by done.
    rewrite run_bind, (run_load_handle _ _ _ Hh).
    unfold IoTHubTransport_SetOption. by rewrite run_bind, run_emit.
Qed.

Lemma SetOption_passes_other_options_on_witness :
  IoTHubClient_LL_SetOption 100 (Some "keepalive"%string) 999 example_world
  = Some (IOTHUB_CLIENT_OK,
          mkWorld example_heap [EvTransportSetOption 50 "keepalive" 999]
            example_env) ∧
  IoTHubClient_LL_SetOption 100 (Some "keepalive"%string) NULL example_world
  = Some (IOTHUB_CLIENT_INVALID_ARG, example_world).
Proof.
  split.
  - apply (proj2 (SetOption_passes_other_options_on example_world 100 999
                    (Some "keepalive"%string) example_handle)
             "keepalive"%string).
    + unfold NULL. lia.
    + unfold NULL. lia.
    + reflexivity.
    + discriminate.
    + apply example_handle_ok.
  - apply (proj1 (SetOption_passes_other_options_on example_world 100 NULL
                    (Some "keepalive"%string) example_handle)).
    right. right. reflexivity.
Defined.

(** ** Batches and the client's own queue *)

Lemma queue_agree m m' hd (q : list QueueEntry) :
  (∀ a, a ∈ hd :: (qe_addr <$> q) → m' !! a = m !! a) →
  queue m hd q → queue m' hd q.
Proof.
  intros Hag [Hd Hq]. split; [by apply (dlist_agree m)|].
  apply (Forall_holds_agree m); [|done]. intros e He. apply Hag. right.
  apply list_elem_of_fmap. by exists e.
Qed.

Lemma SendComplete_loop_empty fuel completed r w :
  dlist (heap w) completed [] → (0 < fuel)%nat →
  SendComplete_loop fuel completed r w = Some (tt, w).
Proof.
  intros Hd Hfuel. destruct fuel as [|fuel]; [lia|].
  cbn [SendComplete_loop].
  rewrite run_bind, DList_RemoveHeadList_nil by done.
  by rewrite bool_decide_eq_true_2.
Qed.

(** X16.  Send-complete on a batch that is apart from the client's own queue
    leaves the client record and its queue as they are; and once a batch has
    been completed, completing it again, with whatever result, does nothing:
    no callback is called a second time and nothing is released twice. *)
Theorem SendComplete_only_touches_the_batch (fuel : nat) (w : World)
  (handle completed : Z) (result result' : IOTHUB_BATCHSTATE_RESULT)
  (hd : IOTHUB_CLIENT_LL_HANDLE_DATA) (q0 q : list QueueEntry) :
  handle ≠ NULL → completed ≠ NULL →
  hload_handle handle (heap w) = Some hd →
  queue (heap w) handle q0 →
  queue (heap w) completed q →
  (∀ a, a ∈ handle :: (qe_addr <$> q0) →
        a ∉ completed :: (qe_addr <$> q)) →
  (length q < fuel)%nat →
  ∃ w',
    IoTHubClient_LL_SendComplete fuel handle completed result w
    = Some (tt, w') ∧
    hload_handle handle (heap w') = Some hd ∧
    queue (heap w') handle q0 ∧
    IoTHubClient_LL_SendComplete fuel handle completed result' w'
    = Some (tt, w').
Proof.
  intros Hh0 Hc0 Hh Hq0 Hq Hapart Hfuel.
  unfold IoTHubClient_LL_SendComplete.
  rewrite !is_null_false by done. cbn [orb].
  destruct (SendComplete_loop_spec
              (if bool_decide (result = IOTHUB_BATCHSTATE_SUCCESS)
               then IOTHUB_CLIENT_CONFIRMATION_OK
               else IOTHUB_CLIENT_CONFIRMATION_ERROR) q fuel w completed)
    as (w' & Hrun & _ & _ & Hd & _ & Hun); [done..|].
  exists w'. split; [done|]. split.
  { unfold hload_handle. rewrite Hun; [done|]. apply Hapart. by left. }
  split.
  { apply (queue_agree (heap w)); [|done]. intros a Ha. by apply Hun, Hapart. }
  apply SendComplete_loop_empty; [done|lia].
Qed.

Lemma batch_queue_ok : queue (heap batch_world) 700 batch_queue.
Proof.
  split.
  - split.
    + change (NoDup [700; 710; 720]). compute_done.
    + vm_compute. by repeat split.
  - by repeat constructor.
Qed.

Lemma SendComplete_only_touches_the_batch_witness :
  ∃ w',
    IoTHubClient_LL_SendComplete 4 100 700 IOTHUB_BATCHSTATE_SUCCESS
      batch_world = Some (tt, w') ∧
    hload_handle 100 (heap w') = Some timeout_handle ∧
    queue (heap w') 100 [] ∧
    IoTHubClient_LL_SendComplete 4 100 700 IOTHUB_BATCHSTATE_FAILED w'
    = Some (tt, w').
Proof.
  apply (SendComplete_only_touches_the_batch 4 batch_world 100 700
           IOTHUB_BATCHSTATE_SUCCESS IOTHUB_BATCHSTATE_FAILED timeout_handle
           [] batch_queue).
  - unfold NULL. lia.
  - unfold NULL. lia.
  - reflexivity.
  - by apply queue_empty_insert_handle.
  - apply batch_queue_ok.
  - intros a Ha. vm_compute in Ha. apply list_elem_of_singleton in Ha as ->.
    simpl. intros Hin. repeat (apply elem_of_cons in Hin as [Hin|Hin];
                               [lia|]).
    by apply elem_of_nil in Hin.
  - simpl. lia.
Defined.

(** ** The client that create returns *)

(** X17.  On the client a successful create returns, nothing has been
    received and no receive callback is set: a query of the last-receive
    time answers "indefinite time" and writes nothing, and a delivered
    message is abandoned without any call. *)
Theorem Create_gives_client_without_inbound_state
  (config : option IOTHUB_CLIENT_CONFIG) (w w1 : World) (h out t msg : Z)
  (e' : Environment) :
  IoTHubClient_LL_Create config w = Some (h, w1) → h ≠ NULL →
  out ≠ NULL → heap w !! out = Some (ObjTime t) →
  IoTHubClient_LL_GetLastMessageReceiveTime h out (set_env e' w1)
  = Some (IOTHUB_CLIENT_INDEFINITE_TIME, set_env e' w1) ∧
  ∃ w2,
    IoTHubClient_LL_MessageCallback h msg (set_env e' w1)
    = Some (IOTHUBMESSAGE_ABANDONED, w2) ∧
    trace w2 = trace w1.
Proof.
  intros Hrun Hh Hout Ht.
  destruct (Create_success_inv _ _ _ _ Hrun Hh) as [Hnone ->].
  assert (out ≠ h) as Hne by (intros ->; congruence).
  split.
  - rewrite (GetLastMessageReceiveTime_run _ h (created_handle h (env w))
               out t); [done|done|done|apply hload_handle_insert|].
    cbn [set_env heap]. by rewrite lookup_insert_ne.
  - rewrite (IoTHubClient_LL_MessageCallback_run _ h msg
               (created_handle h (env w)))
      by (done || apply hload_handle_insert).
    cbn [created_handle messageCallback]. rewrite is_null_NULL.
    by eexists.
Qed.

Lemma Create_gives_client_without_inbound_state_witness :
  ∃ w1 w2,
    IoTHubClient_LL_Create (Some (mkCONFIG 1 2 3)) example_world
    = Some (601, w1) ∧
    IoTHubClient_LL_GetLastMessageReceiveTime 601 500 (set_env later_env w1)
    = Some (IOTHUB_CLIENT_INDEFINITE_TIME, set_env later_env w1) ∧
    IoTHubClient_LL_MessageCallback 601 7 (set_env later_env w1)
    = Some (IOTHUBMESSAGE_ABANDONED, w2) ∧
    trace w2 = trace w1.
Proof.
  assert (IoTHubClient_LL_Create (Some (mkCONFIG 1 2 3)) example_world
          = Some (601, mkWorld
                         (<[601 := ObjHandle
                                     (created_handle 601 example_env)]>
                            example_heap)
                         [EvTransportCreate; EvTransportRegister 50 601]
                       example_env)) as Hrun by (by vm_compute).
  destruct (Create_gives_client_without_inbound_state _ _ _ 601 500 0 7
              later_env Hrun)
    as (Hget & w2 & Hdeliver & Htr).
  - unfold NULL. lia.
  - unfold NULL. lia.
  - reflexivity.
  - eexists _, w2. split; [exact Hrun|]. split; [exact Hget|].
    split; [exact Hdeliver|exact Htr].
Defined.

(** X18.  A message sent on the client a successful create returns gets no
    expiry, whether or not the clock can be read, and is the only entry of
    the queue; no later scan, at whatever clock reading, removes it or calls
    anything. *)
Theorem Create_gives_client_without_timeout
  (config : option IOTHUB_CLIENT_CONFIG) (w w1 : World) (h msg cb ctx : Z)
  (e' : Environment) :
  IoTHubClient_LL_Create config w = Some (h, w1) → h ≠ NULL →
  msg ≠ NULL → (cb = NULL → ctx = NULL) →
  env_malloc_fails e' = false →
  env_message_clone e' ≠ NULL →
  ∃ w2 p,
    IoTHubClient_LL_SendEventAsync h msg cb ctx (set_env e' w1)
    = Some (IOTHUB_CLIENT_OK, w2) ∧
    queue (heap w2) h [mkQueueEntry p (env_message_clone e') cb ctx 0] ∧
    ∀ (fuel : nat) (e'' : Environment) (nowTick : Z),
      (1 < fuel)%nat → env_tick_ms e'' = Some nowTick →
      DoTimeouts fuel h (set_env e'' w2) = Some (tt, set_env e'' w2).
Proof.
  intros Hrun Hh Hmsg Hcb Hmalloc Hclone.
  destruct (Create_success_inv _ _ _ _ Hrun Hh) as [Hnone ->].
  destruct (SendEventAsync_enqueues
              (set_env e'
                 (mkWorld
                    (<[h := ObjHandle (created_handle h (env w))]> (heap w))
                    (trace w ++
                     [EvTransportCreate;
                      EvTransportRegister (env_transport_create (env w)) h])
                    (env w)))
              h (created_handle h (env w)) [] msg cb ctx 0)
    as (w2 & p & Hrun2 & _ & _ & Hq2 & _ & _ & _ & Hpay); try done.
  { apply hload_handle_insert. }
  { by apply queue_empty_insert_handle. }
  { by left. }
  exists w2, p. split; [done|]. split; [done|].
  intros fuel e'' nowTick Hfuel Htick.
  destruct (hload_handle_payload _ (heap w2) h (created_handle h (env w)) Hpay)
    as (hd2 & Hh2 & _); [apply hload_handle_insert|].
  apply (DoTimeouts_nothing_expired fuel (set_env e'' w2) h hd2
           [mkQueueEntry p (env_message_clone e') cb ctx 0] nowTick);
    [done|done|done| |simpl; lia].
  apply Forall_singleton. cbn [qe_expiry]. lia.
Qed.

Lemma Create_gives_client_without_timeout_witness :
  ∃ w1 w2 p,
    IoTHubClient_LL_Create (Some (mkCONFIG 1 2 3)) empty_world
    = Some (1, w1) ∧
    IoTHubClient_LL_SendEventAsync 1 7 8 9 (set_env later_env w1)
    = Some (IOTHUB_CLIENT_OK, w2) ∧
    queue (heap w2) 1 [mkQueueEntry p 900 8 9 0] ∧
    DoTimeouts 2 1 (set_env later_env w2) = Some (tt, set_env later_env w2).
Proof.
  assert (IoTHubClient_LL_Create (Some (mkCONFIG 1 2 3)) empty_world
          = Some (1, mkWorld
                       (<[1 := ObjHandle (created_handle 1 example_env)]> ∅)
                       [EvTransportCreate; EvTransportRegister 50 1]
                       example_env)) as Hrun by (by vm_compute).
  destruct (Create_gives_client_without_timeout _ _ _ 1 7 8 9 later_env Hrun)
    as (w2 & p & Hrun2 & Hq & Hscan).
  - unfold NULL. lia.
  - unfold NULL. lia.
  - unfold NULL. lia.
  - reflexivity.
  - simpl. unfold NULL. lia.
  - eexists _, w2, p. split; [exact Hrun|]. split; [exact Hrun2|].
    split; [exact Hq|]. apply (Hscan 2%nat later_env 1501); [lia|reflexivity].
Defined.
